(** * generic_crud_system: query translation and analysis pipeline

    A shallow embedding of the query builders, the analysis services and the
    pipeline managers of the three variants of the repository

      - [Engine2]  analytics-engine_2/app  (dal/query_builder.py,
                   services/base_service.py, services/pipeline_manager.py,
                   services/analysis_services/__init__.py)
      - [Engine1]  analytics_engine_1/app  (dal/data_access_layer.py,
                   processing/services/, processing/pipeline_manager.py)
      - [Sal1]     sal_1/dal.py  (GenericDataLoader._build_mongodb_filter)
      - [SalesByRegion]  analytics-engine_2/app/services/analysis_services/
                   sales_by_region.py, with the store running its pipeline
      - [UserActivitySummary]  analytics-engine_2/app/services/
                   analysis_services/user_activity_summary.py (the pipeline
                   and the shape of its post-processing)
      - [Engine2Api], [Engine1Api], [Sal1Search]  the request layers
                   (routes.py, request_models.py, main.py, the search
                   service of sal_1)

    Conventions.
      - A Python dict or BSON document is an insertion-ordered association
        list; the result map of a pipeline manager, only ever looked up by
        analysis name, is a [gmap].
      - An exception is a value of [Result]; a method that mutates its
        object returns the object it leaves behind.
      - The document store is an input of the builders: a collection is
        the record of the read operations the code calls on it.  What the
        driver and the store do with a cursor (a limit of 0 is no limit, a
        negative limit caps at its absolute value, a negative skip is
        rejected, the asynchronous [to_list] rejects a length below 1) is
        written out in [Mongo].
      - Log calls are left out, except where logging is all a branch does
        ([add_filter] of engine 2 on an unknown operator).  Wall-clock
        readings are left out.
      - Numbers of the sales analysis are of a type [Num] that comes with
        the operations pandas, Python and the store apply to them (sums
        and means of a column, [round], the accumulators and operators of
        a pipeline): record [SalesByRegion.Arithmetic].  The analysis is
        written over any such record, so that what is proved of it holds
        whether the amounts are machine integers or floats; which rows
        form a group, which columns a frame has and in which order records
        come out is written out.
      - A row of a frame records which keys it has: a missing key, a key
        holding null and a key holding a value are three cases.
      - The pandas computations of the services other than sales_by_region
        of engine 2 are parameters of the sections that use them. *)

From stdpp Require Import gmap strings list sorting pretty.
From Stdlib Require Import ZArith.

Set Warnings "-register-all".
Local Open Scope string_scope.
Local Open Scope Z_scope.

(** ** Python values *)

Module Py.

(** The values that travel through filters and documents.  [VObjectId]
    is the store's native identifier, carried as its hexadecimal text. *)
Inductive Value : Type :=
  | VNone
  | VBool (b : bool)
  | VInt (z : Z)
  | VStr (s : string)
  | VObjectId (hex : string)
  | VList (l : list Value)
  | VDict (d : list (string * Value)).

Abbreviation Dict := (list (string * Value)).

Inductive ExnKind :=
  | ValueError | TypeError | AttributeError | RuntimeError | OperationFailure.

Record Exn := mkExn { exn_kind : ExnKind; exn_msg : string }.

(** [str(e)] of an exception is its message. *)
Definition str_exn (e : Exn) : string := exn_msg e.

Inductive Result (A : Type) : Type :=
  | Ok (a : A)
  | Raise (e : Exn).
Arguments Ok {A} a.
Arguments Raise {A} e.

(** Sequencing: the first exception raised is the result. *)
Definition bind {A B} (m : Result A) (f : A → Result B) : Result B :=
  match m with Ok a => f a | Raise e => Raise e end.

Notation "'let*' x ':=' m 'in' k" := (bind m (λ x, k))
  (at level 10, x name, m at level 100, k at level 200).

(** [try: body except Exception as e: handler(e)] *)
Definition try_except {A} (body : Result A) (handler : Exn → A) : A :=
  match body with Ok a => a | Raise e => handler e end.

(** *** dict operations *)

(** [d.get(k)] *)
Fixpoint dict_get {V} (k : string) (d : list (string * V)) : option V :=
  match d with
  | [] => None
  | (k', v) :: r => if String.eqb k k' then Some v else dict_get k r
  end.

(** [k in d] *)
Definition dict_in {V} (k : string) (d : list (string * V)) : bool :=
  match dict_get k d with Some _ => true | None => false end.

(** [d[k] = v]: an existing key keeps its position, a new one goes last. *)
Fixpoint dict_set {V} (k : string) (v : V) (d : list (string * V))
  : list (string * V) :=
  match d with
  | [] => [(k, v)]
  | (k', v') :: r =>
      if String.eqb k k' then (k, v) :: r else (k', v') :: dict_set k v r
  end.

(** [d.update(e)] *)
Definition dict_update {V} (d e : list (string * V)) : list (string * V) :=
  foldl (λ acc kv, dict_set kv.1 kv.2 acc) d e.

Definition dict_keys {V} (d : list (string * V)) : list string := d.*1.

(** *** truth value testing, [str], iteration *)

Definition truthy (v : Value) : bool :=
  match v with
  | VNone => false
  | VBool b => b
  | VInt z => negb (z =? 0)
  | VStr s => negb (String.eqb s "")
  | VObjectId _ => true
  | VList l => match l with [] => false | _ :: _ => true end
  | VDict d => match d with [] => false | _ :: _ => true end
  end.

(** The truth value of an optional value ([None] when absent). *)
Definition truthy_opt (o : option Value) : bool :=
  match o with Some v => truthy v | None => false end.

Section Str.
(** The text Python prints for a list or a dict is left to the caller:
    no function below looks inside it. *)
Variable py_repr : Value → string.

(** [str(v)] *)
Definition str (v : Value) : string :=
  match v with
  | VStr s => s
  | VObjectId hex => hex
  | VInt z => pretty z
  | VBool true => "True"
  | VBool false => "False"
  | VNone => "None"
  | VList _ | VDict _ => py_repr v
  end.
End Str.

Fixpoint chars (s : string) : list Value :=
  match s with
  | EmptyString => []
  | String c r => VStr (String c EmptyString) :: chars r
  end.

(** The elements [list.extend] draws from its argument. *)
Definition py_iter (v : Value) : Result (list Value) :=
  match v with
  | VList l => Ok l
  | VDict d => Ok (VStr <$> dict_keys d)
  | VStr s => Ok (chars s)
  | _ => Raise (mkExn TypeError "object is not iterable")
  end.

(** ASCII part of [str.lower]. *)
Definition lower_ascii (c : Ascii.ascii) : Ascii.ascii :=
  let n := Ascii.nat_of_ascii c in
  if (Nat.leb 65 n && Nat.leb n 90)%bool then Ascii.ascii_of_nat (n + 32) else c.

Fixpoint lower (s : string) : string :=
  match s with
  | EmptyString => EmptyString
  | String c r => String (lower_ascii c) (lower r)
  end.

Inductive LogLevel := INFO | WARNING | ERROR.
Definition LogRecord : Type := LogLevel * string.

End Py.
Import Py.

(** ** The document store, as the code reads it *)

Module Mongo.

Definition ASCENDING : Z := 1.
Definition DESCENDING : Z := -1.

Abbreviation SortSpec := (list (string * Z)).

(** A collection answers [find] with the documents a filter selects, in
    its natural order, orders documents by a sort specification, and
    runs an aggregation pipeline (which the server may reject). *)
Record Collection := mkCollection {
  coll_find : Dict → list Dict;
  coll_order : SortSpec → list Dict → list Dict;
  coll_aggregate : list Value → Result (list Dict)
}.

(** A pymongo cursor: the matched documents and the options set on it.
    The server applies them as sort, then skip, then limit, whatever the
    order of the calls that set them. *)
Record Cursor := mkCursor {
  cur_docs : list Dict;
  cur_sort : option SortSpec;
  cur_skip : Z;
  cur_limit : Z
}.

Definition find (c : Collection) (q : Dict) : Cursor :=
  mkCursor (coll_find c q) None 0 0.

Definition cursor_sort (spec : SortSpec) (cur : Cursor) : Cursor :=
  mkCursor (cur_docs cur) (Some spec) (cur_skip cur) (cur_limit cur).

(** [Cursor.skip] rejects a negative count. *)
Definition cursor_skip (n : Z) (cur : Cursor) : Result Cursor :=
  if n <? 0 then Raise (mkExn ValueError "skip must be >= 0")
  else Ok (mkCursor (cur_docs cur) (cur_sort cur) n (cur_limit cur)).

Definition cursor_limit (n : Z) (cur : Cursor) : Cursor :=
  mkCursor (cur_docs cur) (cur_sort cur) (cur_skip cur) n.

(** What the sort, skip and limit options do to the matched documents:
    a limit of 0 is no limit, a negative limit caps at its absolute
    value. *)
Definition apply_sort (c : Collection) (s : option SortSpec) (l : list Dict)
  : list Dict :=
  match s with Some spec => coll_order c spec l | None => l end.

Definition apply_skip (n : Z) (l : list Dict) : list Dict :=
  drop (Z.to_nat n) l.

Definition apply_limit (n : Z) (l : list Dict) : list Dict :=
  if n =? 0 then l else take (Z.to_nat (Z.abs n)) l.

(** [list(cursor)] *)
Definition cursor_list (c : Collection) (cur : Cursor) : list Dict :=
  apply_limit (cur_limit cur)
    (apply_skip (cur_skip cur)
      (apply_sort c (cur_sort cur) (cur_docs cur))).

(** [await cursor.to_list(length)]: an integer length below 1 is
    rejected, otherwise at most [length] documents are returned. *)
Definition cursor_to_list (c : Collection) (length : option Z) (cur : Cursor)
  : Result (list Dict) :=
  match length with
  | None => Ok (cursor_list c cur)
  | Some n =>
      if n <? 1 then Raise (mkExn ValueError "to_list() length must be greater than 0")
      else Ok (take (Z.to_nat n) (cursor_list c cur))
  end.

End Mongo.
Import Mongo.

(** ** analytics-engine_2 *)

Module Engine2.

(** *** dal/query_builder.py *)

Record MongoQueryBuilder := mkBuilder {
  collection : Collection;
  query : Dict;
  sort_params : option SortSpec;
  limit_count : option Z;
  skip_count : Z
}.

(** [MongoQueryBuilder(collection)] *)
Definition init (c : Collection) : MongoQueryBuilder :=
  mkBuilder c [] None None 0.

Definition with_query (q : Dict) (self : MongoQueryBuilder) : MongoQueryBuilder :=
  mkBuilder (collection self) q (sort_params self) (limit_count self)
    (skip_count self).

(** [self.query[field] = clause] *)
Definition assign (field : string) (clause : Value) (self : MongoQueryBuilder)
  : MongoQueryBuilder :=
  with_query (dict_set field clause (query self)) self.

Definition re_IGNORECASE : Z := 2.

(** [add_filter]: returns the builder and what it wrote to the log. *)
Definition add_filter (field operator : string) (value : Value)
    (options : option Dict) (self : MongoQueryBuilder)
  : MongoQueryBuilder * list LogRecord :=
  if String.eqb operator "eq" then (assign field value self, [])
  else if String.eqb operator "ne" then
    (assign field (VDict [("$ne", value)]) self, [])
  else if String.eqb operator "gt" then
    (assign field (VDict [("$gt", value)]) self, [])
  else if String.eqb operator "gte" then
    (assign field (VDict [("$gte", value)]) self, [])
  else if String.eqb operator "lt" then
    (assign field (VDict [("$lt", value)]) self, [])
  else if String.eqb operator "lte" then
    (assign field (VDict [("$lte", value)]) self, [])
  else if String.eqb operator "in" then
    (assign field (VDict [("$in", value)]) self, [])
  else if String.eqb operator "nin" then
    (assign field (VDict [("$nin", value)]) self, [])
  else if String.eqb operator "exists" then
    (assign field (VDict [("$exists", value)]) self, [])
  else if String.eqb operator "type" then
    (assign field (VDict [("$type", value)]) self, [])
  else if String.eqb operator "regex" then
    let regex_options :=
      match options with
      | Some o =>
          if (truthy (VDict o) && truthy_opt (dict_get "case_insensitive" o))%bool
          then re_IGNORECASE else 0
      | None => 0
      end in
    (assign field
       (VDict [("$regex", value);
               ("$options", VStr (if regex_options =? 0 then "" else "i"))])
       self, [])
  else if String.eqb operator "all" then
    (assign field (VDict [("$all", value)]) self, [])
  else if String.eqb operator "size" then
    (assign field (VDict [("$size", value)]) self, [])
  else (self, [(WARNING, "Unknown operator: " ++ operator)]).

Definition add_elem_match (field : string) (criteria : Dict)
    (self : MongoQueryBuilder) : MongoQueryBuilder :=
  assign field (VDict [("$elemMatch", VDict criteria)]) self.

(** [add_or_condition]: [extend] needs the value under ["$or"] to be a
    list. *)
Definition add_or_condition (conditions : list Value) (self : MongoQueryBuilder)
  : Result MongoQueryBuilder :=
  let self1 :=
    if dict_in "$or" (query self) then self else assign "$or" (VList []) self in
  match dict_get "$or" (query self1) with
  | Some (VList l) => Ok (assign "$or" (VList (l ++ conditions)%list) self1)
  | _ => Raise (mkExn AttributeError "object has no attribute 'extend'")
  end.

Definition set_sort (field direction : string) (self : MongoQueryBuilder)
  : MongoQueryBuilder :=
  let sort_direction :=
    if String.eqb (lower direction) "asc" then ASCENDING else DESCENDING in
  let current :=
    match sort_params self with
    | Some (x :: r) => x :: r
    | _ => []
    end in
  mkBuilder (collection self) (query self)
    (Some (current ++ [(field, sort_direction)])%list)
    (limit_count self) (skip_count self).

Definition set_limit (count : Z) (self : MongoQueryBuilder)
  : MongoQueryBuilder :=
  mkBuilder (collection self) (query self) (sort_params self) (Some count)
    (skip_count self).

Definition set_skip (count : Z) (self : MongoQueryBuilder) : MongoQueryBuilder :=
  mkBuilder (collection self) (query self) (sort_params self)
    (limit_count self) count.

Section Execute.
Variable py_repr : Value → string.

(** The loop that turns each document's identifier into text. *)
Definition stringify_id (doc : Dict) : Dict :=
  match dict_get "_id" doc with
  | Some v => dict_set "_id" (VStr (str py_repr v)) doc
  | None => doc
  end.

(** [execute]: the [except] clause logs and re-raises, so an exception
    of a cursor call is the result. *)
Definition execute (self : MongoQueryBuilder) : Result (list Dict) :=
  let cursor := find (collection self) (query self) in
  let cursor :=
    match sort_params self with
    | Some (x :: r) => cursor_sort (x :: r) cursor
    | _ => cursor
    end in
  let* cursor := (if 0 <? skip_count self
                  then cursor_skip (skip_count self) cursor else Ok cursor) in
  let cursor :=
    match limit_count self with
    | Some n => if n =? 0 then cursor else cursor_limit n cursor
    | None => cursor
    end in
  let results := cursor_list (collection self) cursor in
  Ok (stringify_id <$> results).

(** [execute_aggregation_pipeline] *)
Definition execute_aggregation_pipeline (pipeline : list Value)
    (self : MongoQueryBuilder) : Result (list Dict) :=
  let* results := coll_aggregate (collection self) pipeline in
  Ok (stringify_id <$> results).
End Execute.

(** *** services/base_service.py *)

(** An analysis service as the pipeline manager sees it: an object with a
    [process] method.  A call may raise as far as the caller knows. *)
Record AnalysisService := mkService {
  name : string;
  process : list Dict → bool → option MongoQueryBuilder → option Dict
            → Result Value
}.

Definition no_data_found : Value :=
  VDict [("message", VStr "No data found"); ("result", VList [])].

Definition no_data_to_analyze : Value :=
  VDict [("message", VStr "No data to analyze"); ("result", VList [])].

Definition error_payload (e : Exn) : Value :=
  VDict [("error", VStr (str_exn e))].

(** [base_query or {}] *)
Definition or_empty (base_query : option Dict) : Dict :=
  match base_query with Some (x :: r) => x :: r | _ => [] end.

Section AbstractAnalysisService.
Variable py_repr : Value → string.

(** The three methods a concrete service supplies.  The first receives the
    rows the [DataFrame] is built from. *)
Variable analyze_with_pandas : list Dict → Result Value.
Variable build_aggregation_pipeline : Dict → list Value.
Variable post_process_aggregation : list Dict → Result Value.

(** [AbstractAnalysisService.process]: every exception of the body ends
    in the error payload. *)
Definition AbstractAnalysisService_process (data : list Dict)
    (use_aggregation : bool) (query_builder : option MongoQueryBuilder)
    (base_query : option Dict) : Value :=
  try_except
    (match use_aggregation, query_builder with
     | true, Some qb =>
         let pipeline := build_aggregation_pipeline (or_empty base_query) in
         let* aggregated_data := execute_aggregation_pipeline py_repr pipeline qb in
         match aggregated_data with
         | _ :: _ => post_process_aggregation aggregated_data
         | [] => Ok no_data_found
         end
     | _, _ =>
         match data with
         | [] => Ok no_data_to_analyze
         | _ :: _ => analyze_with_pandas data
         end
     end)
    error_payload.

Definition concrete_service (service_name : string) : AnalysisService :=
  mkService service_name
    (λ data use_aggregation query_builder base_query,
       Ok (AbstractAnalysisService_process data use_aggregation query_builder
             base_query)).
End AbstractAnalysisService.

(** *** services/analysis_services/__init__.py *)

Section Registry.
Variable py_repr : Value → string.
(** The method bodies of the two registered classes. *)
Variable sales_analyze_with_pandas : list Dict → Result Value.
Variable sales_build_aggregation_pipeline : Dict → list Value.
Variable sales_post_process_aggregation : list Dict → Result Value.
Variable activity_analyze_with_pandas : list Dict → Result Value.
Variable activity_build_aggregation_pipeline : Dict → list Value.
Variable activity_post_process_aggregation : list Dict → Result Value.

Definition SalesByRegionService : AnalysisService :=
  concrete_service py_repr sales_analyze_with_pandas
    sales_build_aggregation_pipeline sales_post_process_aggregation
    "sales_by_region".

Definition UserActivitySummaryService : AnalysisService :=
  concrete_service py_repr activity_analyze_with_pandas
    activity_build_aggregation_pipeline activity_post_process_aggregation
    "user_activity_summary".

Definition AVAILABLE_SERVICES : list (string * AnalysisService) :=
  [("sales_by_region", SalesByRegionService);
   ("user_activity_summary", UserActivitySummaryService)].
End Registry.

(** *** services/pipeline_manager.py *)

Record PipelineManager := mkManager { use_aggregation : bool }.

(** The wall-clock readings are left out: [execution_times_ms] keeps the
    names that received a timing entry. *)
Record Execution := mkExecution {
  results : gmap string Value;
  execution_times_ms : gset string
}.

Definition not_found_payload (analysis_name : string) : Value :=
  VDict [("error", VStr ("Analysis service '" ++ analysis_name ++ "' not found"))].

Section PipelineManager.
(** The registry the manager resolves names in. *)
Variable registry : list (string * AnalysisService).

Definition get_service (service_name : string) : option AnalysisService :=
  dict_get service_name registry.

(** One turn of the loop of [execute_analyses]. *)
Definition run_one (self : PipelineManager) (raw_data : list Dict)
    (query_builder : option MongoQueryBuilder) (base_query : option Dict)
    (acc : Execution) (analysis_name : string) : Execution :=
  match get_service analysis_name with
  | None =>
      mkExecution (<[analysis_name := not_found_payload analysis_name]> (results acc))
        (execution_times_ms acc)
  | Some service =>
      match process service raw_data (use_aggregation self) query_builder
              base_query with
      | Ok result =>
          mkExecution (<[analysis_name := result]> (results acc))
            ({[analysis_name]} ∪ execution_times_ms acc)
      | Raise e =>
          mkExecution (<[analysis_name := error_payload e]> (results acc))
            ({[analysis_name]} ∪ execution_times_ms acc)
      end
  end.

Definition execute_analyses (self : PipelineManager) (raw_data : list Dict)
    (analysis_names : list string) (query_builder : option MongoQueryBuilder)
    (base_query : option Dict) : Execution :=
  foldl (run_one self raw_data query_builder base_query)
    (mkExecution ∅ ∅) analysis_names.

Definition validate_analyses (analysis_names : list string)
  : list string * list string :=
  (filter (λ n, is_Some (get_service n)) analysis_names,
   filter (λ n, ¬ is_Some (get_service n)) analysis_names).
End PipelineManager.

End Engine2.

(** ** analytics_engine_1 *)

Module Engine1.

(** *** dal/data_access_layer.py *)

Record MongoQueryBuilder := mkBuilder {
  collection : Collection;
  _filter : Dict;
  _sort : option SortSpec;
  _limit : option Z;
  _skip : option Z;
  _projection : option Dict
}.

Definition init (c : Collection) : MongoQueryBuilder :=
  mkBuilder c [] None None None None.

(** A method call leaves the builder in some state and either returns or
    raises. *)
Definition Outcome : Type := MongoQueryBuilder * option Exn.

Definition returns (self : MongoQueryBuilder) : Outcome := (self, None).
Definition raises (self : MongoQueryBuilder) (e : Exn) : Outcome := (self, Some e).

(** Run [k] on the state a call returned with; stop at an exception. *)
Definition and_then (o : Outcome) (k : MongoQueryBuilder → Outcome) : Outcome :=
  match o with
  | (self, None) => k self
  | (self, Some e) => (self, Some e)
  end.

Definition with_filter (f : Dict) (self : MongoQueryBuilder) : MongoQueryBuilder :=
  mkBuilder (collection self) f (_sort self) (_limit self) (_skip self)
    (_projection self).

Definition op_map : list (string * string) :=
  [("eq", "$eq"); ("ne", "$ne"); ("gt", "$gt"); ("gte", "$gte");
   ("lt", "$lt"); ("lte", "$lte"); ("in", "$in"); ("nin", "$nin");
   ("exists", "$exists"); ("type", "$type"); ("all", "$all");
   ("size", "$size")].

Definition unsupported_operator (operator : string) : Exn :=
  mkExn ValueError ("אופרטור לא נתמך: " ++ operator).

(** [self._filter.setdefault(field, {})[key] = v]: the clause under
    [field] must accept item assignment by a string key. *)
Definition setdefault_setitem (field key : string) (v : Value)
    (self : MongoQueryBuilder) : Outcome :=
  match dict_get field (_filter self) with
  | None =>
      returns (with_filter (dict_set field (VDict [(key, v)]) (_filter self)) self)
  | Some (VDict clause) =>
      returns (with_filter
                 (dict_set field (VDict (dict_set key v clause)) (_filter self))
                 self)
  | Some _ =>
      raises self (mkExn TypeError "object does not support item assignment")
  end.

(** [self._filter[field][key] = v] *)
Definition getitem_setitem (field key : string) (v : Value)
    (self : MongoQueryBuilder) : Outcome :=
  match dict_get field (_filter self) with
  | Some (VDict clause) =>
      returns (with_filter
                 (dict_set field (VDict (dict_set key v clause)) (_filter self))
                 self)
  | _ => raises self (mkExn TypeError "object does not support item assignment")
  end.

Definition add_filter (field operator : string) (value : Value)
    (self : MongoQueryBuilder) : Outcome :=
  if String.eqb operator "regex" then
    match value with
    | VDict d =>
        let pattern := default (VStr "") (dict_get "pattern" d) in
        and_then (setdefault_setitem field "$regex" pattern self) (λ self,
          match dict_get "options" d with
          | Some o => getitem_setitem field "$options" o self
          | None => returns self
          end)
    | _ => raises self (mkExn AttributeError "object has no attribute 'get'")
    end
  else
    match dict_get operator op_map with
    | Some native => setdefault_setitem field native value self
    | None => raises self (unsupported_operator operator)
    end.

Definition add_elem_match (field : string) (criteria_dict : Dict)
    (self : MongoQueryBuilder) : Outcome :=
  setdefault_setitem field "$elemMatch" (VDict criteria_dict) self.

(** [add_or_condition]: the first call stores the caller's object itself
    under ["$or"]; later calls extend that object. *)
Definition add_or_condition (conditions : Value) (self : MongoQueryBuilder)
  : Outcome :=
  match dict_get "$or" (_filter self) with
  | Some (VList l) =>
      match py_iter conditions with
      | Ok xs =>
          returns (with_filter (dict_set "$or" (VList (l ++ xs)%list) (_filter self))
                     self)
      | Raise e => raises self e
      end
  | Some _ => raises self (mkExn AttributeError "object has no attribute 'extend'")
  | None => returns (with_filter (dict_set "$or" conditions (_filter self)) self)
  end.

Definition set_sort (field : string) (direction : Z) (self : MongoQueryBuilder)
  : MongoQueryBuilder :=
  mkBuilder (collection self) (_filter self)
    (Some (default [] (_sort self) ++ [(field, direction)])%list)
    (_limit self) (_skip self) (_projection self).

Definition set_limit (count : option Z) (self : MongoQueryBuilder)
  : MongoQueryBuilder :=
  mkBuilder (collection self) (_filter self) (_sort self) count (_skip self)
    (_projection self).

Definition set_skip (count : option Z) (self : MongoQueryBuilder)
  : MongoQueryBuilder :=
  mkBuilder (collection self) (_filter self) (_sort self) (_limit self) count
    (_projection self).

(** [execute]: the documents come back as the cursor yields them. *)
Definition execute (self : MongoQueryBuilder) : Result (list Dict) :=
  let cursor := find (collection self) (_filter self) in
  let cursor :=
    match _sort self with
    | Some (x :: r) => cursor_sort (x :: r) cursor
    | _ => cursor
    end in
  let* cursor := (match _skip self with
                  | Some n => if n =? 0 then Ok cursor else cursor_skip n cursor
                  | None => Ok cursor
                  end) in
  let cursor :=
    match _limit self with
    | Some n => if n =? 0 then cursor else cursor_limit n cursor
    | None => cursor
    end in
  cursor_to_list (collection self) (_limit self) cursor.

Definition execute_aggregation_pipeline (pipeline_stages : list Value)
    (self : MongoQueryBuilder) : Result (list Dict) :=
  coll_aggregate (collection self) pipeline_stages.

(** [AnalyticsDAL]: [db] maps a collection name to the collection once
    the connection is up. *)
Record AnalyticsDAL := mkDAL { db : option (string → Collection) }.

Definition get_query_builder (collection_name : string) (self : AnalyticsDAL)
  : Result MongoQueryBuilder :=
  match db self with
  | None => Raise (mkExn RuntimeError "Database connection is not available.")
  | Some database => Ok (init (database collection_name))
  end.

(** *** processing/abstract_service.py and processing/services/ *)

(** The keyword arguments the manager passes to [process]. *)
Record Kwargs := mkKwargs {
  kw_base_filter : option Dict;
  kw_query_builder : option MongoQueryBuilder;
  kw_params : option Dict
}.

Record AnalysisService := mkService {
  FETCH_DATA_FIRST : bool;
  process : option (list Dict) → Kwargs → Result Value
}.

(** [if not data] *)
Definition no_rows (data : option (list Dict)) : bool :=
  match data with Some (_ :: _) => false | _ => true end.

Definition rows_of (data : option (list Dict)) : list Dict := default [] data.

Section Services.
(** The pandas computations on a non-empty frame. *)
Variable sales_groupby : list Dict → Result Value.
Variable grouping_groupby : list Dict → list Value → Dict → Result Value.

(** services/sales_by_region_service.py *)
Definition SalesByRegionService_process (data : option (list Dict))
    (kwargs : Kwargs) : Result Value :=
  if no_rows data then
    Ok (VDict [("summary", VStr "No data provided for analysis.")])
  else sales_groupby (rows_of data).

Definition SalesByRegionService : AnalysisService :=
  mkService true SalesByRegionService_process.

(** services/grouping_service.py *)
Definition GroupingService_process (data : option (list Dict))
    (kwargs : Kwargs) : Result Value :=
  let params := default [] (kw_params kwargs) in
  let group_by_columns := dict_get "group_by_columns" params in
  let aggregations := dict_get "aggregations" params in
  if (negb (truthy_opt group_by_columns) || negb (truthy_opt aggregations))%bool then
    Raise (mkExn ValueError
      "GroupingService requires 'group_by_columns' (list) and 'aggregations' (dict) in params.")
  else
    match group_by_columns, aggregations with
    | Some (VList columns), Some (VDict aggs) =>
        if no_rows data then
          Ok (VDict [("summary", VStr "No data for analysis.")])
        else grouping_groupby (rows_of data) columns aggs
    | _, _ =>
        Raise (mkExn ValueError
          "'group_by_columns' must be a list and 'aggregations' must be a dictionary.")
    end.

Definition GroupingService : AnalysisService :=
  mkService true GroupingService_process.

(** services/user_activity_service.py *)
Definition user_activity_pipeline (base_filter : Dict) : list Value :=
  (match base_filter with
   | _ :: _ => [VDict [("$match", VDict base_filter)]]
   | [] => []
   end ++
   [VDict [("$group",
            VDict [("_id", VStr "$user_id");
                   ("event_count", VDict [("$sum", VInt 1)]);
                   ("event_types", VDict [("$addToSet", VStr "$event_type")])])];
    VDict [("$sort", VDict [("event_count", VInt (-1))])]])%list.

Definition UserActivitySummaryService_process (data : option (list Dict))
    (kwargs : Kwargs) : Result Value :=
  let base_filter := default [] (kw_base_filter kwargs) in
  match kw_query_builder kwargs with
  | None =>
      Raise (mkExn RuntimeError
        "UserActivitySummaryService requires a query_builder instance.")
  | Some query_builder =>
      let pipeline := user_activity_pipeline base_filter in
      let* aggregation_result := execute_aggregation_pipeline pipeline query_builder in
      Ok (VList (VDict <$> aggregation_result))
  end.

Definition UserActivitySummaryService : AnalysisService :=
  mkService false UserActivitySummaryService_process.

(** *** processing/pipeline_manager.py *)

Definition AVAILABLE_SERVICES : list (string * AnalysisService) :=
  [("sales_by_region", SalesByRegionService);
   ("user_activity_summary", UserActivitySummaryService);
   ("group_and_aggregate", GroupingService)].
End Services.

(** api/models.py *)
Record FilterCriterion := mkFilter {
  f_field : string; f_operator : string; f_value : Value
}.
Record SortCriterion := mkSort { s_field : string; s_direction : Z }.
Record SearchCriteria := mkCriteria {
  filters : option (list FilterCriterion);
  or_conditions : option (list Dict);
  sort : option (list SortCriterion);
  limit : option Z;
  skip : option Z
}.
Record AnalysisRequest := mkRequest { name : string; params : Dict }.

(** [SearchCriteria()] with its field defaults. *)
Definition default_criteria : SearchCriteria :=
  mkCriteria None None None (Some 100) (Some 0).

Record PipelineManager := mkManager {
  dal : AnalyticsDAL;
  pm_collection : string;
  criteria : SearchCriteria;
  requested_analyses : list AnalysisRequest
}.

Definition service_not_found (analysis_name : string) : Exn :=
  mkExn ValueError ("שירות אנליטיקה בשם '" ++ analysis_name ++ "' לא נמצא.").

(** A [for] loop over builder calls that stops at the first exception. *)
Definition for_each {A} (xs : list A) (body : A → MongoQueryBuilder → Outcome)
    (self : MongoQueryBuilder) : Outcome :=
  foldl (λ o x, and_then o (body x)) (returns self) xs.

Definition _build_base_query (self : PipelineManager) : Result MongoQueryBuilder :=
  let* builder := get_query_builder (pm_collection self) (dal self) in
  let o :=
    and_then
      (for_each (default [] (filters (criteria self)))
         (λ f, add_filter (f_field f) (f_operator f) (f_value f)) builder)
      (λ builder,
         and_then
           (for_each (default [] (or_conditions (criteria self)))
              (λ or_condition_group, add_or_condition (VDict or_condition_group))
              builder)
           (λ builder,
              let builder :=
                foldl (λ b s, set_sort (s_field s) (s_direction s) b) builder
                  (default [] (sort (criteria self))) in
              returns (set_limit (limit (criteria self))
                         (set_skip (skip (criteria self)) builder)))) in
  match o with
  | (builder, None) => Ok builder
  | (_, Some e) => Raise e
  end.

Section PipelineManager.
Variable registry : list (string * AnalysisService).

(** The first loop of [run_pipeline]: resolve every requested name. *)
Fixpoint resolve (requests : list AnalysisRequest)
  : Result (list (string * Dict * AnalysisService)) :=
  match requests with
  | [] => Ok []
  | analysis_request :: rest =>
      match dict_get (name analysis_request) registry with
      | None => Raise (service_not_found (name analysis_request))
      | Some service =>
          let* services_to_run := resolve rest in
          Ok ((name analysis_request, params analysis_request, service)
                :: services_to_run)
      end
  end.

(** The call of [process] in the second loop. *)
Definition invoke (raw_data : option (list Dict))
    (query_builder : MongoQueryBuilder) (params : Dict)
    (service : AnalysisService) : Result Value :=
  if FETCH_DATA_FIRST service then
    process service raw_data (mkKwargs None None (Some params))
  else
    process service None
      (mkKwargs (Some (_filter query_builder)) (Some query_builder)
         (Some params)).

(** The second loop: [self.results] so far, and the exception that ended
    the loop if one did. *)
Fixpoint run_services (raw_data : option (list Dict))
    (query_builder : MongoQueryBuilder)
    (services_to_run : list (string * Dict * AnalysisService))
    (results : gmap string Value) : gmap string Value * option Exn :=
  match services_to_run with
  | [] => (results, None)
  | (name, params, service) :: rest =>
      match invoke raw_data query_builder params service with
      | Ok result =>
          run_services raw_data query_builder rest (<[name := result]> results)
      | Raise e => (results, Some e)
      end
  end.

(** [run_pipeline]: [self.results] when the call ends, and the exception
    it ended with if it raised. *)
Definition run_pipeline (self : PipelineManager)
  : gmap string Value * option Exn :=
  match resolve (requested_analyses self) with
  | Raise e => (∅, Some e)
  | Ok services_to_run =>
      let needs_raw_data :=
        existsb (λ s, FETCH_DATA_FIRST s.2) services_to_run in
      match _build_base_query self with
      | Raise e => (∅, Some e)
      | Ok query_builder =>
          match (if needs_raw_data then bind (execute query_builder) (λ rows, Ok (Some rows))
                 else Ok None) with
          | Raise e => (∅, Some e)
          | Ok raw_data => run_services raw_data query_builder services_to_run ∅
          end
      end
  end.
End PipelineManager.

End Engine1.

(** ** sal_1/dal.py: GenericDataLoader._build_mongodb_filter *)

Module Sal1.

(** models.py *)
Inductive FilterOperator :=
  | EQUALS | NOT_EQUALS | GREATER_THAN | GREATER_EQUAL | LESS_THAN | LESS_EQUAL
  | CONTAINS | STARTS_WITH | ENDS_WITH | IN | NOT_IN | REGEX | EXISTS | SIZE.

Record FilterCondition := mkCondition {
  field : string;
  operator : FilterOperator;
  value : Value;
  case_sensitive : bool
}.

(** *** [re.escape] *)

(** The characters [re.escape] puts a backslash before. *)
Definition special_chars : list Ascii.ascii :=
  (String.list_ascii_of_string "()[]{}?*+-|^$\.&~# " ++
   [Ascii.ascii_of_nat 9; Ascii.ascii_of_nat 10; Ascii.ascii_of_nat 13;
    Ascii.ascii_of_nat 11; Ascii.ascii_of_nat 12])%list.

Definition is_special (c : Ascii.ascii) : bool :=
  existsb (Ascii.eqb c) special_chars.

Definition backslash : Ascii.ascii := Ascii.ascii_of_nat 92.

Fixpoint re_escape (s : string) : string :=
  match s with
  | EmptyString => EmptyString
  | String c r =>
      if is_special c then String backslash (String c (re_escape r))
      else String c (re_escape r)
  end.

Section BuildFilter.
Variable py_repr : Value → string.
(** [int(s)] of a text. *)
Variable int_of_str : string → Result Z.

(** [int(value)] *)
Definition py_int (v : Value) : Result Z :=
  match v with
  | VInt z => Ok z
  | VBool b => Ok (if b then 1 else 0)
  | VStr s => int_of_str s
  | _ => Raise (mkExn TypeError "int() argument must be a string or a number")
  end.

(** [value if isinstance(value, list) else [value]] *)
Definition as_list (v : Value) : Value :=
  match v with VList _ => v | _ => VList [v] end.

(** The [field_query] the [elif] chain builds for one condition. *)
Definition field_query_of (filter_condition : FilterCondition) : Result Dict :=
  let value := value filter_condition in
  let insensitive : Dict :=
    if case_sensitive filter_condition then [] else [("$options", VStr "i")] in
  match operator filter_condition with
  | EQUALS => Ok []
  | NOT_EQUALS => Ok [("$ne", value)]
  | GREATER_THAN => Ok [("$gt", value)]
  | GREATER_EQUAL => Ok [("$gte", value)]
  | LESS_THAN => Ok [("$lt", value)]
  | LESS_EQUAL => Ok [("$lte", value)]
  | CONTAINS =>
      if case_sensitive filter_condition then
        Ok [("$regex", VStr (re_escape (str py_repr value)))]
      else
        Ok [("$regex", VStr (re_escape (str py_repr value)));
            ("$options", VStr "i")]
  | STARTS_WITH =>
      let pattern := "^" ++ re_escape (str py_repr value) in
      Ok (("$regex", VStr pattern) :: insensitive)
  | ENDS_WITH =>
      let pattern := re_escape (str py_repr value) ++ "$" in
      Ok (("$regex", VStr pattern) :: insensitive)
  | IN => Ok [("$in", as_list value)]
  | NOT_IN => Ok [("$nin", as_list value)]
  | REGEX => Ok (("$regex", VStr (str py_repr value)) :: insensitive)
  | EXISTS => Ok [("$exists", VBool (truthy value))]
  | SIZE => let* n := py_int value in Ok [("$size", VInt n)]
  end.

(** The body of the loop over [filters]. *)
Definition add_condition (query : Dict) (filter_condition : FilterCondition)
  : Result Dict :=
  let field := field filter_condition in
  match operator filter_condition with
  | EQUALS => Ok (dict_set field (value filter_condition) query)
  | _ =>
      let* field_query := field_query_of filter_condition in
      match field_query with
      | [] => Ok query
      | _ :: _ =>
          match dict_get field query with
          | Some (VDict clause) =>
              Ok (dict_set field (VDict (dict_update clause field_query)) query)
          | Some plain =>
              Ok (dict_set field
                    (VDict (dict_update [("$eq", plain)] field_query)) query)
          | None => Ok (dict_set field (VDict field_query) query)
          end
      end
  end.

Fixpoint build_from (query : Dict) (filters : list FilterCondition) : Result Dict :=
  match filters with
  | [] => Ok query
  | filter_condition :: rest =>
      let* query := add_condition query filter_condition in
      build_from query rest
  end.

Definition _build_mongodb_filter (filters : list FilterCondition) : Result Dict :=
  build_from [] filters.
End BuildFilter.

End Sal1.

(** ** analytics-engine_2: services/analysis_services/sales_by_region.py *)

Module SalesByRegion.

(** What a document holds under a key: nothing (the key is missing),
    null, or a value. *)
Inductive Field (A : Type) : Type :=
  | Missing
  | Null
  | Has (a : A).
Arguments Missing {A}.
Arguments Null {A}.
Arguments Has {A} a.

#[global] Instance Field_eq_dec {A} `{EqDecision A} : EqDecision (Field A).
Proof. solve_decision. Defined.

(** The numeric work of the analysis is done by calls into pandas, numpy,
    Python's [round] and the aggregation operators of the server, on
    Python ints and floats and on BSON numbers.  None of it is code of
    the repository.  An [Arithmetic] has one field per call the analysis
    makes; the definitions below are written over an arbitrary one, so
    that a statement about them holds whatever these libraries compute
    (int64 wrap-around, binary rounding, NaN and infinities included).
    [Num] is the type of the numbers. *)
Record Arithmetic (Num : Type) := mkArithmetic {
  (** The number a Python int literal is. *)
  of_int : Z → Num;
  (** [data['sales_amount'].sum()] and [df['total_sales'].sum()], from
      the cells of the column. *)
  series_sum : list (Field Num) → Num;
  (** [groupby('region').agg({'sales_amount': [...]}).round(2)]: each
      aggregate of one group, from the cells of the whole column (which
      decide its dtype) and the cells of the group, after the
      rounding. *)
  group_sum : list (Field Num) → list (Field Num) → Num;
  group_mean : list (Field Num) → list (Field Num) → Num;
  group_count : list (Field Num) → list (Field Num) → Num;
  group_min : list (Field Num) → list (Field Num) → Num;
  group_max : list (Field Num) → list (Field Num) → Num;
  (** [(x / total_sales * 100).round(2)] for one cell [x] of the sums. *)
  frame_percentage : Num → Num → Num;
  (** [sort_values('sales_amount_sum', ascending=False)] puts a row with
      sum [a] before, or level with, a row with sum [b]. *)
  frame_before : Num → Num → bool;
  (** [round(total_sales, 2)] *)
  py_round2 : Num → Num;
  (** [round(total_sales / n, 2)] for a length [n > 0]. *)
  py_average : Num → nat → Num;
  (** The exception that comes out of [analyze_with_pandas] when one of
      its calls into pandas or [round] raises, on a frame with these
      cells in its [region] and [sales_amount] columns (a column without
      a number is held as objects, whose mean pandas may refuse); [None]
      when every call returns. *)
  frame_raises : list (Field string) → list (Field Num) → option Exn;
  (** The accumulators [$sum], [$avg], [$min] and [$max] of the first
      [$group], over what the documents of one group hold under
      [sales_amount]; [None] is null. *)
  acc_sum : list (Field Num) → Num;
  acc_avg : list (Field Num) → option Num;
  acc_min : list (Field Num) → option Num;
  acc_max : list (Field Num) → option Num;
  (** [{"$sum": "$total_sales"}] of the second [$group]. *)
  acc_total : list Num → Num;
  (** [{"$round": [x, 2]}] *)
  op_round2 : Num → Num;
  (** Whether [$divide] rejects the divisor as zero. *)
  op_is_zero : Num → bool;
  (** [{"$round": [{"$multiply": [{"$divide": [a, b]}, 100]}, 2]}] for a
      divisor [b] that [$divide] accepts. *)
  op_percentage : Num → Num → Num;
  (** [{"$sort": {"total_sales": -1}}] puts a document with total [a]
      before, or level with, a document with total [b]. *)
  op_before : Num → Num → bool
}.
Arguments of_int {Num} _ _.
Arguments series_sum {Num} _ _.
Arguments group_sum {Num} _ _ _.
Arguments group_mean {Num} _ _ _.
Arguments group_count {Num} _ _ _.
Arguments group_min {Num} _ _ _.
Arguments group_max {Num} _ _ _.
Arguments frame_percentage {Num} _ _ _.
Arguments frame_before {Num} _ _ _.
Arguments py_round2 {Num} _ _.
Arguments py_average {Num} _ _ _.
Arguments frame_raises {Num} _ _ _.
Arguments acc_sum {Num} _ _.
Arguments acc_avg {Num} _ _.
Arguments acc_min {Num} _ _.
Arguments acc_max {Num} _ _.
Arguments acc_total {Num} _ _.
Arguments op_round2 {Num} _ _.
Arguments op_is_zero {Num} _ _.
Arguments op_percentage {Num} _ _ _.
Arguments op_before {Num} _ _ _.

(** A document as the analysis reads it: its keys in order, and what it
    holds under [region] (null or a text) and under [sales_amount] (null
    or a number) when it has these keys. *)
Record Row (Num : Type) := mkRow {
  row_keys : list string;
  region_cell : option string;
  amount_cell : option Num
}.
Arguments mkRow {Num} row_keys region_cell amount_cell.
Arguments row_keys {Num} _.
Arguments region_cell {Num} _.
Arguments amount_cell {Num} _.

Definition cell {A} (key : string) (keys : list string) (value : option A)
  : Field A :=
  if bool_decide (key ∈ keys) then
    match value with Some a => Has a | None => Null end
  else Missing.

(** [r.get("region")] and [r.get("sales_amount")], a missing key told
    from null. *)
Definition region {Num} (r : Row Num) : Field string :=
  cell "region" (row_keys r) (region_cell r).

Definition sales_amount {Num} (r : Row Num) : Field Num :=
  cell "sales_amount" (row_keys r) (amount_cell r).

(** What both strategies return. *)
Record Summary (Num : Type) := mkSummary {
  summary_total_sales : Num;
  total_regions : nat;
  average_per_region : Num
}.
Arguments mkSummary {Num} summary_total_sales total_regions average_per_region.
Arguments summary_total_sales {Num} _.
Arguments total_regions {Num} _.
Arguments average_per_region {Num} _.

Inductive Outcome (Num R : Type) : Type :=
  | MissingColumns (error : string) (available_columns : list string)
  | NoData (message : string)
  | Report (summary : Summary Num) (by_region : list R)
      (top_region bottom_region : option R).
Arguments MissingColumns {Num R} error available_columns.
Arguments NoData {Num R} message.
Arguments Report {Num R} summary by_region top_region bottom_region.

(** A record of [analysis.to_dict('records')]. *)
Record PandasRecord (Num : Type) := mkPandasRecord {
  pd_region : string;
  sales_amount_sum : Num;
  sales_amount_mean : Num;
  sales_amount_count : Num;
  sales_amount_min : Num;
  sales_amount_max : Num;
  pd_percentage_of_total : Num
}.
Arguments mkPandasRecord {Num} _ _ _ _ _ _ _.
Arguments pd_region {Num} _.
Arguments sales_amount_sum {Num} _.
Arguments sales_amount_mean {Num} _.
Arguments sales_amount_count {Num} _.
Arguments sales_amount_min {Num} _.
Arguments sales_amount_max {Num} _.
Arguments pd_percentage_of_total {Num} _.

(** The stages the service writes, named after their operator. *)
Inductive Stage :=
  | Match (base_query : Dict)
      (** [{"$match": base_query}] *)
  | GroupByRegion
      (** [{"$group": {"_id": "$region", "total_sales": {"$sum": ..}, ..}}] *)
  | GroupAll
      (** [{"$group": {"_id": None, "regions": {"$push": ..},
                       "grand_total": {"$sum": "$total_sales"}}}] *)
  | UnwindRegions
      (** [{"$unwind": "$regions"}] *)
  | ProjectRounded
      (** [{"$project": {.., "percentage_of_total": {"$round": ..}}}] *)
  | SortByTotalSales (direction : Z)
      (** [{"$sort": {"total_sales": direction}}] *).

(** The documents between the stages; [None] is null. *)
Record Group (Num : Type) := mkGroup {
  g_id : option string;
  g_total_sales : Num;
  g_average_sales : option Num;
  g_count : Z;
  g_min_sale : option Num;
  g_max_sale : option Num
}.
Arguments mkGroup {Num} _ _ _ _ _ _.
Arguments g_id {Num} _.
Arguments g_total_sales {Num} _.
Arguments g_average_sales {Num} _.
Arguments g_count {Num} _.
Arguments g_min_sale {Num} _.
Arguments g_max_sale {Num} _.

Record AggRecord (Num : Type) := mkAggRecord {
  agg_region : option string;
  total_sales : Num;
  average_sales : option Num;
  count : Z;
  min_sale : option Num;
  max_sale : option Num;
  percentage_of_total : Num
}.
Arguments mkAggRecord {Num} _ _ _ _ _ _ _.
Arguments agg_region {Num} _.
Arguments total_sales {Num} _.
Arguments average_sales {Num} _.
Arguments count {Num} _.
Arguments min_sale {Num} _.
Arguments max_sale {Num} _.
Arguments percentage_of_total {Num} _.

Inductive Docs (Num : Type) :=
  | Rows (rows : list (Row Num))
  | Groups (groups : list (Group Num))
  | Totals (totals : list (list (Group Num) * Num))
  | Unwound (docs : list (Group Num * Num))
  | Projected (records : list (AggRecord Num)).
Arguments Rows {Num} rows.
Arguments Groups {Num} groups.
Arguments Totals {Num} totals.
Arguments Unwound {Num} docs.
Arguments Projected {Num} records.

Definition required_columns : list string := ["region"; "sales_amount"].

Definition str_le (a b : string) : Prop := String.leb a b = true.

#[global] Instance str_le_dec : RelDecision str_le.
Proof. intros a b. unfold str_le. apply _. Defined.

(** The elements of a list, each once, in order of first appearance. *)
Fixpoint first_seen (l : list string) : list string :=
  match l with
  | [] => []
  | x :: r => x :: filter (λ y, y ≠ x) (first_seen r)
  end.

Definition build_aggregation_pipeline (base_query : Dict) : list Stage :=
  ((match base_query with _ :: _ => [Match base_query] | [] => [] end)
   ++ [GroupByRegion; GroupAll; UnwindRegions; ProjectRounded;
       SortByTotalSales (-1)])%list.

Definition wrong_shape : Exn :=
  mkExn OperationFailure "stage applied to documents of another stage".

Section Analysis.
Context {Num : Type} (ops : Arithmetic Num).

(** *** analyze_with_pandas *)

(** [list(data.columns)] of [pd.DataFrame(data)]: the keys of the
    documents, each once, in order of first appearance. *)
Definition columns (data : list (Row Num)) : list string :=
  first_seen (data ≫= row_keys).

(** The rows of the group of a region. *)
Definition rows_in (key : string) (data : list (Row Num)) : list (Row Num) :=
  filter (λ r, region r = Has key) data.

(** The text a row holds under [region], if it holds one. *)
Definition region_text (r : Row Num) : option string :=
  match region r with Has s => Some s | _ => None end.

(** [groupby('region')]: one group per region text present, rows whose
    region is null or missing left out, groups in ascending order of the
    key. *)
Definition groupby_keys (data : list (Row Num)) : list string :=
  merge_sort str_le (remove_dups (omap region_text data)).

Definition aggregate (data : list (Row Num)) (total_sales : Num) (key : string)
  : PandasRecord Num :=
  let column := sales_amount <$> data in
  let group := sales_amount <$> rows_in key data in
  mkPandasRecord key
    (group_sum ops column group)
    (group_mean ops column group)
    (group_count ops column group)
    (group_min ops column group)
    (group_max ops column group)
    (frame_percentage ops (group_sum ops column group) total_sales).

(** [sort_values('sales_amount_sum', ascending=False)] *)
Definition pd_desc (a b : PandasRecord Num) : Prop :=
  frame_before ops (sales_amount_sum a) (sales_amount_sum b) = true.

#[global] Instance pd_desc_dec : RelDecision pd_desc.
Proof. intros a b. unfold pd_desc. apply _. Defined.

Definition analyze_with_pandas (data : list (Row Num))
  : Result (Outcome Num (PandasRecord Num)) :=
  if negb (forallb (λ col, bool_decide (col ∈ columns data)) required_columns) then
    Ok (MissingColumns
          "Missing required columns. Required: ['region', 'sales_amount']"
          (columns data))
  else
    match frame_raises ops (region <$> data) (sales_amount <$> data) with
    | Some e => Raise e
    | None =>
        let total_sales := series_sum ops (sales_amount <$> data) in
        let analysis :=
          merge_sort pd_desc (aggregate data total_sales <$> groupby_keys data) in
        Ok (Report
              (mkSummary (py_round2 ops total_sales) (length analysis)
                 (match analysis with
                  | [] => of_int ops 0
                  | _ :: _ => py_average ops total_sales (length analysis)
                  end))
              analysis (head analysis) (last analysis))
    end.

(** *** The store running the pipeline *)

(** The [_id] of the group of a row: a missing field groups under
    null. *)
Definition group_key (r : Row Num) : option string := region_text r.

Definition group_of (rows : list (Row Num)) (key : option string) : Group Num :=
  let group := sales_amount <$> filter (λ r, group_key r = key) rows in
  mkGroup key (acc_sum ops group) (acc_avg ops group)
    (Z.of_nat (length group)) (acc_min ops group) (acc_max ops group).

(** The fields [$project] computes from an unwound document. *)
Definition projected (grand_total : Num) (regions : Group Num) : AggRecord Num :=
  mkAggRecord (g_id regions) (op_round2 ops (g_total_sales regions))
    (op_round2 ops <$> g_average_sales regions) (g_count regions)
    (g_min_sale regions) (g_max_sale regions)
    (op_percentage ops (g_total_sales regions) grand_total).

(** [$project]: [$divide] by zero is an error of the whole pipeline. *)
Definition project (doc : Group Num * Num) : Result (AggRecord Num) :=
  let (regions, grand_total) := doc in
  if op_is_zero ops grand_total then
    Raise (mkExn OperationFailure "can't $divide by zero")
  else Ok (projected grand_total regions).

Fixpoint project_all (docs : list (Group Num * Num))
  : Result (list (AggRecord Num)) :=
  match docs with
  | [] => Ok []
  | d :: rest =>
      let* r := project d in
      let* rs := project_all rest in
      Ok (r :: rs)
  end.

Definition agg_desc (a b : AggRecord Num) : Prop :=
  op_before ops (total_sales a) (total_sales b) = true.
Definition agg_asc (a b : AggRecord Num) : Prop :=
  op_before ops (total_sales b) (total_sales a) = true.

#[global] Instance agg_desc_dec : RelDecision agg_desc.
Proof. intros a b. unfold agg_desc. apply _. Defined.
#[global] Instance agg_asc_dec : RelDecision agg_asc.
Proof. intros a b. unfold agg_asc. apply _. Defined.

(** Whether a row satisfies a non-empty filter document. *)
Variable matches : Dict → Row Num → bool.

(** [find(base_query)]: the empty filter selects every row. *)
Definition select (base_query : Dict) (stored : list (Row Num))
  : list (Row Num) :=
  match base_query with
  | [] => stored
  | _ :: _ => filter (λ r, matches base_query r = true) stored
  end.

(** One stage on the documents of the stage before.  [$group] emits one
    document per distinct key, in an order the store does not fix
    ([$sort] follows). *)
Definition run_stage (docs : Docs Num) (stage : Stage) : Result (Docs Num) :=
  match stage, docs with
  | Match base_query, Rows rows => Ok (Rows (select base_query rows))
  | GroupByRegion, Rows rows =>
      Ok (Groups (group_of rows <$> remove_dups (group_key <$> rows)))
  | GroupAll, Groups groups =>
      match groups with
      | [] => Ok (Totals [])
      | _ :: _ => Ok (Totals [(groups, acc_total ops (g_total_sales <$> groups))])
      end
  | UnwindRegions, Totals totals =>
      Ok (Unwound (totals ≫= λ t, (λ g, (g, t.2)) <$> t.1))
  | ProjectRounded, Unwound docs =>
      let* records := project_all docs in Ok (Projected records)
  | SortByTotalSales direction, Projected records =>
      Ok (Projected (if direction <? 0 then merge_sort agg_desc records
                     else merge_sort agg_asc records))
  | _, _ => Raise wrong_shape
  end.

Fixpoint aggregate_from (docs : Docs Num) (pipeline : list Stage)
  : Result (Docs Num) :=
  match pipeline with
  | [] => Ok docs
  | stage :: rest =>
      let* docs := run_stage docs stage in
      aggregate_from docs rest
  end.

(** [collection.aggregate(pipeline)] over the stored rows. *)
Definition execute_aggregation_pipeline (pipeline : list Stage)
    (stored : list (Row Num)) : Result (Docs Num) :=
  aggregate_from (Rows stored) pipeline.

(** *** post_process_aggregation *)

Definition post_process_aggregation (df : list (AggRecord Num))
  : Outcome Num (AggRecord Num) :=
  match df with
  | [] => NoData "No data found"
  | _ :: _ =>
      let total := series_sum ops ((λ r, Has (total_sales r)) <$> df) in
      Report
        (mkSummary (py_round2 ops total) (length df)
           (py_average ops total (length df)))
        df (head df) (last df)
  end.

(** The pushed-down strategy end to end: build the pipeline from the
    filter, run it, post-process the rows it returns. *)
Definition pushed_down (base_query : Dict) (stored : list (Row Num))
  : Result (Outcome Num (AggRecord Num)) :=
  let* docs := execute_aggregation_pipeline
                 (build_aggregation_pipeline base_query) stored in
  match docs with
  | Projected records => Ok (post_process_aggregation records)
  | _ => Raise (mkExn RuntimeError "'total_sales'")
  end.

(** The in-memory strategy on the rows the same filter selects. *)
Definition in_memory (base_query : Dict) (stored : list (Row Num))
  : Result (Outcome Num (PandasRecord Num)) :=
  analyze_with_pandas (select base_query stored).
End Analysis.

End SalesByRegion.

(** ** analytics-engine_2: services/analysis_services/user_activity_summary.py *)

Module UserActivitySummary.

(** *** build_aggregation_pipeline *)

Definition count_one : Value := VDict [("$sum", VInt 1)].
Definition add_to_set (path : string) : Value := VDict [("$addToSet", VStr path)].
Definition size_of (path : string) : Value := VDict [("$size", VStr path)].

Definition summary_facet : Value :=
  VList
    [VDict [("$group",
             VDict [("_id", VNone);
                    ("total_actions", count_one);
                    ("unique_users", add_to_set "$user_id");
                    ("unique_action_types", add_to_set "$action_type");
                    ("min_timestamp", VDict [("$min", VStr "$timestamp")]);
                    ("max_timestamp", VDict [("$max", VStr "$timestamp")])])];
     VDict [("$project",
             VDict [("_id", VInt 0);
                    ("total_actions", VInt 1);
                    ("total_users", size_of "$unique_users");
                    ("total_action_types", size_of "$unique_action_types");
                    ("date_range",
                     VDict [("start", VStr "$min_timestamp");
                            ("end", VStr "$max_timestamp")])])]].

Definition by_action_type_facet : Value :=
  VList
    [VDict [("$group",
             VDict [("_id", VStr "$action_type");
                    ("total_actions", count_one);
                    ("unique_users", add_to_set "$user_id")])];
     VDict [("$project",
             VDict [("_id", VInt 0);
                    ("action_type", VStr "$_id");
                    ("total_actions", VInt 1);
                    ("unique_users_count", size_of "$unique_users")])];
     VDict [("$sort", VDict [("total_actions", VInt (-1))])]].

Definition top_users_facet : Value :=
  VList
    [VDict [("$group",
             VDict [("_id", VStr "$user_id");
                    ("action_count", count_one);
                    ("first_action", VDict [("$min", VStr "$timestamp")]);
                    ("last_action", VDict [("$max", VStr "$timestamp")]);
                    ("action_types", add_to_set "$action_type")])];
     VDict [("$sort", VDict [("action_count", VInt (-1))])];
     VDict [("$limit", VInt 10)];
     VDict [("$project",
             VDict [("_id", VInt 0);
                    ("user_id", VStr "$_id");
                    ("action_count", VInt 1);
                    ("first_action", VInt 1);
                    ("last_action", VInt 1);
                    ("unique_action_types", size_of "$action_types")])]].

Definition hourly_activity_facet : Value :=
  VList
    [VDict [("$project", VDict [("hour", VDict [("$hour", VStr "$timestamp")])])];
     VDict [("$group", VDict [("_id", VStr "$hour"); ("count", count_one)])];
     VDict [("$project",
             VDict [("_id", VInt 0); ("hour", VStr "$_id"); ("count", VInt 1)])];
     VDict [("$sort", VDict [("hour", VInt 1)])]].

Definition day_branch (n : Z) (day : string) : Value :=
  VDict [("case", VDict [("$eq", VList [VStr "$_id"; VInt n])]); ("then", VStr day)].

Definition weekly_activity_facet : Value :=
  VList
    [VDict [("$project",
             VDict [("dayOfWeek", VDict [("$dayOfWeek", VStr "$timestamp")])])];
     VDict [("$group", VDict [("_id", VStr "$dayOfWeek"); ("count", count_one)])];
     VDict [("$project",
             VDict [("_id", VInt 0);
                    ("day",
                     VDict [("$switch",
                             VDict [("branches",
                                     VList [day_branch 1 "Sunday";
                                            day_branch 2 "Monday";
                                            day_branch 3 "Tuesday";
                                            day_branch 4 "Wednesday";
                                            day_branch 5 "Thursday";
                                            day_branch 6 "Friday";
                                            day_branch 7 "Saturday"]);
                                    ("default", VStr "Unknown")])]);
                    ("count", VInt 1)])]].

Definition daily_activity_facet : Value :=
  VList
    [VDict [("$project",
             VDict [("date",
                     VDict [("$dateToString",
                             VDict [("format", VStr "%Y-%m-%d");
                                    ("date", VStr "$timestamp")])]);
                    ("user_id", VInt 1);
                    ("action_type", VInt 1)])];
     VDict [("$group",
             VDict [("_id", VStr "$date");
                    ("unique_users", add_to_set "$user_id");
                    ("total_actions", count_one)])];
     VDict [("$project",
             VDict [("_id", VInt 0);
                    ("date", VStr "$_id");
                    ("unique_users_count", size_of "$unique_users");
                    ("total_actions", VInt 1)])];
     VDict [("$sort", VDict [("date", VInt 1)])]].

Definition facets : Dict :=
  [("summary", summary_facet);
   ("by_action_type", by_action_type_facet);
   ("top_users", top_users_facet);
   ("hourly_activity", hourly_activity_facet);
   ("weekly_activity", weekly_activity_facet);
   ("daily_activity", daily_activity_facet)].

Definition build_aggregation_pipeline (base_query : Dict) : list Value :=
  ((match base_query with
    | _ :: _ => [VDict [("$match", VDict base_query)]]
    | [] => []
    end)
   ++ [VDict [("$facet", VDict facets)]])%list.

(** *** post_process_aggregation *)

(** [df.empty] of [pd.DataFrame(rows)]: the frame has no row or no
    column, its columns being the keys of its rows. *)
Definition frame_empty (df : list Dict) : bool :=
  forallb (λ row, match dict_keys row with [] => true | _ :: _ => false end) df.

(** The seven values the body computes from the first row of the frame. *)
Record Sections := mkSections {
  summary : Value;
  actions_by_type : Value;
  top_users : Value;
  hourly_distribution : Value;
  peak_hours : Value;
  weekly_distribution : Value;
  daily_stats : Value
}.

Section PostProcess.
(** The computations on [df.iloc[0]], the first row of a frame that is
    not empty, and on its facet lists (indexing, [round], [sorted], the
    daily frame): the seven values, or the exception one of them
    raises. *)
Variable sections_of : list Dict → Result Sections.

(** [post_process_aggregation]: the frame is the list of its rows. *)
Definition post_process_aggregation (df : list Dict) : Result Value :=
  if frame_empty df then Ok Engine2.no_data_found
  else
    let* s := sections_of df in
    Ok (VDict [("summary", summary s);
               ("actions_by_type", actions_by_type s);
               ("top_10_users", top_users s);
               ("hourly_distribution", hourly_distribution s);
               ("peak_hours", peak_hours s);
               ("weekly_distribution", weekly_distribution s);
               ("daily_statistics", daily_stats s)]).
End PostProcess.

End UserActivitySummary.

(** ** Vocabulary of the properties *)

(** Reading a pattern back. *)

(** The characters with a meaning of their own in a regular expression. *)
Definition metachars : list Ascii.ascii := String.list_ascii_of_string ".^$*+?{}[]\|()".

Definition is_meta (c : Ascii.ascii) : bool := existsb (Ascii.eqb c) metachars.

Definition is_alnum (c : Ascii.ascii) : bool :=
  let n := Ascii.nat_of_ascii c in
  ((Nat.leb 48 n && Nat.leb n 57) || (Nat.leb 65 n && Nat.leb n 90)
   || (Nat.leb 97 n && Nat.leb n 122))%bool.

(** The one text a pattern matches when it is made of plain characters and
    of backslash-escaped characters only; [None] when the pattern has an
    operator (a bare metacharacter) or an escape with a meaning of its own
    (a backslash before a letter or digit, or at the end). *)
Fixpoint literal_text (p : string) : option string :=
  match p with
  | EmptyString => Some EmptyString
  | String c r =>
      if Ascii.eqb c Sal1.backslash then
        match r with
        | EmptyString => None
        | String e r' =>
            if is_alnum e then None else String e <$> literal_text r'
        end
      else if is_meta c then None
      else String c <$> literal_text r
  end.

(** What the two results are compared on: the summary, the grouping keys
    in the order of [by_region], and the top and bottom region. *)
Definition digest {Num R} (key : R → option string)
    (o : SalesByRegion.Outcome Num R)
  : option (SalesByRegion.Summary Num * list (option string)
            * option (option string) * option (option string)) :=
  match o with
  | SalesByRegion.Report s rows top bottom =>
      Some (s, key <$> rows, key <$> top, key <$> bottom)
  | _ => None
  end.

Definition pd_key {Num} (r : SalesByRegion.PandasRecord Num) : option string :=
  Some (SalesByRegion.pd_region r).

(** The two strategies yield the same result: same summary, same set of
    grouping keys, same top and bottom region. *)
Definition strategies_agree {Num}
    (p : Result (SalesByRegion.Outcome Num (SalesByRegion.PandasRecord Num)))
    (m : Result (SalesByRegion.Outcome Num (SalesByRegion.AggRecord Num)))
  : Prop :=
  ∃ s keys_p keys_m top bottom p' m',
    p = Ok p' ∧
    digest pd_key p' = Some (s, keys_p, top, bottom) ∧
    m = Ok m' ∧
    digest SalesByRegion.agg_region m' = Some (s, keys_m, top, bottom) ∧
    keys_p ≡ₚ keys_m.

(** The clauses the top-level OR of a filter holds so far, if the filter
    is one [add_or_condition] can extend. *)
Definition or_clauses (q : Dict) : option (list Value) :=
  match dict_get "$or" q with
  | None => Some []
  | Some (VList l) => Some l
  | Some _ => None
  end.

(** A document whose identifier, if it has one, is a plain string. *)
Definition id_is_text (doc : Dict) : Prop :=
  match dict_get "_id" doc with
  | Some (VStr _) | None => True
  | Some _ => False
  end.

(** [self.sort_params] as [execute] reads it: an empty list is no sort. *)
Definition effective_sort (s : option SortSpec) : option SortSpec :=
  match s with Some (x :: r) => Some (x :: r) | _ => None end.

(** The operator names the two engines' [add_filter] know. *)
Definition known_operators : list string :=
  ["eq"; "ne"; "gt"; "gte"; "lt"; "lte"; "in"; "nin"; "exists"; "type";
   "regex"; "all"; "size"].

(** A collection holding the given documents, every one selected by any
    filter, left in natural order by any sort, with no aggregation rows. *)
Definition sample_collection (docs : list Dict) : Collection :=
  mkCollection (λ _, docs) (λ _ l, l) (λ _, Ok []).

(** The documents of the collection selected by the filter and ordered by
    the sort keys set, before skip and limit. *)
Definition engine2_sorted (b : Engine2.MongoQueryBuilder) : list Dict :=
  apply_sort (Engine2.collection b) (effective_sort (Engine2.sort_params b))
    (coll_find (Engine2.collection b) (Engine2.query b)).

Definition two_docs : list Dict :=
  [[("_id", VObjectId "65a1f0c2"); ("region", VStr "north")];
   [("_id", VObjectId "65a1f0c3"); ("region", VStr "south")]].

(** The entry engine 2's manager writes for a requested name. *)
Definition engine2_entry (registry : list (string * Engine2.AnalysisService))
    (self : Engine2.PipelineManager) (raw_data : list Dict)
    (query_builder : option Engine2.MongoQueryBuilder) (base_query : option Dict)
    (analysis_name : string) : Value :=
  match Engine2.get_service registry analysis_name with
  | None => Engine2.not_found_payload analysis_name
  | Some service =>
      match Engine2.process service raw_data (Engine2.use_aggregation self)
              query_builder base_query with
      | Ok result => result
      | Raise e => Engine2.error_payload e
      end
  end.

(** An engine with an open connection to a store of one empty collection. *)
Definition sample_dal : Engine1.AnalyticsDAL :=
  Engine1.mkDAL (Some (λ _, sample_collection [])).

(** A registry for engine 2 whose sales analysis counts the rows it is
    given. *)
Definition counting_registry : list (string * Engine2.AnalysisService) :=
  Engine2.AVAILABLE_SERVICES (λ _, "")
    (λ rows, Ok (VDict [("rows", VInt (Z.of_nat (length rows)))]))
    (λ _, []) (λ _, Ok VNone)
    (λ _, Ok VNone) (λ _, []) (λ _, Ok VNone).

(** The registry of engine 2 with the pipeline and the post-processing
    of user_activity_summary as the service writes them. *)
Definition engine2_registry (py_repr : Value → string)
    (sales_analyze : list Dict → Result Value)
    (sales_build : Dict → list Value)
    (sales_post : list Dict → Result Value)
    (activity_analyze : list Dict → Result Value)
    (sections_of : list Dict → Result UserActivitySummary.Sections)
  : list (string * Engine2.AnalysisService) :=
  Engine2.AVAILABLE_SERVICES py_repr sales_analyze sales_build sales_post
    activity_analyze UserActivitySummary.build_aggregation_pipeline
    (UserActivitySummary.post_process_aggregation sections_of).

(** The store answers a pipeline whose last stage is [$facet] with
    exactly one document, which has one field per facet, as that stage
    does whatever reaches it. *)
Definition facet_yields_one_document (c : Collection) : Prop :=
  ∀ pipeline facets,
    last pipeline = Some (VDict [("$facet", VDict facets)]) →
    ∃ document,
      coll_aggregate c pipeline = Ok [document] ∧
      dict_keys document = dict_keys facets.

(** What [$facet] answers when no document reaches it: one document
    with an empty list for every facet. *)
Definition empty_facets (body : Value) : Dict :=
  match body with
  | VDict facets => (λ facet, (facet.1, VList [])) <$> facets
  | _ => []
  end.

(** A store without documents: [find] selects nothing, a pipeline ending
    in [$facet] yields the one document of that stage, any other pipeline
    yields nothing. *)
Definition empty_store : Collection :=
  mkCollection (λ _, []) (λ _ l, l)
    (λ pipeline,
       match last pipeline with
       | Some (VDict [stage]) =>
           if String.eqb stage.1 "$facet" then Ok [empty_facets stage.2]
           else Ok []
       | _ => Ok []
       end).

(** Sample inputs. *)
Definition cond_north : Value := VDict [("region", VStr "north")].
Definition cond_south : Value := VDict [("region", VStr "south")].
Definition cond_open : Value := VDict [("status", VStr "open")].

Definition raising_service : Engine2.AnalysisService :=
  Engine2.mkService "always_fails"
    (λ _ _ _ _, Raise (mkExn RuntimeError "boom")).

Definition failing_registry : list (string * Engine2.AnalysisService) :=
  ("always_fails", raising_service) :: counting_registry.

Definition engine1_registry : list (string * Engine1.AnalysisService) :=
  Engine1.AVAILABLE_SERVICES (λ _, Ok VNone) (λ _ _ _, Ok VNone).

Definition grouping_params : Dict :=
  [("group_by_columns", VList [VStr "region"]);
   ("aggregations", VDict [("revenue", VList [VStr "sum"; VStr "mean"])])].

(** The registry of engine 2 with a sales analysis that fails on a
    missing column. *)
Definition broken_sales_registry : list (string * Engine2.AnalysisService) :=
  Engine2.AVAILABLE_SERVICES (λ _, "")
    (λ _, Raise (mkExn RuntimeError "'sales_amount'")) (λ _, []) (λ _, Ok VNone)
    (λ _, Ok VNone) (λ _, []) (λ _, Ok VNone).

(** * The request layers around the engines *)

(** ** analytics-engine_2: api/routes.py and models/request_models.py *)

Module Engine2Api.

Inductive SortDirection := ASC | DESC.

(** [SortDirection.value] *)
Definition direction_value (d : SortDirection) : string :=
  match d with ASC => "asc" | DESC => "desc" end.

Inductive FilterOperator :=
  | EQ | NE | GT | GTE | LT | LTE | IN | NIN | EXISTS | TYPE | REGEX | ALL
  | SIZE | ELEM_MATCH.

(** [FilterOperator.value] *)
Definition operator_value (op : FilterOperator) : string :=
  match op with
  | EQ => "eq" | NE => "ne" | GT => "gt" | GTE => "gte" | LT => "lt"
  | LTE => "lte" | IN => "in" | NIN => "nin" | EXISTS => "exists"
  | TYPE => "type" | REGEX => "regex" | ALL => "all" | SIZE => "size"
  | ELEM_MATCH => "elem_match"
  end.

Record FilterCondition := mkCondition {
  field : string;
  operator : FilterOperator;
  value : Value;
  options : option Dict
}.

(** An element of [SearchCriteria.filters]: a [FilterCondition] or an
    [OrCondition] with its list of conditions. *)
Inductive FilterItem :=
  | Condition (filter_item : FilterCondition)
  | OrCondition (conditions : list FilterCondition).

Record SearchCriteria := mkCriteria {
  filters : list FilterItem;
  sort_field : option string;
  sort_direction : option SortDirection;
  limit : option Z;
  skip : option Z
}.

Record QueryRequest := mkRequest {
  criteria : SearchCriteria;
  analyses : list string
}.

(** dal/mongo_client.py, as the route uses it: the answer of
    [is_connected()] and what reading the [collection] property gives. *)
Record MongoDBClient := mkClient {
  is_connected : bool;
  collection : Result Collection
}.

(** What the route answers: the response model (its wall-clock field left
    out) or an [HTTPException]. *)
Inductive Response :=
  | AnalysisResponse (raw_data_count : nat) (analyses_results : gmap string Value)
  | HTTPException (status_code : Z) (detail : string).

(** The [or_dict] built for one condition of an [OrCondition]. *)
Definition or_dict (condition : FilterCondition) : Value :=
  match operator condition with
  | EQ => VDict [(field condition, value condition)]
  | op =>
      VDict [(field condition,
              VDict [("$" ++ operator_value op, value condition)])]
  end.

(** The loop over [request.criteria.filters]. *)
Fixpoint add_filters (items : list FilterItem)
    (query_builder : Engine2.MongoQueryBuilder)
  : Result Engine2.MongoQueryBuilder :=
  match items with
  | [] => Ok query_builder
  | Condition filter_item :: rest =>
      add_filters rest
        (Engine2.add_filter (field filter_item)
           (operator_value (operator filter_item)) (value filter_item)
           (options filter_item) query_builder).1
  | OrCondition conditions :: rest =>
      let* query_builder :=
        Engine2.add_or_condition (or_dict <$> conditions) query_builder in
      add_filters rest query_builder
  end.

(** [if request.criteria.sort_field: query_builder.set_sort(...)] *)
Definition add_sort (criteria : SearchCriteria)
    (query_builder : Engine2.MongoQueryBuilder)
  : Result Engine2.MongoQueryBuilder :=
  match sort_field criteria with
  | Some (String c s) =>
      match sort_direction criteria with
      | Some d => Ok (Engine2.set_sort (String c s) (direction_value d) query_builder)
      | None =>
          Raise (mkExn AttributeError "'NoneType' object has no attribute 'value'")
      end
  | _ => Ok query_builder
  end.

(** [if request.criteria.skip: ...] and [if request.criteria.limit: ...] *)
Definition add_paging (criteria : SearchCriteria)
    (query_builder : Engine2.MongoQueryBuilder) : Engine2.MongoQueryBuilder :=
  let query_builder :=
    match skip criteria with
    | Some n => if n =? 0 then query_builder else Engine2.set_skip n query_builder
    | None => query_builder
    end in
  match limit criteria with
  | Some n => if n =? 0 then query_builder else Engine2.set_limit n query_builder
  | None => query_builder
  end.

Section Routes.
Variable py_repr : Value → string.
Variable registry : list (string * Engine2.AnalysisService).

(** The query built from the request and the rows it fetches. *)
Definition fetch (mongo_client : MongoDBClient) (request : QueryRequest)
  : Result (Engine2.MongoQueryBuilder * list Dict) :=
  let* collection := collection mongo_client in
  let query_builder := Engine2.init collection in
  let* query_builder := add_filters (filters (criteria request)) query_builder in
  let* query_builder := add_sort (criteria request) query_builder in
  let query_builder := add_paging (criteria request) query_builder in
  let* raw_data := Engine2.execute py_repr query_builder in
  Ok (query_builder, raw_data).

(** The analyses part of the route, on the fetched rows. *)
Definition run_analyses (request : QueryRequest)
    (query_builder : Engine2.MongoQueryBuilder) (raw_data : list Dict)
  : gmap string Value :=
  match analyses request with
  | [] => ∅
  | _ :: _ =>
      let pipeline_manager := Engine2.mkManager false in
      let (valid_analyses, invalid_analyses) :=
        Engine2.validate_analyses registry (analyses request) in
      match valid_analyses with
      | [] => ∅
      | _ :: _ =>
          Engine2.results
            (Engine2.execute_analyses registry pipeline_manager raw_data
               valid_analyses (Some query_builder)
               (Some (Engine2.query query_builder)))
      end
  end.

(** [analyze_data]: an [HTTPException] raised inside passes through, any
    other exception becomes the 500 answer. *)
Definition analyze_data (mongo_client : MongoDBClient) (request : QueryRequest)
  : Response :=
  if negb (is_connected mongo_client) then
    HTTPException 503 "Database connection not available"
  else
    match fetch mongo_client request with
    | Raise e => HTTPException 500 ("Error processing request: " ++ str_exn e)
    | Ok (query_builder, raw_data) =>
        AnalysisResponse (length raw_data)
          (run_analyses request query_builder raw_data)
    end.
End Routes.

End Engine2Api.

(** ** analytics_engine_1: api/endpoints.py *)

Module Engine1Api.

Record QueryRequest := mkRequest {
  collection : string;
  criteria : Engine1.SearchCriteria;
  analyses : list Engine1.AnalysisRequest
}.

Inductive Response :=
  | Results (results : gmap string Value)
  | HTTPException (status_code : Z) (detail : string).

(** [analyze_data]: ValueError and RuntimeError of the pipeline become a
    400 with their text, anything else a 500 with a fixed text. *)
Definition analyze_data (dal : Engine1.AnalyticsDAL)
    (registry : list (string * Engine1.AnalysisService)) (request : QueryRequest)
  : Response :=
  match Engine1.db dal with
  | None =>
      HTTPException 503 "Service is not ready, database connection is unavailable."
  | Some _ =>
      let pipeline_manager :=
        Engine1.mkManager dal (collection request) (criteria request)
          (analyses request) in
      match Engine1.run_pipeline registry pipeline_manager with
      | (results, None) => Results results
      | (_, Some e) =>
          match exn_kind e with
          | ValueError | RuntimeError => HTTPException 400 (str_exn e)
          | _ => HTTPException 500 "An internal server error occurred during analysis."
          end
      end
  end.

End Engine1Api.

(** ** sal_1/dal.py: sorting and search *)

Module Sal1Search.

(** models.py *)
Inductive SortOrder := ASC | DESC.

Record SortCondition := mkSort { field : string; order : SortOrder }.

Record SearchQuery := mkQuery {
  text : option string;
  fields : option (list string);
  filters : option (list Sal1.FilterCondition);
  sort : option (list SortCondition);
  page : Z;
  limit : Z;
  include_count : bool
}.

Record PaginatedResponse := mkPage {
  data : list Dict;
  total : option Z;
  r_page : Z;
  r_limit : Z;
  pages : option Z;
  has_next : bool;
  has_prev : bool
}.

(** [_build_mongodb_sort] *)
Definition _build_mongodb_sort (sort_conditions : list SortCondition) : SortSpec :=
  let sort_list :=
    (λ sort_condition,
       (field sort_condition,
        match order sort_condition with
        | ASC => ASCENDING
        | DESC => DESCENDING
        end)) <$> sort_conditions in
  match sort_list with
  | [] => [("created_at", DESCENDING)]
  | _ :: _ => sort_list
  end.

(** What the body of a [try] can raise: an exception of [Py], a missing
    key, a division by zero. *)
Inductive Raised :=
  | PyExn (e : Exn)
  | KeyError (key : string)
  | ZeroDivisionError.

(** [str(e)] *)
Definition str_raised (r : Raised) : string :=
  match r with
  | PyExn e => str_exn e
  | KeyError key => "'" ++ key ++ "'"
  | ZeroDivisionError => "integer division or modulo by zero"
  end.

(** [item["_id"] = str(item["_id"])] *)
Definition stringify_item (py_repr : Value → string) (item : Dict)
  : Raised + Dict :=
  match dict_get "_id" item with
  | Some v => inr (dict_set "_id" (VStr (str py_repr v)) item)
  | None => inl (KeyError "_id")
  end.

Fixpoint stringify_items (py_repr : Value → string) (items : list Dict)
  : Raised + list Dict :=
  match items with
  | [] => inr []
  | item :: rest =>
      match stringify_item py_repr item with
      | inl r => inl r
      | inr item =>
          match stringify_items py_repr rest with
          | inl r => inl r
          | inr rest => inr (item :: rest)
          end
      end
  end.

(** [collection.count_documents(q)]: the number of documents [find(q)]
    selects. *)
Definition count_documents (c : Collection) (q : Dict) : Z :=
  Z.of_nat (length (coll_find c q)).

Definition database_error (r : Raised) : Exn :=
  mkExn RuntimeError ("שגיאה במסד הנתונים: " ++ str_raised r).

Definition not_connected : Exn :=
  mkExn RuntimeError "אין חיבור פעיל למסד הנתונים".

Section Search.
Variable py_repr : Value → string.
Variable int_of_str : string → Result Z.

(** The filter document [search_items] sends to the store. *)
Definition mongo_query_of (search_query : SearchQuery) : Raised + Dict :=
  let mongo_query : Dict :=
    match text search_query with
    | Some (String c s) =>
        match fields search_query with
        | Some (f :: fs) =>
            [("$or",
              VList ((λ field,
                        VDict [(field,
                                VDict [("$regex",
                                        VStr (Sal1.re_escape (String c s)));
                                       ("$options", VStr "i")])])
                       <$> (f :: fs)))]
        | _ => [("$text", VDict [("$search", VStr (String c s))])]
        end
    | _ => []
    end in
  match filters search_query with
  | Some (x :: r) =>
      match Sal1._build_mongodb_filter py_repr int_of_str (x :: r) with
      | Ok filter_query => inr (dict_update mongo_query filter_query)
      | Raise e => inl (PyExn e)
      end
  | _ => inr mongo_query
  end.

Definition sort_conditions_of (search_query : SearchQuery) : SortSpec :=
  match sort search_query with
  | Some (x :: r) => _build_mongodb_sort (x :: r)
  | _ => [("created_at", DESCENDING)]
  end.

(** The body of the [try] of [search_items]. *)
Definition search_body (c : Collection) (search_query : SearchQuery)
  : Raised + PaginatedResponse :=
  match mongo_query_of search_query with
  | inl r => inl r
  | inr mongo_query =>
      let sort_conditions := sort_conditions_of search_query in
      let skip := (page search_query - 1) * limit search_query in
      match cursor_skip skip (cursor_sort sort_conditions (find c mongo_query)) with
      | Raise e => inl (PyExn e)
      | Ok cursor =>
          let cursor := cursor_limit (limit search_query) cursor in
          match stringify_items py_repr (cursor_list c cursor) with
          | inl r => inl r
          | inr items =>
              if include_count search_query then
                let total := count_documents c mongo_query in
                if limit search_query =? 0 then inl ZeroDivisionError
                else
                  let pages :=
                    (total + limit search_query - 1) / limit search_query in
                  inr (mkPage items (Some total) (page search_query)
                         (limit search_query) (Some pages)
                         (if pages =? 0 then false
                          else page search_query <? pages)
                         (1 <? page search_query))
              else
                inr (mkPage items None (page search_query) (limit search_query)
                       None false (1 <? page search_query))
          end
      end
  end.

(** [search_items]: [self.collection] is [None] before the connection. *)
Definition search_items (collection : option Collection)
    (search_query : SearchQuery) : Result PaginatedResponse :=
  match collection with
  | None => Raise not_connected
  | Some c =>
      match search_body c search_query with
      | inr response => Ok response
      | inl r => Raise (database_error r)
      end
  end.

(** [get_all_items] *)
Definition get_all_items (collection : option Collection) (limit skip : Z)
  : Result (list Dict) :=
  match collection with
  | None => Raise not_connected
  | Some c =>
      match cursor_skip skip
              (cursor_sort [("created_at", DESCENDING)] (find c [])) with
      | Raise e => Raise (database_error (PyExn e))
      | Ok cursor =>
          match stringify_items py_repr
                  (cursor_list c (cursor_limit limit cursor)) with
          | inl r => Raise (database_error r)
          | inr items => Ok items
          end
      end
  end.
End Search.

End Sal1Search.

(** * Vocabulary of the further properties *)

(** The sort key [set_sort] of engine 2 appends for a field and a
    direction text. *)
Definition sort_key (p : string * string) : string * Z :=
  (p.1, if String.eqb (lower p.2) "asc" then ASCENDING else DESCENDING).

(** The rows of a result, none when it raised. *)
Definition rows_or_nil (r : Result (list Dict)) : list Dict :=
  match r with Ok rows => rows | Raise _ => [] end.

(** Page [i] (from 0) of size [n] of what a builder of engine 2 selects. *)
Definition engine2_page (py_repr : Value → string)
    (b : Engine2.MongoQueryBuilder) (n : Z) (i : nat) : Result (list Dict) :=
  Engine2.execute py_repr
    (Engine2.set_limit n (Engine2.set_skip (Z.of_nat i * n) b)).

(** The sales analysis answered, and with a report. *)
Definition is_report {Num R} (o : Result (SalesByRegion.Outcome Num R)) : Prop :=
  match o with Ok (SalesByRegion.Report _ _ _ _) => True | _ => False end.

Definition missing_columns_message : string :=
  "Missing required columns. Required: ['region', 'sales_amount']".

(** The sum of an integer column of a frame. *)
Definition column_sum {R} (column : R → Z) (records : list R) : Z :=
  foldr Z.add 0 (column <$> records).

(** Some document has the key. *)
Definition has_column {Num} (key : string) (data : list (SalesByRegion.Row Num))
  : Prop :=
  Exists (λ r, key ∈ SalesByRegion.row_keys r) data.

(** The documents of the first [$group] over the given rows, and the
    [grand_total] of the second. *)
Definition region_groups {Num} (ops : SalesByRegion.Arithmetic Num)
    (data : list (SalesByRegion.Row Num)) : list (SalesByRegion.Group Num) :=
  SalesByRegion.group_of ops data
    <$> remove_dups (SalesByRegion.group_key <$> data).

Definition grand_total {Num} (ops : SalesByRegion.Arithmetic Num)
    (data : list (SalesByRegion.Row Num)) : Num :=
  SalesByRegion.acc_total ops
    (SalesByRegion.g_total_sales <$> region_groups ops data).

(** A total preorder, given by its test. *)
Definition ranks {A} (before : A → A → bool) : Prop :=
  (∀ a b, before a b = true ∨ before b a = true) ∧
  (∀ a b c, before a b = true → before b c = true → before a c = true).

(** Every clause of an engine-1 filter is a dictionary of operators. *)
Definition clauses_are_dicts (f : Dict) : Prop :=
  ∀ k v, dict_get k f = Some v → ∃ clause, v = VDict clause.

(** The clause of [field] holds the operator [key]. *)
Definition has_operator (f : Dict) (field key : string) : Prop :=
  ∃ clause, dict_get field f = Some (VDict clause) ∧ is_Some (dict_get key clause).

(** The operator of the criterion is one of [op_map]. *)
Definition plain_operator (f : Engine1.FilterCriterion) : Prop :=
  is_Some (dict_get (Engine1.f_operator f) Engine1.op_map).

(** The call of [add_filter] in the loop of [_build_base_query]. *)
Definition add_criterion (f : Engine1.FilterCriterion)
  : Engine1.MongoQueryBuilder → Engine1.Outcome :=
  Engine1.add_filter (Engine1.f_field f) (Engine1.f_operator f) (Engine1.f_value f).

Definition sort_pair (s : Engine1.SortCriterion) : string * Z :=
  (Engine1.s_field s, Engine1.s_direction s).

(** The names of the services the manager resolved, in order. *)
Definition resolved_names
    (services : list (string * Dict * Engine1.AnalysisService)) : list string :=
  (λ s, s.1.1) <$> services.

(** [self.results] after the entries were stored, in order. *)
Definition store_entries (results : gmap string Value)
    (entries : list (string * Value)) : gmap string Value :=
  foldl (λ m entry, <[entry.1 := entry.2]> m) results entries.

Definition internal_error : string :=
  "An internal server error occurred during analysis.".

(** The clause of a free-text search for one field. *)
Definition text_clause (text field : string) : Value :=
  VDict [(field, VDict [("$regex", VStr (Sal1.re_escape text));
                        ("$options", VStr "i")])].

(** The pattern a [contains], [starts_with] or [ends_with] condition
    is translated to. *)
Definition text_pattern (py_repr : Value → string) (fc : Sal1.FilterCondition)
  : option string :=
  let escaped := Sal1.re_escape (str py_repr (Sal1.value fc)) in
  match Sal1.operator fc with
  | Sal1.CONTAINS => Some escaped
  | Sal1.STARTS_WITH => Some ("^" ++ escaped)
  | Sal1.ENDS_WITH => Some (escaped ++ "$")
  | _ => None
  end.

(** The operators a query holds for a field, none when it holds a plain
    value or nothing. *)
Definition clause_of (field : string) (query : Dict) : Dict :=
  match dict_get field query with
  | Some (VDict clause) => clause
  | _ => []
  end.

(** A [size] condition whose value [int] accepts; any other condition. *)
Definition convertible (int_of_str : string → Result Z)
    (fc : Sal1.FilterCondition) : Prop :=
  Sal1.operator fc = Sal1.SIZE → ∃ n, Sal1.py_int int_of_str (Sal1.value fc) = Ok n.

(** The value is not a dictionary. *)
Definition plain_value (v : Value) : Prop :=
  match v with VDict _ => False | _ => True end.

(** Sample inputs of the further properties. *)
Definition three_docs : list Dict :=
  [[("_id", VObjectId "65a1f0c2"); ("region", VStr "north")];
   [("_id", VObjectId "65a1f0c3"); ("region", VStr "south")];
   [("_id", VObjectId "65a1f0c4"); ("region", VStr "east")]].

(** An arithmetic to run the sales analysis on in the sample
    evaluations: whole numbers, sums of the numbers present, quotients
    rounded down.  It stands for none of the libraries. *)
Definition whole_sum (cells : list (SalesByRegion.Field Z)) : Z :=
  foldr Z.add 0
    (omap (λ c, match c with SalesByRegion.Has z => Some z | _ => None end) cells).

Definition whole_count (cells : list (SalesByRegion.Field Z)) : Z :=
  Z.of_nat (length
    (omap (λ c, match c with SalesByRegion.Has z => Some z | _ => None end) cells)).

Definition whole_pick (pick : Z → Z → Z) (cells : list (SalesByRegion.Field Z))
  : option Z :=
  match omap (λ c, match c with SalesByRegion.Has z => Some z | _ => None end)
          cells with
  | [] => None
  | z :: zs => Some (foldr pick z zs)
  end.

Definition whole_numbers : SalesByRegion.Arithmetic Z :=
  SalesByRegion.mkArithmetic Z
    (λ z, z)
    whole_sum
    (λ _ group, whole_sum group)
    (λ _ group, whole_sum group / whole_count group)
    (λ _ group, whole_count group)
    (λ _ group, default 0 (whole_pick Z.min group))
    (λ _ group, default 0 (whole_pick Z.max group))
    (λ x total, x * 100 / total)
    (λ a b, b <=? a)
    (λ z, z)
    (λ total n, total / Z.of_nat n)
    (λ _ _, None)
    whole_sum
    (λ group, match whole_count group with
              | 0 => None
              | n => Some (whole_sum group / n)
              end)
    (whole_pick Z.min)
    (whole_pick Z.max)
    (foldr Z.add 0)
    (λ z, z)
    (λ z, z =? 0)
    (λ a b, a * 100 / b)
    (λ a b, b <=? a).

Definition sales_row (region : option string) (amount : Z)
  : SalesByRegion.Row Z :=
  SalesByRegion.mkRow ["_id"; "region"; "sales_amount"] region (Some amount).

Definition sample_rows : list (SalesByRegion.Row Z) :=
  [sales_row (Some "north") 100; sales_row (Some "south") 50;
   sales_row (Some "north") 20; sales_row None 5].

Definition age_between : list Engine1.FilterCriterion :=
  [Engine1.mkFilter "age" "gte" (VInt 18); Engine1.mkFilter "age" "lte" (VInt 65)].

Definition sample_manager (criteria : Engine1.SearchCriteria)
  : Engine1.PipelineManager :=
  Engine1.mkManager sample_dal "sales" criteria [].

Definition age_is_30 : Sal1.FilterCondition :=
  Sal1.mkCondition "age" Sal1.EQUALS (VInt 30) false.

Definition age_over_18 : Sal1.FilterCondition :=
  Sal1.mkCondition "age" Sal1.GREATER_THAN (VInt 18) false.

Definition sample_search (page limit : Z) : Sal1Search.SearchQuery :=
  Sal1Search.mkQuery None None None None page limit true.

Definition text_search : Sal1Search.SearchQuery :=
  Sal1Search.mkQuery (Some "a.b") (Some ["name"; "city"]) (Some [age_over_18])
    None 1 10 true.

(** * Properties *)

(** ** Dictionaries *)

Lemma dict_get_set_eq {V} (k : string) (v : V) d :
  dict_get k (dict_set k v d) = Some v.
Proof.
  induction d as [|[k' v'] d IH]; simpl.
  - by rewrite String.eqb_refl.
  - destruct (String.eqb k k') eqn:E; simpl.
    + by rewrite String.eqb_refl.
    + by rewrite E.
Qed.

Lemma dict_get_set_ne {V} (k k' : string) (v : V) d :
  k ≠ k' → dict_get k' (dict_set k v d) = dict_get k' d.
Proof.
  intros Hne. induction d as [|[k0 v0] d IH]; simpl.
  - destruct (String.eqb_spec k' k); [congruence|done].
  - destruct (String.eqb_spec k k0) as [->|Hk]; simpl.
    + destruct (String.eqb_spec k' k0); [congruence|done].
    + destruct (String.eqb_spec k' k0); [done|exact IH].
Qed.

Lemma dict_get_set {V} (k k' : string) (v : V) d :
  dict_get k' (dict_set k v d) = if String.eqb k' k then Some v else dict_get k' d.
Proof.
  destruct (String.eqb_spec k' k) as [->|Hne].
  - apply dict_get_set_eq.
  - apply dict_get_set_ne. congruence.
Qed.

Lemma dict_in_spec {V} (k : string) (d : list (string * V)) :
  dict_in k d = true ↔ is_Some (dict_get k d).
Proof.
  unfold dict_in. destruct (dict_get k d); split; intros H; try done.
Qed.

(** ** OR groups accumulate *)

Lemma engine2_add_or_condition_extends (cs l : list Value)
    (b : Engine2.MongoQueryBuilder) :
  or_clauses (Engine2.query b) = Some l →
  ∃ b', Engine2.add_or_condition cs b = Ok b' ∧
        dict_get "$or" (Engine2.query b') = Some (VList (l ++ cs)%list) ∧
        ∀ k, k ≠ "$or" →
             dict_get k (Engine2.query b') = dict_get k (Engine2.query b).
Proof.
  unfold or_clauses, Engine2.add_or_condition, dict_in. intros H.
  destruct (dict_get "$or" (Engine2.query b)) as [v|] eqn:E.
  - destruct v; try discriminate. injection H as ->. rewrite E.
    eexists. split; [reflexivity|]. simpl. rewrite dict_get_set_eq.
    split; [done|]. intros k Hk. by rewrite dict_get_set_ne.
  - injection H as <-. simpl. rewrite dict_get_set_eq.
    eexists. split; [reflexivity|]. simpl. rewrite dict_get_set_eq.
    split; [done|]. intros k Hk. by rewrite !dict_get_set_ne.
Qed.

Lemma engine1_add_or_condition_extends (cs l : list Value)
    (b : Engine1.MongoQueryBuilder) :
  or_clauses (Engine1._filter b) = Some l →
  ∃ b', Engine1.add_or_condition (VList cs) b = (b', None) ∧
        dict_get "$or" (Engine1._filter b') = Some (VList (l ++ cs)%list) ∧
        ∀ k, k ≠ "$or" →
             dict_get k (Engine1._filter b') = dict_get k (Engine1._filter b).
Proof.
  unfold or_clauses, Engine1.add_or_condition. intros H.
  destruct (dict_get "$or" (Engine1._filter b)) as [v|] eqn:E.
  - destruct v; try discriminate. injection H as ->. simpl.
    eexists. split; [reflexivity|]. simpl. rewrite dict_get_set_eq.
    split; [done|]. intros k Hk. by rewrite dict_get_set_ne.
  - injection H as <-. eexists. split; [reflexivity|]. simpl.
    rewrite dict_get_set_eq. split; [done|].
    intros k Hk. by rewrite dict_get_set_ne.
Qed.

(** C6.  Two sequential [add_or_condition] calls with condition lists
    [cs1] and [cs2] leave, in both engines, one flat top-level ["$or"]
    list: the clauses accumulated before, then [cs1], then [cs2].  The
    later call replaces nothing of the earlier one, and no other key of
    the filter changes. *)
Theorem or_groups_concatenate (cs1 cs2 l : list Value)
    (b2 : Engine2.MongoQueryBuilder) (b1 : Engine1.MongoQueryBuilder) :
  or_clauses (Engine2.query b2) = Some l →
  or_clauses (Engine1._filter b1) = Some l →
  (∃ b', bind (Engine2.add_or_condition cs1 b2) (Engine2.add_or_condition cs2)
           = Ok b' ∧
         dict_get "$or" (Engine2.query b') = Some (VList (l ++ cs1 ++ cs2)%list) ∧
         ∀ k, k ≠ "$or" →
              dict_get k (Engine2.query b') = dict_get k (Engine2.query b2)) ∧
  (∃ b', Engine1.and_then (Engine1.add_or_condition (VList cs1) b1)
           (Engine1.add_or_condition (VList cs2)) = (b', None) ∧
         dict_get "$or" (Engine1._filter b') = Some (VList (l ++ cs1 ++ cs2)%list) ∧
         ∀ k, k ≠ "$or" →
              dict_get k (Engine1._filter b') = dict_get k (Engine1._filter b1)).
Proof.
  intros H2 H1. split.
  - destruct (engine2_add_or_condition_extends cs1 l b2 H2) as (b & -> & Hb & Hk).
    assert (or_clauses (Engine2.query b) = Some (l ++ cs1)%list) as Hb0
      by (unfold or_clauses; by rewrite Hb).
    destruct (engine2_add_or_condition_extends cs2 _ b Hb0) as (b' & E & Hb' & Hk').
    exists b'. simpl. split; [exact E|]. split.
    + by rewrite Hb', <- app_assoc.
    + intros k Hne. by rewrite Hk', Hk.
  - destruct (engine1_add_or_condition_extends cs1 l b1 H1) as (b & -> & Hb & Hk).
    assert (or_clauses (Engine1._filter b) = Some (l ++ cs1)%list) as Hb0
      by (unfold or_clauses; by rewrite Hb).
    destruct (engine1_add_or_condition_extends cs2 _ b Hb0) as (b' & E & Hb' & Hk').
    exists b'. simpl. split; [exact E|]. split.
    + by rewrite Hb', <- app_assoc.
    + intros k Hne. by rewrite Hk', Hk.
Qed.

(** ** execute: filter, sort, skip, limit *)

Lemma engine2_execute_eq (py_repr : Value → string) (b : Engine2.MongoQueryBuilder) :
  Engine2.execute py_repr b =
  Ok (Engine2.stringify_id py_repr <$>
        apply_limit (default 0 (Engine2.limit_count b))
          (apply_skip (Engine2.skip_count b) (engine2_sorted b))).
Proof.
  unfold Engine2.execute, engine2_sorted, cursor_skip, find, cursor_list.
  destruct b as [c q s lim sk]; simpl.
  assert (∀ cur : Cursor,
    (if 0 <? sk then (if sk <? 0 then Raise (mkExn ValueError "skip must be >= 0")
                      else Ok (mkCursor (cur_docs cur) (cur_sort cur) sk (cur_limit cur)))
     else Ok cur) =
    Ok (if 0 <? sk then mkCursor (cur_docs cur) (cur_sort cur) sk (cur_limit cur)
        else cur)) as Hskip.
  { intros cur. destruct (Z.ltb_spec 0 sk); [|done].
    destruct (Z.ltb_spec sk 0); [lia|done]. }
  rewrite Hskip. simpl. f_equal. f_equal.
  assert (apply_skip sk = if 0 <? sk then apply_skip sk else apply_skip 0) as ->.
  { destruct (Z.ltb_spec 0 sk); [done|].
    unfold apply_skip. by replace (Z.to_nat sk) with (Z.to_nat 0) by lia. }
  destruct s as [[|x r]|], lim as [n|]; simpl;
    try destruct (n =? 0) eqn:En; try apply Z.eqb_eq in En; subst;
    destruct (0 <? sk); simpl; try rewrite En; reflexivity.
Qed.

Lemma stringify_id_is_text (py_repr : Value → string) (doc : Dict) :
  id_is_text (Engine2.stringify_id py_repr doc).
Proof.
  unfold id_is_text, Engine2.stringify_id.
  destruct (dict_get "_id" doc) as [v|] eqn:E.
  - by rewrite dict_get_set_eq.
  - by rewrite E.
Qed.

(** C7, as stated, fails for engine 1: its [execute] hands back the
    document with the native identifier still in place. *)
Lemma engine1_execute_keeps_native_id :
  ∃ rows,
    Engine1.execute (Engine1.init (sample_collection two_docs)) = Ok rows ∧
    ¬ Forall id_is_text rows.
Proof.
  exists two_docs. split; [reflexivity|].
  intros H. apply Forall_cons in H as [H _]. exact H.
Qed.

(** C7 (amended).  Engine 2's [execute] returns the documents the filter
    selects, sorted, then skipped, then limited, and every returned
    document has its [_id], when present, replaced by the string [str]
    gives for it.  Engine 1's [execute] applies the same stages and
    returns the documents as the cursor yields them, identifier
    unconverted (it raises on a negative skip or a limit below 1). *)
Theorem execute_order_and_identifiers (py_repr : Value → string)
    (b2 : Engine2.MongoQueryBuilder) (b1 : Engine1.MongoQueryBuilder) :
  (∃ rows,
     Engine2.execute py_repr b2 = Ok rows ∧
     rows = Engine2.stringify_id py_repr <$>
              apply_limit (default 0 (Engine2.limit_count b2))
                (apply_skip (Engine2.skip_count b2)
                   (apply_sort (Engine2.collection b2)
                      (effective_sort (Engine2.sort_params b2))
                      (coll_find (Engine2.collection b2) (Engine2.query b2)))) ∧
     Forall id_is_text rows) ∧
  Engine1.execute b1 =
    (if default 0 (Engine1._skip b1) <? 0
     then Raise (mkExn ValueError "skip must be >= 0")
     else cursor_to_list (Engine1.collection b1) (Engine1._limit b1)
            (mkCursor (coll_find (Engine1.collection b1) (Engine1._filter b1))
               (effective_sort (Engine1._sort b1))
               (default 0 (Engine1._skip b1))
               (default 0 (Engine1._limit b1)))).
Proof.
  split.
  - eexists. split; [apply engine2_execute_eq|]. split; [reflexivity|].
    apply Forall_fmap, Forall_forall. intros doc _. apply stringify_id_is_text.
  - unfold Engine1.execute, find, cursor_skip, cursor_sort, cursor_limit.
    destruct b1 as [c f s lim sk pr]; simpl.
    destruct sk as [n|]; simpl.
    + destruct (Z.eqb_spec n 0) as [->|Hn]; simpl.
      * destruct s as [[|x r]|], lim as [m|]; simpl;
          try destruct (Z.eqb_spec m 0) as [->|Hm]; simpl; reflexivity.
      * destruct (n <? 0); simpl; [done|].
        destruct s as [[|x r]|], lim as [m|]; simpl;
          try destruct (Z.eqb_spec m 0) as [->|Hm]; simpl; reflexivity.
    + destruct s as [[|x r]|], lim as [m|]; simpl;
        try destruct (Z.eqb_spec m 0) as [->|Hm]; simpl; reflexivity.
Qed.

(** C10, as stated, fails: a negative limit is not strictly positive, yet
    [execute] hands it to the cursor and the result set changes. *)
Lemma negative_limit_changes_result :
  let b := Engine2.init (sample_collection two_docs) in
  Engine2.execute (λ _, "") (Engine2.set_limit 0 b) = Ok (Engine2.stringify_id (λ _, "") <$> two_docs) ∧
  Engine2.execute (λ _, "") (Engine2.set_limit (-1) b) ≠
    Engine2.execute (λ _, "") (Engine2.set_limit 0 b).
Proof. split; [reflexivity|]. vm_compute. discriminate. Qed.

(** C10 (amended).  In engine 2, [execute] treats a limit of 0 as unset
    (no limit stage: every selected document after the skip is returned)
    and a skip of 0 as unset; a skip is applied only when strictly
    positive, so a negative skip also skips nothing; every non-zero
    limit, a negative one included, is applied, a negative limit capping
    the result at its absolute value. *)
Theorem zero_limit_and_skip_are_unset (py_repr : Value → string)
    (b : Engine2.MongoQueryBuilder) (n : Z) :
  Engine2.execute py_repr (Engine2.set_limit 0 b) =
    Ok (Engine2.stringify_id py_repr <$>
          apply_skip (Engine2.skip_count b) (engine2_sorted b)) ∧
  Engine2.execute py_repr (Engine2.set_skip 0 b) =
    Ok (Engine2.stringify_id py_repr <$>
          apply_limit (default 0 (Engine2.limit_count b)) (engine2_sorted b)) ∧
  Engine2.execute py_repr (Engine2.set_skip n b) =
    Ok (Engine2.stringify_id py_repr <$>
          apply_limit (default 0 (Engine2.limit_count b))
            (if 0 <? n then drop (Z.to_nat n) (engine2_sorted b)
             else engine2_sorted b)) ∧
  Engine2.execute py_repr (Engine2.set_limit n b) =
    Ok (Engine2.stringify_id py_repr <$>
          (if n =? 0 then apply_skip (Engine2.skip_count b) (engine2_sorted b)
           else take (Z.to_nat (Z.abs n))
                  (apply_skip (Engine2.skip_count b) (engine2_sorted b)))).
Proof.
  rewrite !engine2_execute_eq. unfold engine2_sorted. simpl.
  repeat split.
  - unfold apply_skip at 1. simpl.
    destruct (Z.ltb_spec 0 n); [done|].
    by replace (Z.to_nat n) with 0%nat by lia.
Qed.

(** ** add_filter: merging and unknown operators *)

Lemma dict_update_other {V} (k : string) (d e : list (string * V)) :
  k ∉ dict_keys e → dict_get k (dict_update d e) = dict_get k d.
Proof.
  unfold dict_update, dict_keys. revert d.
  induction e as [|[k0 v0] e IH]; intros d Hk; simpl; [done|].
  rewrite fmap_cons, not_elem_of_cons in Hk. destruct Hk as [Hne Hk]. simpl in Hne.
  rewrite IH by done. apply dict_get_set_ne. congruence.
Qed.

Lemma op_map_known (operator key : string) :
  dict_get operator Engine1.op_map = Some key →
  operator ∈ known_operators ∧ operator ≠ "regex" ∧ key = "$" ++ operator.
Proof.
  unfold Engine1.op_map, known_operators. simpl.
  repeat (match goal with
          | |- context [String.eqb operator ?lit] =>
              destruct (String.eqb_spec operator lit) as [->|?]
          end; [intros [= <-]; split; [set_solver|done]|]).
  discriminate.
Qed.

Lemma unknown_not_in_op_map (operator : string) :
  operator ∉ known_operators → dict_get operator Engine1.op_map = None.
Proof.
  intros H. destruct (dict_get operator Engine1.op_map) as [key|] eqn:E; [|done].
  apply op_map_known in E as [? _]. done.
Qed.

(** Engine 2 assigns the clause of the field, whatever was there. *)
Lemma engine2_add_filter_assigns (field operator key : string) (v : Value)
    (options : option Dict) (b : Engine2.MongoQueryBuilder) :
  dict_get operator Engine1.op_map = Some key →
  Engine2.add_filter field operator v options b =
    (Engine2.assign field
       (if String.eqb operator "eq" then v else VDict [(key, v)]) b, []).
Proof.
  unfold Engine1.op_map, Engine2.add_filter. simpl.
  repeat (match goal with
          | |- context [String.eqb operator ?lit] =>
              destruct (String.eqb_spec operator lit) as [->|?]
          end; [intros [= <-]; reflexivity|]).
  discriminate.
Qed.



(** C5, as stated, fails for engine 1: an operator it does not know
    makes [add_filter] raise. *)
Lemma engine1_unknown_operator_raises :
  let b := Engine1.init (sample_collection []) in
  ("between" ∉ known_operators) ∧
  Engine1.add_filter "price" "between" (VInt 5) b
    = (b, Some (mkExn ValueError "אופרטור לא נתמך: between")).
Proof.
  split; [|reflexivity].
  unfold known_operators. rewrite !not_elem_of_cons. repeat split; try discriminate.
  apply not_elem_of_nil.
Qed.

(** C5 (amended).  For every operator string outside the known ones,
    engine 2's [add_filter] returns normally with the builder unchanged
    and one warning naming the operator in the log, while engine 1's
    [add_filter] raises a ValueError naming the operator, the builder
    unchanged as well. *)
Theorem unknown_operator_policy (field operator : string) (v : Value)
    (options : option Dict)
    (b2 : Engine2.MongoQueryBuilder) (b1 : Engine1.MongoQueryBuilder)
    (Hunknown : operator ∉ known_operators) :
  Engine2.add_filter field operator v options b2
    = (b2, [(WARNING, "Unknown operator: " ++ operator)]) ∧
  Engine1.add_filter field operator v b1
    = (b1, Some (mkExn ValueError ("אופרטור לא נתמך: " ++ operator))).
Proof.
  split.
  - unfold Engine2.add_filter.
    repeat (match goal with
            | |- context [String.eqb operator ?lit] =>
                destruct (String.eqb_spec operator lit) as [->|?]
            end; [exfalso; apply Hunknown; unfold known_operators; set_solver|]).
    reflexivity.
  - unfold Engine1.add_filter.
    destruct (String.eqb_spec operator "regex") as [->|?];
      [exfalso; apply Hunknown; unfold known_operators; set_solver|].
    by rewrite unknown_not_in_op_map.
Qed.

(** ** sal_1: regular-expression operators *)

Lemma special_not_alnum (c : Ascii.ascii) :
  Sal1.is_special c = true → is_alnum c = false.
Proof.
  destruct c as [[] [] [] [] [] [] [] []]; vm_compute; congruence.
Qed.

Lemma plain_not_meta (c : Ascii.ascii) :
  Sal1.is_special c = false →
  Ascii.eqb c Sal1.backslash = false ∧ is_meta c = false.
Proof.
  destruct c as [[] [] [] [] [] [] [] []]; vm_compute; intros H;
    first [discriminate H | split; reflexivity].
Qed.

(** What [re.escape] returns is a pattern without operators, and the one
    text it matches is the text that was escaped. *)
Lemma literal_text_re_escape (s : string) :
  literal_text (Sal1.re_escape s) = Some s.
Proof.
  induction s as [|c s IH]; [reflexivity|].
  simpl. destruct (Sal1.is_special c) eqn:E.
  - cbn [literal_text]. rewrite Ascii.eqb_refl.
    rewrite (special_not_alnum c E). by rewrite IH.
  - destruct (plain_not_meta c E) as [Hb Hm].
    cbn [literal_text]. rewrite Hb, Hm. by rewrite IH.
Qed.

(** C9.  A case-insensitive [contains] followed by a case-sensitive
    [contains] on the same field: the filter built holds the second
    pattern with the option ["i"] of the first, although the second
    condition asks for a case-sensitive match (alone it gives no option),
    and the first pattern is gone. *)
Theorem stale_case_option :
  ∀ (py_repr : Value → string) (int_of_str : string → Result Z),
    let first := Sal1.mkCondition "name" Sal1.CONTAINS (VStr "a") false in
    let second := Sal1.mkCondition "name" Sal1.CONTAINS (VStr "B") true in
    Sal1._build_mongodb_filter py_repr int_of_str [first; second]
    = Ok [("name", VDict [("$regex", VStr "B"); ("$options", VStr "i")])] ∧
    Sal1.case_sensitive second = true ∧
    Sal1._build_mongodb_filter py_repr int_of_str [second]
    = Ok [("name", VDict [("$regex", VStr "B")])].
Proof. intros. repeat split. Qed.

(** ** Pipeline managers *)

Lemma engine2_run_one_lookup registry self raw_data query_builder base_query
    (acc : Engine2.Execution) (x n : string) :
  Engine2.results
    (Engine2.run_one registry self raw_data query_builder base_query acc x) !! n
  = if decide (x = n)
    then Some (engine2_entry registry self raw_data query_builder base_query x)
    else Engine2.results acc !! n.
Proof.
  unfold Engine2.run_one, engine2_entry.
  destruct (Engine2.get_service registry x) as [service|]; simpl.
  - destruct (Engine2.process service _ _ _ _); simpl; apply lookup_insert.
  - apply lookup_insert.
Qed.

Lemma engine2_fold_lookup registry self raw_data query_builder base_query
    (names : list string) (acc : Engine2.Execution) (n : string) :
  Engine2.results
    (foldl (Engine2.run_one registry self raw_data query_builder base_query)
       acc names) !! n
  = if decide (n ∈ names)
    then Some (engine2_entry registry self raw_data query_builder base_query n)
    else Engine2.results acc !! n.
Proof.
  revert acc. induction names as [|x names IH]; intros acc; simpl.
  - destruct (decide (n ∈ [])) as [H|_]; [by apply elem_of_nil in H|done].
  - rewrite IH, engine2_run_one_lookup.
    destruct (decide (n ∈ names)) as [Hin|Hout].
    + rewrite decide_True by (by right). done.
    + destruct (decide (x = n)) as [->|Hne].
      * rewrite decide_True by (by left). done.
      * rewrite decide_False; [done|].
        rewrite elem_of_cons. intros [?|?]; congruence.
Qed.

(** Every requested name has its entry in the result map of engine 2. *)
Lemma engine2_results_lookup registry self raw_data query_builder base_query
    (names : list string) (n : string) :
  n ∈ names →
  Engine2.results
    (Engine2.execute_analyses registry self raw_data names query_builder
       base_query) !! n
  = Some (engine2_entry registry self raw_data query_builder base_query n).
Proof.
  intros Hin. unfold Engine2.execute_analyses.
  rewrite engine2_fold_lookup. by rewrite decide_True.
Qed.

Lemma engine2_timed_fold registry self raw_data query_builder base_query
    (names : list string) (acc : Engine2.Execution) (n : string) :
  Engine2.get_service registry n = None →
  n ∈ Engine2.execution_times_ms
        (foldl (Engine2.run_one registry self raw_data query_builder base_query)
           acc names) →
  n ∈ Engine2.execution_times_ms acc.
Proof.
  intros Hn. revert acc. induction names as [|x names IH]; intros acc; simpl; [done|].
  intros H. apply IH in H. revert H. unfold Engine2.run_one.
  destruct (Engine2.get_service registry x) as [service|] eqn:Ex; simpl; [|done].
  assert (x ≠ n) by congruence.
  destruct (Engine2.process service _ _ _ _); simpl;
    rewrite elem_of_union, elem_of_singleton; intros [?|?]; congruence || done.
Qed.

(** The first loop of [run_pipeline] stops at the first name the registry
    does not know. *)
Lemma engine1_resolve_first_unknown
    (registry : list (string * Engine1.AnalysisService))
    (good rest : list Engine1.AnalysisRequest) (bad : Engine1.AnalysisRequest) :
  Forall (λ r, is_Some (dict_get (Engine1.name r) registry)) good →
  dict_get (Engine1.name bad) registry = None →
  Engine1.resolve registry (good ++ bad :: rest)
  = Raise (Engine1.service_not_found (Engine1.name bad)).
Proof.
  intros Hgood Hbad. induction Hgood as [|r good [service Hr] _ IH]; simpl.
  - by rewrite Hbad.
  - by rewrite Hr, IH.
Qed.

(** A list of requests with an unknown name splits at the first one. *)
Lemma engine1_first_unknown (registry : list (string * Engine1.AnalysisService))
    (requests : list Engine1.AnalysisRequest)
    (bad : string) :
  bad ∈ Engine1.name <$> requests →
  dict_get bad registry = None →
  ∃ good first_bad rest,
    requests = (good ++ first_bad :: rest)%list ∧
    Forall (λ r, is_Some (dict_get (Engine1.name r) registry)) good ∧
    dict_get (Engine1.name first_bad) registry = None.
Proof.
  intros Hin Hbad. induction requests as [|r requests IH].
  - by apply elem_of_nil in Hin.
  - destruct (dict_get (Engine1.name r) registry) as [service|] eqn:E.
    + rewrite fmap_cons in Hin. apply elem_of_cons in Hin as [->|Hin]; [congruence|].
      destruct (IH Hin) as (good & fb & rest & -> & Hgood & Hnone).
      exists (r :: good), fb, rest. split; [done|]. split; [|done].
      apply Forall_cons. split; [by rewrite E|done].
    + exists [], r, requests. split; [done|]. split; [apply Forall_nil_2|done].
Qed.

(** C3, as stated, fails for engine 1: the exception of one analysis ends
    [run_pipeline]; the analysis requested after it never runs and no
    result map is returned. *)
Lemma engine1_failure_ends_the_batch :
  let registry := Engine1.AVAILABLE_SERVICES (λ _, Ok VNone) (λ _ _ _, Ok VNone) in
  let requests :=
    [Engine1.mkRequest "group_and_aggregate" [];
     Engine1.mkRequest "sales_by_region" []] in
  (∃ services, Engine1.resolve registry requests = Ok services) ∧
  Engine1.run_pipeline registry
    (Engine1.mkManager sample_dal "sales" Engine1.default_criteria requests)
  = (∅, Some (mkExn ValueError
       "GroupingService requires 'group_by_columns' (list) and 'aggregations' (dict) in params.")).
Proof. split; [eexists; reflexivity|reflexivity]. Qed.

(** C3 (amended).  In engine 2, an exception raised inside an analysis
    becomes the entry [{"error": message}] under that analysis's name,
    whether [process] itself raises or, as for the registered services,
    the analysis body raises inside [process]; every requested name has
    its entry in the result map: the loop is never cut short.  In
    engine 1, the loop of [run_pipeline] has no such handler: an
    exception raised by an analysis ends the loop there and is the
    outcome of the call. *)
Theorem analysis_failures (registry : list (string * Engine2.AnalysisService))
    (self : Engine2.PipelineManager) (raw_data : list Dict)
    (names : list string) (query_builder : option Engine2.MongoQueryBuilder)
    (base_query : option Dict) (failing : string)
    (service : Engine2.AnalysisService) (e : Exn)
    (py_repr : Value → string)
    (sales_analyze activity_analyze : list Dict → Result Value)
    (sales_build activity_build : Dict → list Value)
    (sales_post activity_post : list Dict → Result Value)
    (row : Dict) (rows : list Dict) (requested : list string) (e2 : Exn)
    (raw1 : option (list Dict)) (qb1 : Engine1.MongoQueryBuilder)
    (name1 : string) (params1 : Dict) (service1 : Engine1.AnalysisService)
    (rest1 : list (string * Dict * Engine1.AnalysisService))
    (done1 : gmap string Value) (e1 : Exn)
    (Hin : failing ∈ names)
    (Hservice : Engine2.get_service registry failing = Some service)
    (Hraise : Engine2.process service raw_data (Engine2.use_aggregation self)
                query_builder base_query = Raise e)
    (Hrequested : "sales_by_region" ∈ requested)
    (Hbody : sales_analyze (row :: rows) = Raise e2)
    (Hraise1 : Engine1.invoke raw1 qb1 params1 service1 = Raise e1) :
  let execution :=
    Engine2.execute_analyses registry self raw_data names query_builder
      base_query in
  let registered :=
    Engine2.AVAILABLE_SERVICES py_repr sales_analyze sales_build sales_post
      activity_analyze activity_build activity_post in
  Engine2.results execution !! failing = Some (VDict [("error", VStr (exn_msg e))]) ∧
  (∀ other, other ∈ names →
     Engine2.results execution !! other
     = Some (engine2_entry registry self raw_data query_builder base_query other)) ∧
  Engine2.results
    (Engine2.execute_analyses registered (Engine2.mkManager false) (row :: rows)
       requested query_builder base_query) !! "sales_by_region"
  = Some (VDict [("error", VStr (exn_msg e2))]) ∧
  Engine1.run_services raw1 qb1 ((name1, params1, service1) :: rest1) done1
  = (done1, Some e1).
Proof.
  cbv zeta. split; [|split; [|split]].
  - rewrite engine2_results_lookup by done.
    unfold engine2_entry. by rewrite Hservice, Hraise.
  - intros other Hother. by apply engine2_results_lookup.
  - rewrite engine2_results_lookup by done.
    unfold engine2_entry. simpl.
    unfold Engine2.AbstractAnalysisService_process. simpl. by rewrite Hbody.
  - simpl. by rewrite Hraise1.
Qed.

(** C4, as stated, fails for engine 2: next to a name the registry does
    not know, a known analysis still runs and has its result in the map. *)
Lemma engine2_unknown_name_spares_the_batch :
  let execution :=
    Engine2.execute_analyses counting_registry (Engine2.mkManager false) two_docs
      ["no_such_analysis"; "sales_by_region"] None None in
  Engine2.get_service counting_registry "no_such_analysis" = None ∧
  Engine2.results execution !! "sales_by_region"
    = Some (VDict [("rows", VInt 2)]) ∧
  Engine2.results execution !! "no_such_analysis"
    = Some (VDict [("error", VStr "Analysis service 'no_such_analysis' not found")]).
Proof. repeat split. Qed.

(** C4 (amended).  In engine 1, the requested names are resolved in
    order before any analysis runs, and the first name that is not
    registered makes [run_pipeline] raise the ValueError naming it: the
    result map stays empty.  In engine 2, the unknown name gets an error
    entry naming it (and no timing entry), and every other requested
    analysis still has its entry. *)
Theorem unknown_analysis_name
    (registry1 : list (string * Engine1.AnalysisService))
    (manager : Engine1.PipelineManager)
    (good rest : list Engine1.AnalysisRequest)
    (first_bad : Engine1.AnalysisRequest)
    (registry2 : list (string * Engine2.AnalysisService))
    (self : Engine2.PipelineManager) (raw_data : list Dict)
    (names : list string) (query_builder : option Engine2.MongoQueryBuilder)
    (base_query : option Dict) (bad : string)
    (Hrequests : Engine1.requested_analyses manager
                 = (good ++ first_bad :: rest)%list)
    (Hgood : Forall (λ r, is_Some (dict_get (Engine1.name r) registry1)) good)
    (Hbad1 : dict_get (Engine1.name first_bad) registry1 = None)
    (Hin2 : bad ∈ names)
    (Hbad2 : Engine2.get_service registry2 bad = None) :
  let execution :=
    Engine2.execute_analyses registry2 self raw_data names query_builder
      base_query in
  Engine1.run_pipeline registry1 manager
    = (∅, Some (mkExn ValueError
                  ("שירות אנליטיקה בשם '" ++ Engine1.name first_bad
                   ++ "' לא נמצא."))) ∧
  (∀ requests unknown,
     unknown ∈ Engine1.name <$> requests →
     dict_get unknown registry1 = None →
     ∃ good' first_bad' rest',
       requests = (good' ++ first_bad' :: rest')%list ∧
       Forall (λ r, is_Some (dict_get (Engine1.name r) registry1)) good' ∧
       dict_get (Engine1.name first_bad') registry1 = None) ∧
  Engine2.results execution !! bad
    = Some (VDict [("error", VStr ("Analysis service '" ++ bad ++ "' not found"))]) ∧
  (bad ∉ Engine2.execution_times_ms execution) ∧
  (∀ other, other ∈ names →
     Engine2.results execution !! other
     = Some (engine2_entry registry2 self raw_data query_builder base_query other)).
Proof.
  cbv zeta. split; [|split; [|split; [|split]]].
  - unfold Engine1.run_pipeline.
    rewrite Hrequests, (engine1_resolve_first_unknown _ _ _ _ Hgood Hbad1). done.
  - intros requests unknown. apply engine1_first_unknown.
  - rewrite engine2_results_lookup by done.
    unfold engine2_entry. by rewrite Hbad2.
  - intros H. apply engine2_timed_fold in H; [|done]. simpl in H. set_solver.
  - intros other Hother. by apply engine2_results_lookup.
Qed.

(** ** Analyses on zero rows *)

Lemma activity_answer_is_no_marker
    (sections_of : list Dict → Result UserActivitySummary.Sections)
    (df : list Dict) :
  UserActivitySummary.frame_empty df = false →
  match UserActivitySummary.post_process_aggregation sections_of df with
  | Ok answer => answer
  | Raise e => Engine2.error_payload e
  end ≠ Engine2.no_data_found.
Proof.
  unfold UserActivitySummary.post_process_aggregation. intros ->.
  destruct (sections_of df) as [s|e]; simpl; discriminate.
Qed.

Lemma stringify_id_keeps_fields py_repr (doc : Dict) :
  doc ≠ [] → Engine2.stringify_id py_repr doc ≠ [].
Proof.
  unfold Engine2.stringify_id. destruct doc as [|[k v] doc]; [done|]. intros _.
  destruct (dict_get "_id" ((k, v) :: doc)); [|done].
  cbn [dict_set]. by destruct (String.eqb "_id" k).
Qed.

Lemma one_row_frame (row : Dict) :
  row ≠ [] → UserActivitySummary.frame_empty [row] = false.
Proof. by destruct row as [|[k v] row]. Qed.

Lemma facet_pipeline_ends_in_facet (base_query : Dict) :
  last (UserActivitySummary.build_aggregation_pipeline base_query)
  = Some (VDict [("$facet", VDict UserActivitySummary.facets)]).
Proof. by destruct base_query. Qed.



(** ** Sales by region: the two strategies *)

Module SalesByRegionFacts.
Import SalesByRegion.

(** *** Sums over groups *)

Lemma sum_zeros {A} (ks : list A) : foldr Z.add 0 ((λ _, 0) <$> ks) = 0.
Proof. induction ks as [|k ks IH]; csimpl; [done|lia]. Qed.

Lemma sum_pointwise {A} (f g : A → Z) (ks : list A) :
  foldr Z.add 0 ((λ k, f k + g k) <$> ks)
  = foldr Z.add 0 (f <$> ks) + foldr Z.add 0 (g <$> ks).
Proof. induction ks as [|k ks IH]; csimpl; [done|lia]. Qed.

Lemma sum_indicator {A} `{EqDecision A} (x : A) (a : Z) (ks : list A) :
  NoDup ks → x ∈ ks →
  foldr Z.add 0 ((λ k, if decide (x = k) then a else 0) <$> ks) = a.
Proof.
  induction 1 as [|k ks Hk Hnd IH]; intros Hin; [by apply elem_of_nil in Hin|].
  rewrite fmap_cons. cbn [foldr]. destruct (decide (x = k)) as [->|Hne].
  - assert (foldr Z.add 0 ((λ k0, if decide (k = k0) then a else 0) <$> ks) = 0) as ->; [|lia].
    clear IH Hin Hnd. induction ks as [|k' ks IH]; [done|].
    rewrite fmap_cons. cbn [foldr].
    apply not_elem_of_cons in Hk as [Hne Hk].
    rewrite decide_False by done. rewrite IH by done. lia.
  - apply elem_of_cons in Hin as [?|Hin]; [done|]. rewrite IH by done. lia.
Qed.

(** The sizes of the groups add up to the number of rows. *)
Lemma count_by_key {A K} `{EqDecision K} (f : A → K) (l : list A) (keys : list K) :
  NoDup keys → (∀ x, x ∈ l → f x ∈ keys) →
  foldr Z.add 0 ((λ k, Z.of_nat (length (filter (λ x, f x = k) l))) <$> keys)
  = Z.of_nat (length l).
Proof.
  intros Hnd. induction l as [|x l IH]; intros Hall.
  - apply sum_zeros.
  - cbn [length]. rewrite Nat2Z.inj_succ, <- Z.add_1_l.
    rewrite <- IH by (intros; apply Hall; by right).
    rewrite <- (sum_indicator (f x) 1 keys Hnd) by (apply Hall; by left).
    rewrite <- sum_pointwise. f_equal. apply list_fmap_ext.
    intros i k _. rewrite filter_cons.
    destruct (decide (f x = k)); simpl; lia.
Qed.

Lemma sum_perm (l l' : list Z) : l ≡ₚ l' → foldr Z.add 0 l = foldr Z.add 0 l'.
Proof. induction 1; simpl; lia. Qed.

Lemma head_fmap {A B} (f : A → B) (l : list A) : head (f <$> l) = f <$> head l.
Proof. by destruct l. Qed.

Lemma merge_sort_length {A} (R : relation A) `{!RelDecision R} (l : list A) :
  length (merge_sort R l) = length l.
Proof. apply Permutation_length, merge_sort_Permutation. Qed.

Lemma merge_sort_nonempty {A} (R : relation A) `{!RelDecision R} (l : list A) :
  l ≠ [] → merge_sort R l ≠ [].
Proof.
  intros Hl E. apply (f_equal length) in E. rewrite merge_sort_length in E.
  by destruct l.
Qed.

(** *** The columns of the frame *)

Lemma first_seen_spec (l : list string) :
  NoDup (first_seen l) ∧ ∀ k, k ∈ first_seen l ↔ k ∈ l.
Proof.
  induction l as [|x l [IHn IHm]]; simpl.
  - split; [apply NoDup_nil_2|done].
  - split.
    + apply NoDup_cons. split.
      * rewrite list_elem_of_filter. tauto.
      * by apply NoDup_filter.
    + intros k. rewrite !elem_of_cons, list_elem_of_filter, IHm.
      destruct (decide (k = x)); tauto.
Qed.

Lemma columns_spec {Num} (data : list (Row Num)) (k : string) :
  k ∈ columns data ↔ Exists (λ r, k ∈ row_keys r) data.
Proof.
  unfold columns. rewrite (proj2 (first_seen_spec _)), list_elem_of_bind.
  rewrite Exists_exists. split; intros (r & H1 & H2); exists r; by split.
Qed.

Lemma required_columns_spec {Num} (data : list (Row Num)) :
  forallb (λ col, bool_decide (col ∈ columns data)) required_columns = true
  ↔ has_column "region" data ∧ has_column "sales_amount" data.
Proof.
  unfold required_columns, has_column. cbn [forallb].
  rewrite !andb_true_iff, !bool_decide_eq_true, !columns_spec. tauto.
Qed.

Lemma pandas_cases {Num} (ops : Arithmetic Num) (data : list (Row Num)) :
  analyze_with_pandas ops data
  = if forallb (λ col, bool_decide (col ∈ columns data)) required_columns then
      match frame_raises ops (region <$> data) (sales_amount <$> data) with
      | Some e => Raise e
      | None =>
          let total_sales := series_sum ops (sales_amount <$> data) in
          let analysis :=
            merge_sort (pd_desc ops)
              (aggregate ops data total_sales <$> groupby_keys data) in
          Ok (Report
                (mkSummary (py_round2 ops total_sales) (length analysis)
                   (match analysis with
                    | [] => of_int ops 0
                    | _ :: _ => py_average ops total_sales (length analysis)
                    end))
                analysis (head analysis) (last analysis))
      end
    else Ok (MissingColumns missing_columns_message (columns data)).
Proof. unfold analyze_with_pandas. by destruct (forallb _ _). Qed.

(** *** Grouping keys *)

Lemma groupby_keys_spec {Num} (data : list (Row Num)) (k : string) :
  k ∈ groupby_keys data ↔ ∃ r, r ∈ data ∧ region r = Has k.
Proof.
  unfold groupby_keys. rewrite merge_sort_Permutation, elem_of_remove_dups.
  rewrite list_elem_of_omap. unfold region_text.
  split; intros (r & Hr & Hk); exists r; (split; [done|]).
  - destruct (region r); congruence.
  - by rewrite Hk.
Qed.

Lemma groupby_keys_NoDup {Num} (data : list (Row Num)) : NoDup (groupby_keys data).
Proof.
  unfold groupby_keys. rewrite merge_sort_Permutation. apply NoDup_remove_dups.
Qed.

Lemma keys_cover {Num} (rows : list (Row Num)) (r : Row Num) :
  r ∈ rows → group_key r ∈ remove_dups (group_key <$> rows).
Proof. intros Hr. apply elem_of_remove_dups. by apply list_elem_of_fmap_2. Qed.

(** *** The pipeline, stage by stage *)

Lemma project_all_ok {Num} (ops : Arithmetic Num) (grand : Num)
    (groups : list (Group Num)) :
  op_is_zero ops grand = false →
  project_all ops ((λ g, (g, grand)) <$> groups)
  = Ok (projected ops grand <$> groups).
Proof.
  intros Hz. induction groups as [|g groups IH]; [done|].
  rewrite !fmap_cons. cbn [project_all project]. rewrite Hz, IH. done.
Qed.

Lemma project_all_zero {Num} (ops : Arithmetic Num) (grand : Num)
    (g : Group Num) (docs : list (Group Num * Num)) :
  op_is_zero ops grand = true →
  project_all ops ((g, grand) :: docs)
  = Raise (mkExn OperationFailure "can't $divide by zero").
Proof. intros Hz. cbn [project_all project]. by rewrite Hz. Qed.

Lemma region_groups_nonempty {Num} (ops : Arithmetic Num) (data : list (Row Num)) :
  data ≠ [] → region_groups ops data ≠ [].
Proof.
  destruct data as [|r data]; [done|]. intros _ E.
  apply (f_equal length) in E. unfold region_groups in E.
  rewrite length_fmap in E.
  assert (group_key r ∈ remove_dups (group_key <$> r :: data)) as Hin
    by (apply keys_cover; by left).
  destruct (remove_dups (group_key <$> r :: data)); [|done].
  by apply elem_of_nil in Hin.
Qed.

(** The pipeline without its [$match], on the rows it is run on. *)
Lemma pipeline_rows {Num} (ops : Arithmetic Num) (matches : Dict → Row Num → bool)
    (rows : list (Row Num)) :
  aggregate_from ops matches (Rows rows)
    [GroupByRegion; GroupAll; UnwindRegions; ProjectRounded; SortByTotalSales (-1)]
  = match rows with
    | [] => Ok (Projected [])
    | _ :: _ =>
        if op_is_zero ops (grand_total ops rows) then
          Raise (mkExn OperationFailure "can't $divide by zero")
        else
          Ok (Projected
                (merge_sort (agg_desc ops)
                   (projected ops (grand_total ops rows) <$> region_groups ops rows)))
    end.
Proof.
  destruct rows as [|r rows']; [reflexivity|].
  set (rows := r :: rows').
  pose proof (region_groups_nonempty ops rows ltac:(done)) as Hne.
  cbn [aggregate_from run_stage bind]. fold (region_groups ops rows).
  destruct (region_groups ops rows) as [|g groups] eqn:Eg; [done|].
  cbn [bind]. unfold grand_total. rewrite Eg.
  set (grand := acc_total ops _).
  assert (([(g :: groups, grand)] ≫= λ t, (λ g0, (g0, t.2)) <$> t.1)
          = (λ g0, (g0, grand)) <$> g :: groups) as ->
    by (cbn; by rewrite app_nil_r).
  destruct (op_is_zero ops grand) eqn:Ez.
  - rewrite fmap_cons, project_all_zero by done. reflexivity.
  - rewrite project_all_ok by done. reflexivity.
Qed.

Lemma pushed_down_selects {Num} (ops : Arithmetic Num)
    (matches : Dict → Row Num → bool) (base_query : Dict)
    (stored : list (Row Num)) :
  pushed_down ops matches base_query stored
  = pushed_down ops matches [] (select matches base_query stored).
Proof. by destruct base_query. Qed.

Lemma pushed_down_cases {Num} (ops : Arithmetic Num)
    (matches : Dict → Row Num → bool) (base_query : Dict)
    (stored : list (Row Num)) :
  let data := select matches base_query stored in
  pushed_down ops matches base_query stored
  = match data with
    | [] => Ok (NoData "No data found")
    | _ :: _ =>
        if op_is_zero ops (grand_total ops data) then
          Raise (mkExn OperationFailure "can't $divide by zero")
        else
          Ok (post_process_aggregation ops
                (merge_sort (agg_desc ops)
                   (projected ops (grand_total ops data)
                      <$> region_groups ops data)))
    end.
Proof.
  cbv zeta. rewrite pushed_down_selects.
  set (data := select matches base_query stored).
  unfold pushed_down, execute_aggregation_pipeline.
  cbn [build_aggregation_pipeline app]. rewrite pipeline_rows.
  destruct data as [|r data']; [reflexivity|].
  by destruct (op_is_zero ops _).
Qed.

(** C1.  On the rows [{region: "north", sales_amount: 100}] and
    [{region: null, sales_amount: 50}], whatever the arithmetic of the
    libraries: the in-memory strategy, when it answers, reports one
    region, "north" (the row without a region is in no group); the
    pushed-down strategy, when it answers, reports two, "north" and
    null; so the two strategies do not yield the same summary and
    grouping keys. *)
Theorem row_without_region_splits_strategies :
  ∀ (Num : Type) (ops : Arithmetic Num) (matches : Dict → Row Num → bool),
    let stored :=
      [mkRow ["region"; "sales_amount"] (Some "north") (Some (of_int ops 100));
       mkRow ["region"; "sales_amount"] None (Some (of_int ops 50))] in
    (∀ o, in_memory ops matches [] stored = Ok o →
       ∃ s record,
         o = Report s [record] (Some record) (Some record) ∧
         total_regions s = 1%nat ∧ pd_region record = "north") ∧
    (∀ o, pushed_down ops matches [] stored = Ok o →
       ∃ s by_region top bottom,
         o = Report s by_region top bottom ∧
         total_regions s = 2%nat ∧
         agg_region <$> by_region ≡ₚ [Some "north"; None]) ∧
    ¬ strategies_agree (in_memory ops matches [] stored)
        (pushed_down ops matches [] stored).
Proof.
  intros Num ops matches stored.
  assert (∀ o, in_memory ops matches [] stored = Ok o →
            ∃ s record,
              o = Report s [record] (Some record) (Some record) ∧
              total_regions s = 1%nat ∧ pd_region record = "north") as Hmem.
  { intros o. unfold in_memory. cbn [select]. rewrite pandas_cases.
    change (forallb _ required_columns) with true. cbv iota.
    destruct (frame_raises ops _ _); [done|]. intros [= <-].
    eexists _, _. split; [vm_compute; reflexivity|]. by split. }
  assert (∀ o, pushed_down ops matches [] stored = Ok o →
            ∃ s by_region top bottom,
              o = Report s by_region top bottom ∧
              total_regions s = 2%nat ∧
              agg_region <$> by_region ≡ₚ [Some "north"; None]) as Hpush.
  { intros o. rewrite pushed_down_cases. cbv zeta. cbn [select].
    change (select matches [] stored) with stored.
    destruct (op_is_zero ops (grand_total ops stored)); [done|].
    intros [= <-].
    set (B := merge_sort (agg_desc ops) _).
    assert (B ≡ₚ projected ops (grand_total ops stored) <$> region_groups ops stored)
      as Hperm by apply merge_sort_Permutation.
    assert (agg_region <$> B ≡ₚ [Some "north"; None]) as Hkeys.
    { rewrite Hperm. vm_compute. reflexivity. }
    assert (length B = 2%nat) as Hlen.
    { rewrite <- (length_fmap agg_region), Hkeys. done. }
    unfold post_process_aggregation.
    destruct B as [|b B']; [done|].
    eexists _, _, _, _. split; [reflexivity|]. split; [exact Hlen|exact Hkeys]. }
  split; [exact Hmem|]. split; [exact Hpush|].
  intros (s & kp & km & top & bottom & p' & m' & Hp & Hp' & Hm & Hm' & _).
  destruct (Hmem p' Hp) as (s1 & record & -> & Hone & _).
  destruct (Hpush m' Hm) as (s2 & by_region & t & b & -> & Htwo & _).
  cbn [digest] in Hp', Hm'.
  injection Hp' as <- _ _ _. injection Hm' as <- _ _ _. congruence.
Qed.

(** Both strategies answer on these rows, in the sample arithmetic. *)
Example row_without_region_sample :
  let stored :=
    [mkRow ["region"; "sales_amount"] (Some "north") (Some 100);
     mkRow ["region"; "sales_amount"] None (Some 50)] in
  in_memory whole_numbers (λ _ _, true) [] stored
  = Ok (Report (mkSummary 150 1 150)
          [mkPandasRecord "north" 100 100 1 100 100 66]
          (Some (mkPandasRecord "north" 100 100 1 100 100 66))
          (Some (mkPandasRecord "north" 100 100 1 100 100 66))) ∧
  pushed_down whole_numbers (λ _ _, true) [] stored
  = Ok (Report (mkSummary 150 2 75)
          [mkAggRecord (Some "north") 100 (Some 100) 1 (Some 100) (Some 100) 66;
           mkAggRecord None 50 (Some 50) 1 (Some 50) (Some 50) 33]
          (Some (mkAggRecord (Some "north") 100 (Some 100) 1 (Some 100)
                   (Some 100) 66))
          (Some (mkAggRecord None 50 (Some 50) 1 (Some 50) (Some 50) 33))).
Proof. split; vm_compute; reflexivity. Qed.

End SalesByRegionFacts.

(** ** The statements at work on sample inputs *)

Lemma or_groups_concatenate_witness :
  (∃ b', bind (Engine2.add_or_condition [cond_north; cond_south]
                 (Engine2.init (sample_collection [])))
              (Engine2.add_or_condition [cond_open]) = Ok b' ∧
         dict_get "$or" (Engine2.query b')
         = Some (VList [cond_north; cond_south; cond_open])) ∧
  (∃ b', Engine1.and_then
           (Engine1.add_or_condition (VList [cond_north; cond_south])
              (Engine1.init (sample_collection [])))
           (Engine1.add_or_condition (VList [cond_open])) = (b', None) ∧
         dict_get "$or" (Engine1._filter b')
         = Some (VList [cond_north; cond_south; cond_open])).
Proof.
  destruct (or_groups_concatenate [cond_north; cond_south] [cond_open] []
              (Engine2.init (sample_collection []))
              (Engine1.init (sample_collection [])) eq_refl eq_refl)
    as [(b & H1 & H2 & _) (b' & H3 & H4 & _)].
  split; [exists b; exact (conj H1 H2)|exists b'; exact (conj H3 H4)].
Defined.


Lemma unknown_operator_policy_witness :
  Engine2.add_filter "price" "between" (VInt 5) None
    (Engine2.init (sample_collection []))
  = (Engine2.init (sample_collection []),
     [(WARNING, "Unknown operator: between")]) ∧
  Engine1.add_filter "price" "between" (VInt 5)
    (Engine1.init (sample_collection []))
  = (Engine1.init (sample_collection []),
     Some (mkExn ValueError "אופרטור לא נתמך: between")).
Proof.
  apply (unknown_operator_policy "price" "between").
  apply (bool_decide_unpack _). vm_compute. exact I.
Defined.

Lemma analysis_failures_witness :
  let execution :=
    Engine2.execute_analyses failing_registry (Engine2.mkManager false) two_docs
      ["always_fails"; "sales_by_region"] None None in
  Engine2.results execution !! "always_fails"
    = Some (VDict [("error", VStr "boom")]) ∧
  Engine2.results execution !! "sales_by_region"
    = Some (VDict [("rows", VInt 2)]) ∧
  Engine2.results
    (Engine2.execute_analyses broken_sales_registry (Engine2.mkManager false)
       two_docs ["sales_by_region"; "user_activity_summary"] None None)
    !! "sales_by_region"
    = Some (VDict [("error", VStr "'sales_amount'")]) ∧
  Engine1.run_services (Some []) (Engine1.init (sample_collection []))
    [("group_and_aggregate", [], Engine1.GroupingService (λ _ _ _, Ok VNone));
     ("sales_by_region", [], Engine1.SalesByRegionService (λ _, Ok VNone))] ∅
  = (∅, Some (mkExn ValueError
       "GroupingService requires 'group_by_columns' (list) and 'aggregations' (dict) in params.")).
Proof.
  assert ("always_fails" ∈ ["always_fails"; "sales_by_region"]) as Hin
    by (apply (bool_decide_unpack _); vm_compute; exact I).
  assert ("sales_by_region" ∈ ["always_fails"; "sales_by_region"]) as Hin'
    by (apply (bool_decide_unpack _); vm_compute; exact I).
  assert ("sales_by_region" ∈ ["sales_by_region"; "user_activity_summary"]) as Hin2
    by (apply (bool_decide_unpack _); vm_compute; exact I).
  destruct (analysis_failures failing_registry (Engine2.mkManager false) two_docs
              ["always_fails"; "sales_by_region"] None None "always_fails"
              raising_service (mkExn RuntimeError "boom")
              (λ _, "") (λ _, Raise (mkExn RuntimeError "'sales_amount'"))
              (λ _, Ok VNone) (λ _, []) (λ _, []) (λ _, Ok VNone) (λ _, Ok VNone)
              [("_id", VObjectId "65a1f0c2"); ("region", VStr "north")]
              [[("_id", VObjectId "65a1f0c3"); ("region", VStr "south")]]
              ["sales_by_region"; "user_activity_summary"]
              (mkExn RuntimeError "'sales_amount'")
              (Some []) (Engine1.init (sample_collection []))
              "group_and_aggregate" []
              (Engine1.GroupingService (λ _ _ _, Ok VNone))
              [("sales_by_region", [], Engine1.SalesByRegionService (λ _, Ok VNone))]
              ∅
              (mkExn ValueError
                 "GroupingService requires 'group_by_columns' (list) and 'aggregations' (dict) in params.")
              Hin eq_refl eq_refl Hin2 eq_refl eq_refl)
    as (H1 & H2 & H3 & H4).
  exact (conj H1 (conj (H2 _ Hin') (conj H3 H4))).
Defined.

Lemma unknown_analysis_name_witness :
  let execution :=
    Engine2.execute_analyses counting_registry (Engine2.mkManager false) two_docs
      ["no_such_analysis"; "sales_by_region"] None None in
  Engine1.run_pipeline engine1_registry
    (Engine1.mkManager sample_dal "sales" Engine1.default_criteria
       [Engine1.mkRequest "sales_by_region" [];
        Engine1.mkRequest "no_such_analysis" [];
        Engine1.mkRequest "group_and_aggregate" [];
        Engine1.mkRequest "also_missing" []])
  = (∅, Some (mkExn ValueError "שירות אנליטיקה בשם 'no_such_analysis' לא נמצא.")) ∧
  Engine2.results execution !! "no_such_analysis"
    = Some (VDict [("error", VStr "Analysis service 'no_such_analysis' not found")]) ∧
  Engine2.results execution !! "sales_by_region"
    = Some (VDict [("rows", VInt 2)]).
Proof.
  assert ("no_such_analysis" ∈ ["no_such_analysis"; "sales_by_region"]) as Hin2
    by (apply (bool_decide_unpack _); vm_compute; exact I).
  assert ("sales_by_region" ∈ ["no_such_analysis"; "sales_by_region"]) as Hin3
    by (apply (bool_decide_unpack _); vm_compute; exact I).
  assert (Forall (λ r, is_Some (dict_get (Engine1.name r) engine1_registry))
            [Engine1.mkRequest "sales_by_region" []]) as Hgood
    by (repeat constructor; by eexists).
  destruct (unknown_analysis_name engine1_registry
              (Engine1.mkManager sample_dal "sales" Engine1.default_criteria
                 [Engine1.mkRequest "sales_by_region" [];
                  Engine1.mkRequest "no_such_analysis" [];
                  Engine1.mkRequest "group_and_aggregate" [];
                  Engine1.mkRequest "also_missing" []])
              [Engine1.mkRequest "sales_by_region" []]
              [Engine1.mkRequest "group_and_aggregate" [];
               Engine1.mkRequest "also_missing" []]
              (Engine1.mkRequest "no_such_analysis" [])
              counting_registry (Engine2.mkManager false) two_docs
              ["no_such_analysis"; "sales_by_region"] None None "no_such_analysis"
              eq_refl Hgood eq_refl Hin2 eq_refl)
    as (Hfirst & _ & Hbad & _ & Hothers).
  exact (conj Hfirst (conj Hbad (Hothers _ Hin3))).
Defined.

Lemma empty_store_facet : facet_yields_one_document empty_store.
Proof.
  intros pipeline facets Hlast. unfold empty_store. simpl. rewrite Hlast. simpl.
  eexists. split; [reflexivity|].
  unfold dict_keys. rewrite <- list_fmap_compose. reflexivity.
Qed.


(** ** Sample evaluations *)

Example re_escape_sample : Sal1.re_escape "a.b*c (1+1)" = "a\.b\*c\ \(1\+1\)".
Proof. reflexivity. Qed.

Example starts_with_sample :
  Sal1._build_mongodb_filter (λ _, "") (λ _, Ok 0)
    [Sal1.mkCondition "name" Sal1.STARTS_WITH (VStr "a+b") false;
     Sal1.mkCondition "file" Sal1.ENDS_WITH (VStr ".txt") true]
  = Ok [("name", VDict [("$regex", VStr "^a\+b"); ("$options", VStr "i")]);
        ("file", VDict [("$regex", VStr "\.txt$")])].
Proof. reflexivity. Qed.

Example engine2_regex_sample :
  Engine2.query
    (Engine2.add_filter "name" "regex" (VStr "^a")
       (Some [("case_insensitive", VBool true)])
       (Engine2.init (sample_collection []))).1
  = [("name", VDict [("$regex", VStr "^a"); ("$options", VStr "i")])].
Proof. reflexivity. Qed.

Example engine1_range_sample :
  Engine1._filter
    (Engine1.and_then
       (Engine1.add_filter "age" "gte" (VInt 18) (Engine1.init (sample_collection [])))
       (Engine1.add_filter "age" "lte" (VInt 65))).1
  = [("age", VDict [("$gte", VInt 18); ("$lte", VInt 65)])].
Proof. reflexivity. Qed.

Example pagination_sample :
  Engine2.execute (λ _, "")
    (Engine2.set_limit 1 (Engine2.set_skip 1 (Engine2.init (sample_collection two_docs))))
  = Ok [[("_id", VStr "65a1f0c3"); ("region", VStr "south")]].
Proof. reflexivity. Qed.

(** * Further properties *)

(** ** Engine 2: the query builder *)

Lemma dict_keys_set_present {V} (k : string) (v : V) (d : list (string * V)) :
  is_Some (dict_get k d) → dict_keys (dict_set k v d) = dict_keys d.
Proof.
  unfold dict_keys. induction d as [|[k' v'] d IH]; simpl.
  - intros [? [=]].
  - destruct (String.eqb_spec k k') as [->|Hne]; [done|].
    intros H. csimpl. by rewrite IH.
Qed.

Lemma dict_keys_set_absent {V} (k : string) (v : V) (d : list (string * V)) :
  dict_get k d = None → dict_keys (dict_set k v d) = (dict_keys d ++ [k])%list.
Proof.
  unfold dict_keys. induction d as [|[k' v'] d IH]; simpl; [done|].
  destruct (String.eqb_spec k k') as [->|Hne]; [done|].
  intros H. csimpl. by rewrite IH.
Qed.

Lemma dict_set_twice {V} (k : string) (v v' : V) (d : list (string * V)) :
  dict_set k v (dict_set k v' d) = dict_set k v d.
Proof.
  induction d as [|[k0 v0] d IH]; simpl.
  - by rewrite String.eqb_refl.
  - destruct (String.eqb k k0) eqn:E; simpl.
    + by rewrite String.eqb_refl.
    + by rewrite E, IH.
Qed.

Lemma engine2_set_sort_fold (keys : list (string * string))
    (b : Engine2.MongoQueryBuilder) :
  let b' := foldl (λ acc p, Engine2.set_sort p.1 p.2 acc) b keys in
  Engine2.collection b' = Engine2.collection b ∧
  Engine2.query b' = Engine2.query b ∧
  Engine2.limit_count b' = Engine2.limit_count b ∧
  Engine2.skip_count b' = Engine2.skip_count b ∧
  default [] (effective_sort (Engine2.sort_params b'))
  = (default [] (effective_sort (Engine2.sort_params b)) ++ (sort_key <$> keys))%list.
Proof.
  revert b. induction keys as [|p keys IH]; intros b; cbn [foldl].
  - cbv zeta. by rewrite app_nil_r.
  - specialize (IH (Engine2.set_sort p.1 p.2 b)). cbv zeta in *.
    destruct IH as (-> & -> & -> & -> & ->). repeat split.
    unfold Engine2.set_sort, sort_key, effective_sort. simpl.
    destruct (Engine2.sort_params b) as [[|x r]|]; simpl;
      by rewrite ?fmap_cons, <- ?app_assoc.
Qed.

(** X1.  Engine 2: [set_sort] calls add up to a compound sort: after any
    non-empty series of calls the cursor is sorted by the keys set before
    followed by the new keys in call order; a direction is ascending
    exactly when its text is "asc" in any letter case, and descending for
    every other text; filter, skip and limit are untouched. *)
Theorem set_sort_accumulates (py_repr : Value → string)
    (key : string * string) (keys : list (string * string))
    (b : Engine2.MongoQueryBuilder) :
  let b' := foldl (λ acc p, Engine2.set_sort p.1 p.2 acc) b (key :: keys) in
  let spec := (default [] (effective_sort (Engine2.sort_params b))
               ++ (sort_key <$> key :: keys))%list in
  Engine2.sort_params b' = Some spec ∧
  Engine2.query b' = Engine2.query b ∧
  Engine2.limit_count b' = Engine2.limit_count b ∧
  Engine2.skip_count b' = Engine2.skip_count b ∧
  Engine2.execute py_repr b' =
    Ok (Engine2.stringify_id py_repr <$>
          apply_limit (default 0 (Engine2.limit_count b))
            (apply_skip (Engine2.skip_count b)
               (coll_order (Engine2.collection b) spec
                  (coll_find (Engine2.collection b) (Engine2.query b))))).
Proof.
  cbv zeta.
  destruct (engine2_set_sort_fold (key :: keys) b) as (Hc & Hq & Hl & Hs & Hspec).
  cbv zeta in *.
  set (b' := foldl _ b (key :: keys)) in *.
  assert (Engine2.sort_params b'
          = Some (default [] (effective_sort (Engine2.sort_params b))
                  ++ (sort_key <$> key :: keys))%list) as Hsort.
  { assert (∃ x r, Engine2.sort_params b' = Some (x :: r)) as (x & r & Hx).
    { revert Hspec. unfold effective_sort.
      destruct (Engine2.sort_params b') as [[|x r]|]; simpl; eauto;
        intros Hnil; symmetry in Hnil; apply app_eq_nil in Hnil as [_ Hnil];
        discriminate. }
    rewrite Hx in Hspec |- *. simpl in Hspec. by rewrite Hspec. }
  repeat split; try done.
  rewrite engine2_execute_eq. unfold engine2_sorted.
  rewrite Hsort, Hc, Hq, Hl, Hs. unfold effective_sort, apply_sort.
  destruct (default [] _ ++ _)%list eqn:E; [|done].
  apply app_eq_nil in E as [_ E]. discriminate.
Qed.

Lemma engine2_add_filter_cases (field operator : string) (v : Value)
    (options : option Dict) (b : Engine2.MongoQueryBuilder) :
  (∃ clause, Engine2.add_filter field operator v options b
             = (Engine2.assign field clause b, [])) ∨
  Engine2.add_filter field operator v options b
  = (b, [(WARNING, "Unknown operator: " ++ operator)]).
Proof.
  unfold Engine2.add_filter.
  repeat (match goal with
          | |- context [String.eqb operator ?lit] =>
              destruct (String.eqb operator lit); [left; by eexists|]
          end).
  by right.
Qed.

(** X2.  Engine 2: [add_filter] on one field leaves every other field of
    the filter as it was, keeps the order of the fields already present
    (a new field goes last), and never touches sort, skip or limit. *)
Theorem add_filter_frame (field operator other : string) (v : Value)
    (options : option Dict) (b : Engine2.MongoQueryBuilder)
    (Hother : other ≠ field) :
  let b' := (Engine2.add_filter field operator v options b).1 in
  dict_get other (Engine2.query b') = dict_get other (Engine2.query b) ∧
  (dict_keys (Engine2.query b') = dict_keys (Engine2.query b) ∨
   dict_keys (Engine2.query b') = (dict_keys (Engine2.query b) ++ [field])%list) ∧
  Engine2.sort_params b' = Engine2.sort_params b ∧
  Engine2.limit_count b' = Engine2.limit_count b ∧
  Engine2.skip_count b' = Engine2.skip_count b.
Proof.
  cbv zeta.
  destruct (engine2_add_filter_cases field operator v options b)
    as [[clause ->]| ->]; simpl.
  - split; [by apply dict_get_set_ne|]. split; [|done].
    destruct (dict_get field (Engine2.query b)) eqn:E.
    + left. apply dict_keys_set_present. by rewrite E.
    + right. by apply dict_keys_set_absent.
  - repeat split. by left.
Qed.

Lemma take_add {A} (a b : nat) (l : list A) :
  take (a + b) l = (take a l ++ take b (drop a l))%list.
Proof.
  revert l. induction a as [|a IH]; intros l; [done|].
  destruct l as [|x l]; simpl; [by destruct b|]. by rewrite IH.
Qed.

Lemma engine2_page_eq (py_repr : Value → string) (b : Engine2.MongoQueryBuilder)
    (n : Z) (i : nat) :
  0 < n →
  engine2_page py_repr b n i
  = Ok (Engine2.stringify_id py_repr <$>
          take (Z.to_nat n) (drop (i * Z.to_nat n) (engine2_sorted b))).
Proof.
  intros Hn. unfold engine2_page. rewrite engine2_execute_eq. simpl.
  unfold engine2_sorted. simpl. unfold apply_limit, apply_skip.
  destruct (Z.eqb_spec n 0); [lia|].
  replace (Z.to_nat (Z.abs n)) with (Z.to_nat n) by lia.
  by replace (Z.to_nat (Z.of_nat i * n)) with (i * Z.to_nat n)%nat by lia.
Qed.

(** X3.  Engine 2: paging with a positive page size tiles the result:
    every page succeeds and holds at most [n] rows, and pages 0 to m-1,
    put one after the other, are the first m*n selected, sorted rows,
    hence all of them, each once and in order, as soon as m*n reaches
    their number. *)
Theorem pages_tile (py_repr : Value → string) (b : Engine2.MongoQueryBuilder)
    (n : Z) (m : nat) (Hn : 0 < n) :
  (∀ i, ∃ rows, engine2_page py_repr b n i = Ok rows ∧
                (length rows ≤ Z.to_nat n)%nat) ∧
  concat ((λ i, rows_or_nil (engine2_page py_repr b n i)) <$> seq 0 m)
  = Engine2.stringify_id py_repr <$> take (m * Z.to_nat n) (engine2_sorted b) ∧
  ((length (engine2_sorted b) ≤ m * Z.to_nat n)%nat →
   concat ((λ i, rows_or_nil (engine2_page py_repr b n i)) <$> seq 0 m)
   = Engine2.stringify_id py_repr <$> engine2_sorted b).
Proof.
  assert (concat ((λ i, rows_or_nil (engine2_page py_repr b n i)) <$> seq 0 m)
          = Engine2.stringify_id py_repr <$>
              take (m * Z.to_nat n) (engine2_sorted b)) as Hcat.
  { induction m as [|m IH]; [done|].
    rewrite seq_S, fmap_app, concat_app, IH.
    replace (S m * Z.to_nat n)%nat with (m * Z.to_nat n + Z.to_nat n)%nat by lia.
    rewrite take_add, fmap_app. f_equal.
    cbn [fmap list_fmap concat Nat.add]. rewrite engine2_page_eq by done.
    cbn [rows_or_nil]. by rewrite app_nil_r. }
  split; [|split; [exact Hcat|]].
  - intros i. eexists. split; [by apply engine2_page_eq|].
    rewrite length_fmap, length_take. lia.
  - intros Hall. rewrite Hcat. by rewrite take_ge.
Qed.

Lemma stringify_id_other (py_repr : Value → string) (doc : Dict) (k : string) :
  k ≠ "_id" →
  dict_get k (Engine2.stringify_id py_repr doc) = dict_get k doc.
Proof.
  intros Hk. unfold Engine2.stringify_id.
  destruct (dict_get "_id" doc); [|done]. apply dict_get_set_ne. congruence.
Qed.

(** X4.  Engine 2: the identifier conversion of [execute] changes nothing
    but [_id]: every other field keeps its value, the fields keep their
    order, a document without [_id] is returned as it is, and converting
    twice is converting once. *)
Theorem stringify_id_only_touches_id (py_repr : Value → string) (doc : Dict) :
  (∀ k, k ≠ "_id" →
        dict_get k (Engine2.stringify_id py_repr doc) = dict_get k doc) ∧
  dict_keys (Engine2.stringify_id py_repr doc) = dict_keys doc ∧
  (dict_get "_id" doc = None → Engine2.stringify_id py_repr doc = doc) ∧
  Engine2.stringify_id py_repr (Engine2.stringify_id py_repr doc)
  = Engine2.stringify_id py_repr doc.
Proof.
  split; [intros k Hk; by apply stringify_id_other|].
  unfold Engine2.stringify_id.
  destruct (dict_get "_id" doc) as [v|] eqn:E.
  - split; [apply dict_keys_set_present; by rewrite E|]. split; [done|].
    rewrite dict_get_set_eq. cbn [str]. apply dict_set_twice.
  - rewrite E. done.
Qed.

(** ** Engine 2: the pipeline manager and the route *)

(** X5.  Engine 2: [validate_analyses] splits the requested names into
    the registered and the unregistered ones: each part keeps the request
    order, the two parts together are the request (with repetitions), and
    a name is valid exactly when the registry knows it. *)
Theorem validate_analyses_partitions
    (registry : list (string * Engine2.AnalysisService)) (names : list string) :
  let valid := (Engine2.validate_analyses registry names).1 in
  let invalid := (Engine2.validate_analyses registry names).2 in
  (∀ n, n ∈ valid ↔ n ∈ names ∧ is_Some (Engine2.get_service registry n)) ∧
  (∀ n, n ∈ invalid ↔ n ∈ names ∧ Engine2.get_service registry n = None) ∧
  (valid ++ invalid)%list ≡ₚ names ∧
  valid `sublist_of` names ∧
  invalid `sublist_of` names.
Proof.
  cbv zeta. unfold Engine2.validate_analyses. simpl.
  split; [|split; [|split; [|split]]].
  - intros n. rewrite list_elem_of_filter. tauto.
  - intros n. rewrite list_elem_of_filter, <- eq_None_not_Some. tauto.
  - apply filter_app_complement.
  - apply sublist_filter.
  - apply sublist_filter.
Qed.

Ltac by_membership :=
  apply set_eq; intros ?;
  rewrite ?list_to_set_cons, ?list_to_set_nil, ?elem_of_union,
    ?elem_of_singleton, ?elem_of_empty, ?dom_empty_L, ?elem_of_empty;
  tauto.

Lemma engine2_fold_domains registry self raw_data query_builder base_query
    (names : list string) (acc : Engine2.Execution) :
  let ex :=
    foldl (Engine2.run_one registry self raw_data query_builder base_query)
      acc names in
  dom (Engine2.results ex) = list_to_set names ∪ dom (Engine2.results acc) ∧
  Engine2.execution_times_ms ex
  = list_to_set (filter (λ n, is_Some (Engine2.get_service registry n)) names)
    ∪ Engine2.execution_times_ms acc.
Proof.
  revert acc. induction names as [|x names IH]; intros acc; cbn [foldl].
  - cbv zeta. rewrite filter_nil. split; by_membership.
  - specialize (IH (Engine2.run_one registry self raw_data query_builder
                      base_query acc x)).
    cbv zeta in *. destruct IH as [-> ->].
    rewrite filter_cons. unfold Engine2.run_one.
    destruct (decide (is_Some (Engine2.get_service registry x))) as [Hs|Hn].
    + destruct Hs as [service Ex]. rewrite Ex.
      destruct (Engine2.process service _ _ _ _); simpl;
        rewrite dom_insert_L; split; by_membership.
    + apply eq_None_not_Some in Hn. rewrite Hn.
      simpl. rewrite dom_insert_L. split; by_membership.
Qed.

(** X6.  Engine 2: the result map of [execute_analyses] has an entry for
    exactly the requested names, and a timing entry for exactly the
    requested names the registry knows. *)
Theorem execute_analyses_domains
    (registry : list (string * Engine2.AnalysisService))
    (self : Engine2.PipelineManager) (raw_data : list Dict)
    (names : list string) (query_builder : option Engine2.MongoQueryBuilder)
    (base_query : option Dict) :
  let execution :=
    Engine2.execute_analyses registry self raw_data names query_builder
      base_query in
  dom (Engine2.results execution) = list_to_set names ∧
  Engine2.execution_times_ms execution
  = list_to_set (filter (λ n, is_Some (Engine2.get_service registry n)) names).
Proof.
  cbv zeta. unfold Engine2.execute_analyses.
  destruct (engine2_fold_domains registry self raw_data query_builder base_query
              names (Engine2.mkExecution ∅ ∅)) as [-> ->].
  simpl. split; by_membership.
Qed.

(** X7.  Engine 2, the /analyze route: the analyses of a request are
    validated first and only the registered ones are run, in memory, on
    the fetched rows; so the answer has an entry for a name exactly when
    the name was requested and is registered, and never a "not found"
    entry. *)
Theorem route_runs_registered_analyses_only
    (registry : list (string * Engine2.AnalysisService))
    (request : Engine2Api.QueryRequest)
    (query_builder : Engine2.MongoQueryBuilder) (raw_data : list Dict)
    (analysis_name : string) :
  Engine2Api.run_analyses registry request query_builder raw_data !! analysis_name
  = match Engine2.get_service registry analysis_name with
    | Some service =>
        if decide (analysis_name ∈ Engine2Api.analyses request) then
          Some (match Engine2.process service raw_data false (Some query_builder)
                        (Some (Engine2.query query_builder)) with
                | Ok result => result
                | Raise e => Engine2.error_payload e
                end)
        else None
    | None => None
    end.
Proof.
  unfold Engine2Api.run_analyses.
  destruct (Engine2Api.analyses request) as [|a names] eqn:Ea.
  { rewrite lookup_empty. destruct (Engine2.get_service registry analysis_name);
      [|done]. by rewrite decide_False by apply not_elem_of_nil. }
  unfold Engine2.validate_analyses.
  set (valid := filter (λ n, is_Some (Engine2.get_service registry n)) (a :: names)).
  assert (∀ n, n ∈ valid ↔ n ∈ a :: names ∧ is_Some (Engine2.get_service registry n))
    as Hvalid by (intros n; unfold valid; rewrite list_elem_of_filter; tauto).
  assert (Engine2.results
            (Engine2.execute_analyses registry (Engine2.mkManager false) raw_data
               valid (Some query_builder) (Some (Engine2.query query_builder)))
            !! analysis_name
          = match Engine2.get_service registry analysis_name with
            | Some service =>
                if decide (analysis_name ∈ a :: names) then
                  Some (match Engine2.process service raw_data false
                                (Some query_builder)
                                (Some (Engine2.query query_builder)) with
                        | Ok result => result
                        | Raise e => Engine2.error_payload e
                        end)
                else None
            | None => None
            end) as Hrun.
  { unfold Engine2.execute_analyses. rewrite engine2_fold_lookup. simpl.
    rewrite lookup_empty. unfold engine2_entry.
    destruct (Engine2.get_service registry analysis_name) as [service|] eqn:Es.
    - destruct (decide (analysis_name ∈ a :: names)) as [Hin|Hout].
      + rewrite decide_True; [done|]. apply Hvalid. by rewrite Es.
      + rewrite decide_False; [done|]. rewrite Hvalid. tauto.
    - rewrite decide_False; [done|]. rewrite Hvalid, Es. by intros [_ [? ?]]. }
  destruct valid as [|v valid'] eqn:Ev; [|exact Hrun].
  rewrite lookup_empty.
  destruct (Engine2.get_service registry analysis_name) as [service|] eqn:Es;
    [|done].
  destruct (decide (analysis_name ∈ a :: names)) as [Hin|Hout]; [|done].
  exfalso. apply (not_elem_of_nil analysis_name), Hvalid. by rewrite Es.
Qed.

Lemma api_operator_known (op : Engine2Api.FilterOperator) :
  op ≠ Engine2Api.ELEM_MATCH → Engine2Api.operator_value op ∈ known_operators.
Proof.
  intros H. destruct op; try done;
    apply (bool_decide_unpack _); vm_compute; exact I.
Qed.

(** X8.  Engine 2, the /analyze route: a filter condition with operator
    [elem_match] has no effect on the query that is built, wherever it
    stands among the filters (it is the one operator of the request model
    that [add_filter] does not know). *)
Theorem route_ignores_elem_match
    (before after : list Engine2Api.FilterItem)
    (condition : Engine2Api.FilterCondition)
    (query_builder : Engine2.MongoQueryBuilder)
    (Hoperator : Engine2Api.operator condition = Engine2Api.ELEM_MATCH) :
  Engine2Api.add_filters
    (before ++ Engine2Api.Condition condition :: after) query_builder
  = Engine2Api.add_filters (before ++ after) query_builder ∧
  ∀ op, op ≠ Engine2Api.ELEM_MATCH →
        Engine2Api.operator_value op ∈ known_operators.
Proof.
  split; [|exact api_operator_known].
  revert query_builder. induction before as [|item before IH]; intros qb; simpl.
  - by rewrite Hoperator.
  - destruct item as [c|cs]; [apply IH|].
    destruct (Engine2.add_or_condition _ qb); simpl; [apply IH|done].
Qed.

Lemma add_paging_limit (criteria : Engine2Api.SearchCriteria)
    (qb : Engine2.MongoQueryBuilder) (k : Z) :
  Engine2Api.limit criteria = Some k → k ≠ 0 →
  Engine2.limit_count (Engine2Api.add_paging criteria qb) = Some k.
Proof.
  intros Hl Hk. unfold Engine2Api.add_paging. rewrite Hl.
  destruct (Z.eqb_spec k 0); [done|]. reflexivity.
Qed.

(** X9.  Engine 2, the /analyze route: a successful answer never counts
    more rows than the positive limit of the request; and when the client
    is not connected the answer is the 503 exception, whatever the
    request. *)
Theorem route_respects_limit (py_repr : Value → string)
    (registry : list (string * Engine2.AnalysisService))
    (mongo_client : Engine2Api.MongoDBClient) (request : Engine2Api.QueryRequest)
    (raw_data_count : nat) (analyses_results : gmap string Value) (k : Z)
    (Hanswer : Engine2Api.analyze_data py_repr registry mongo_client request
               = Engine2Api.AnalysisResponse raw_data_count analyses_results)
    (Hlimit : Engine2Api.limit (Engine2Api.criteria request) = Some k)
    (Hpositive : 0 < k) :
  (raw_data_count ≤ Z.to_nat k)%nat ∧
  ∀ collection other_request,
    Engine2Api.analyze_data py_repr registry
      (Engine2Api.mkClient false collection) other_request
    = Engine2Api.HTTPException 503 "Database connection not available".
Proof.
  split; [|done].
  revert Hanswer. unfold Engine2Api.analyze_data, Engine2Api.fetch.
  destruct (Engine2Api.is_connected mongo_client); simpl; [|done].
  destruct (Engine2Api.collection mongo_client) as [c|]; simpl; [|done].
  destruct (Engine2Api.add_filters _ _) as [qb1|]; simpl; [|done].
  destruct (Engine2Api.add_sort _ qb1) as [qb2|]; simpl; [|done].
  rewrite engine2_execute_eq. simpl. intros [= <- _].
  rewrite (add_paging_limit _ _ k) by (done || lia). simpl.
  unfold apply_limit. destruct (Z.eqb_spec k 0); [lia|].
  rewrite length_fmap, length_take. lia.
Qed.

(** ** The sales analysis: what a report holds *)

Module SalesByRegionReports.
Import SalesByRegion SalesByRegionFacts.

Lemma sorted_extremes {A} (R : relation A) `{!Transitive R, !Reflexive R}
    (l : list A) :
  Sorted R l →
  (∀ t x, head l = Some t → x ∈ l → R t x) ∧
  (∀ b x, last l = Some b → x ∈ l → R x b).
Proof.
  intros Hs. apply Sorted_StronglySorted in Hs; [|done].
  induction Hs as [|a l Hs [IHh IHl] Hall].
  - split; intros ? ? [=].
  - rewrite Forall_forall in Hall. split.
    + intros t x [= <-] [->|Hx]%elem_of_cons; [done|by apply Hall].
    + intros b x Hb Hx. destruct l as [|c l'].
      * injection Hb as <-. apply elem_of_cons in Hx as [->|Hx]; [done|].
        by apply elem_of_nil in Hx.
      * change (last (c :: l') = Some b) in Hb.
        apply elem_of_cons in Hx as [->|Hx]; [|by apply IHl].
        apply Hall. destruct (last_Some (c :: l') b) as [[l'' Hl] _]; [done|].
        rewrite Hl. apply elem_of_app. right. by left.
Qed.

(** A test that ranks gives a total, transitive and reflexive order of
    the records it compares by a field. *)
Lemma ranks_order {A B} (before : B → B → bool) (field : A → B) :
  ranks before →
  Total (λ a b, before (field a) (field b) = true) ∧
  Transitive (λ a b, before (field a) (field b) = true) ∧
  Reflexive (λ a b, before (field a) (field b) = true).
Proof.
  intros [Htotal Htrans]. split_and!.
  - intros a b. apply Htotal.
  - intros a b c. apply Htrans.
  - intros a. by destruct (Htotal (field a) (field a)).
Qed.

(** X10.  Sales by region, in memory: the analysis answers with the
    missing-columns error, listing the keys the documents have in order
    of first appearance, exactly when no document has the key [region] or
    no document has the key [sales_amount]; it answers with a report
    exactly when both keys occur and no library call raises, and raises
    what the library raised otherwise; a report is also the answer when
    every region is null or missing: it then has no record, no top and
    bottom region, 0 regions and the average 0, while its total is still
    that of the whole column. *)
Theorem pandas_needs_both_columns {Num} (ops : Arithmetic Num)
    (data : list (Row Num)) :
  (analyze_with_pandas ops data
   = Ok (MissingColumns missing_columns_message (columns data))
   ↔ ¬ (has_column "region" data ∧ has_column "sales_amount" data)) ∧
  (is_report (analyze_with_pandas ops data)
   ↔ has_column "region" data ∧ has_column "sales_amount" data ∧
     frame_raises ops (region <$> data) (sales_amount <$> data) = None) ∧
  (∀ e, has_column "region" data → has_column "sales_amount" data →
        frame_raises ops (region <$> data) (sales_amount <$> data) = Some e →
        analyze_with_pandas ops data = Raise e) ∧
  NoDup (columns data) ∧
  (∀ k, k ∈ columns data ↔ Exists (λ r, k ∈ row_keys r) data) ∧
  (has_column "region" data → has_column "sales_amount" data →
   frame_raises ops (region <$> data) (sales_amount <$> data) = None →
   (∀ r, r ∈ data → region_text r = None) →
   analyze_with_pandas ops data
   = Ok (Report
           (mkSummary (py_round2 ops (series_sum ops (sales_amount <$> data)))
              0 (of_int ops 0))
           [] None None)).
Proof.
  rewrite pandas_cases. pose proof (required_columns_spec data) as Hreq.
  split_and!.
  - destruct (forallb _ _).
    + split; [|intros Hno; exfalso; by apply Hno, Hreq].
      by destruct (frame_raises ops _ _).
    + split; [|done]. intros _ Hboth. by apply Hreq in Hboth.
  - destruct (forallb _ _).
    + destruct (frame_raises ops _ _).
      * split; [done|]. by intros (_ & _ & ?).
      * split; [|done]. intros _. by destruct (proj1 Hreq eq_refl).
    + split; [done|]. intros (Hr & Ha & _).
      by pose proof (proj2 Hreq (conj Hr Ha)).
  - intros e Hr Ha He. by rewrite (proj2 Hreq (conj Hr Ha)), He.
  - apply first_seen_spec.
  - apply columns_spec.
  - intros Hr Ha Hnone Hnull.
    rewrite (proj2 Hreq (conj Hr Ha)), Hnone. cbv zeta.
    assert (groupby_keys data = []) as ->; [|reflexivity].
    destruct (groupby_keys data) as [|k ks] eqn:E; [done|]. exfalso.
    assert (k ∈ groupby_keys data) as Hk by (rewrite E; by left).
    apply groupby_keys_spec in Hk as (r & Hin & Hreg).
    specialize (Hnull r Hin). unfold region_text in Hnull.
    by rewrite Hreg in Hnull.
Qed.

Lemma pandas_report_inv {Num} (ops : Arithmetic Num) (data : list (Row Num))
    s by_region top bottom :
  analyze_with_pandas ops data = Ok (Report s by_region top bottom) →
  by_region
  = merge_sort (pd_desc ops)
      (aggregate ops data (series_sum ops (sales_amount <$> data))
         <$> groupby_keys data) ∧
  total_regions s = length by_region ∧
  summary_total_sales s = py_round2 ops (series_sum ops (sales_amount <$> data)) ∧
  top = head by_region ∧ bottom = last by_region.
Proof.
  rewrite pandas_cases. destruct (forallb _ _); [|done].
  destruct (frame_raises ops _ _); [done|].
  cbv zeta. by intros [= <- <- <- <-].
Qed.

(** X11.  Sales by region, in memory: in a report the records are in
    the order the frame's sort gives their sums, largest first when that
    order ranks; there is one record per region text that occurs in the
    rows, each made of the aggregates of the rows of its region; the top
    region is the first record and no record is ranked before it, the
    bottom region is the last and no record is ranked after it. *)
Theorem pandas_report_ranks_regions {Num} (ops : Arithmetic Num)
    (data : list (Row Num)) (s : Summary Num)
    (by_region : list (PandasRecord Num)) (top bottom : option (PandasRecord Num))
    (Hreport : analyze_with_pandas ops data = Ok (Report s by_region top bottom))
    (Hranks : ranks (frame_before ops)) :
  Sorted (pd_desc ops) by_region ∧
  NoDup (pd_region <$> by_region) ∧
  (∀ k, k ∈ pd_region <$> by_region ↔ ∃ r, r ∈ data ∧ region r = Has k) ∧
  (∀ x, x ∈ by_region →
     x = aggregate ops data (series_sum ops (sales_amount <$> data)) (pd_region x)) ∧
  total_regions s = length by_region ∧
  top = head by_region ∧ bottom = last by_region ∧
  (∀ t x, top = Some t → x ∈ by_region →
          frame_before ops (sales_amount_sum t) (sales_amount_sum x) = true) ∧
  (∀ b x, bottom = Some b → x ∈ by_region →
          frame_before ops (sales_amount_sum x) (sales_amount_sum b) = true).
Proof.
  apply pandas_report_inv in Hreport as (Hby & Hn & _ & -> & ->).
  destruct (ranks_order (frame_before ops) sales_amount_sum Hranks)
    as (Htotal & Htrans & Hrefl).
  assert (Sorted (pd_desc ops) by_region) as Hsorted.
  { rewrite Hby. apply (Sorted_merge_sort (pd_desc ops)). }
  assert (by_region ≡ₚ aggregate ops data (series_sum ops (sales_amount <$> data))
                         <$> groupby_keys data)
    as Hperm by (rewrite Hby; apply merge_sort_Permutation).
  assert (pd_region <$> by_region ≡ₚ groupby_keys data) as Hkeys.
  { rewrite Hperm, <- list_fmap_compose. by rewrite list_fmap_id. }
  destruct (sorted_extremes (pd_desc ops) by_region Hsorted) as [Hhead Hlast].
  split_and!; [done| | | |done|done|done| |].
  - rewrite Hkeys. apply groupby_keys_NoDup.
  - intros k. rewrite Hkeys. apply groupby_keys_spec.
  - intros x Hx. rewrite Hperm in Hx.
    apply list_elem_of_fmap in Hx as (k & -> & _). reflexivity.
  - intros t x Ht Hx. apply (Hhead t x Ht Hx).
  - intros b x Hb Hx. apply (Hlast b x Hb Hx).
Qed.

(** X13.  Sales by region, pushed down: a filter that selects no row
    gives the "No data found" marker; selected rows whose grand total the
    division rejects as zero make the pipeline fail; and filtering in the
    pipeline is the same as running the unfiltered pipeline on the
    selected rows. *)
Theorem pushed_down_without_a_total {Num} (ops : Arithmetic Num)
    (matches : Dict → Row Num → bool) (base_query : Dict)
    (stored : list (Row Num)) :
  let data := select matches base_query stored in
  (data = [] →
   pushed_down ops matches base_query stored = Ok (NoData "No data found")) ∧
  (data ≠ [] → op_is_zero ops (grand_total ops data) = true →
   pushed_down ops matches base_query stored
   = Raise (mkExn OperationFailure "can't $divide by zero")) ∧
  pushed_down ops matches base_query stored = pushed_down ops matches [] data.
Proof.
  cbv zeta. split_and!.
  - intros E. rewrite pushed_down_cases. cbv zeta. by rewrite E.
  - intros Hne Hzero. rewrite pushed_down_cases. cbv zeta.
    destruct (select matches base_query stored); [done|]. by rewrite Hzero.
  - apply pushed_down_selects.
Qed.

(** X14.  Sales by region, pushed down: for selected rows whose grand
    total the division accepts, the answer is a report; its records are
    in the order the store's sort gives their totals, largest first when
    that order ranks; there is one record per distinct region value, a
    missing or null region being one of them, each computed from the
    rows of its group; the counts of the records add up to the number of
    selected rows; top and bottom are the first and the last record. *)
Theorem pushed_down_report {Num} (ops : Arithmetic Num)
    (matches : Dict → Row Num → bool) (base_query : Dict)
    (stored : list (Row Num))
    (Hrows : select matches base_query stored ≠ [])
    (Htotal : op_is_zero ops (grand_total ops (select matches base_query stored))
              = false)
    (Hranks : ranks (op_before ops)) :
  let data := select matches base_query stored in
  ∃ s by_region,
    pushed_down ops matches base_query stored
    = Ok (Report s by_region (head by_region) (last by_region)) ∧
    Sorted (agg_desc ops) by_region ∧
    NoDup (agg_region <$> by_region) ∧
    (∀ k, k ∈ agg_region <$> by_region ↔ ∃ r, r ∈ data ∧ group_key r = k) ∧
    (∀ x, x ∈ by_region →
       x = projected ops (grand_total ops data) (group_of ops data (agg_region x))) ∧
    column_sum count by_region = Z.of_nat (length data) ∧
    total_regions s = length by_region ∧
    (∀ t x, head by_region = Some t → x ∈ by_region →
            op_before ops (total_sales t) (total_sales x) = true) ∧
    (∀ b x, last by_region = Some b → x ∈ by_region →
            op_before ops (total_sales x) (total_sales b) = true).
Proof.
  cbv zeta. rewrite pushed_down_cases. cbv zeta.
  set (data := select matches base_query stored) in *.
  destruct data as [|r0 data0] eqn:Ed; [done|]. rewrite <- Ed in *.
  rewrite Htotal.
  destruct (ranks_order (op_before ops) (@total_sales Num) Hranks)
    as (Htot & Htrans & Hrefl).
  set (B := merge_sort (agg_desc ops) _).
  assert (B ≡ₚ projected ops (grand_total ops data) <$> region_groups ops data)
    as Hperm by apply merge_sort_Permutation.
  assert (agg_region <$> B ≡ₚ remove_dups (group_key <$> data)) as Hkeys.
  { rewrite Hperm. unfold region_groups. rewrite <- !list_fmap_compose.
    by rewrite list_fmap_id. }
  assert (Sorted (agg_desc ops) B) as Hsorted
    by apply (Sorted_merge_sort (agg_desc ops)).
  destruct (sorted_extremes (agg_desc ops) B Hsorted) as [Hhead Hlast].
  assert (B ≠ []) as HB.
  { apply merge_sort_nonempty. intros E. apply fmap_nil_inv in E.
    by apply (region_groups_nonempty ops data); [rewrite Ed|]. }
  unfold post_process_aggregation. destruct B as [|b B'] eqn:EB; [done|].
  rewrite <- EB in *.
  eexists _, B. split; [reflexivity|].
  split_and!; [done| | | | |done| |].
  - rewrite Hkeys. apply NoDup_remove_dups.
  - intros k. rewrite Hkeys, elem_of_remove_dups, list_elem_of_fmap.
    split; intros (r & H1 & H2); exists r; by split.
  - intros x Hx. rewrite Hperm in Hx. unfold region_groups in Hx.
    apply list_elem_of_fmap in Hx as (g & -> & Hg).
    apply list_elem_of_fmap in Hg as (k & -> & _). reflexivity.
  - unfold column_sum.
    rewrite (sum_perm _ _ (fmap_Permutation _ _ _ Hperm)).
    unfold region_groups. rewrite <- !list_fmap_compose.
    rewrite <- (count_by_key group_key data _ (NoDup_remove_dups _)
                  (keys_cover data)).
    f_equal. apply list_fmap_ext. intros _ k _. simpl.
    by rewrite length_fmap.
  - intros t x Ht Hx. apply (Hhead t x Ht Hx).
  - intros b' x Hb Hx. apply (Hlast b' x Hb Hx).
Qed.

Lemma whole_numbers_rank :
  ranks (frame_before whole_numbers) ∧ ranks (op_before whole_numbers).
Proof.
  split; (split; [intros a b|intros a b c]; simpl; rewrite ?Z.leb_le; lia).
Qed.

Lemma pandas_report_ranks_regions_witness :
  ∃ s by_region top bottom,
    analyze_with_pandas whole_numbers sample_rows
    = Ok (Report s by_region top bottom) ∧
    pd_region <$> by_region = ["north"; "south"] ∧
    Sorted (pd_desc whole_numbers) by_region ∧
    total_regions s = 2%nat.
Proof.
  destruct (analyze_with_pandas whole_numbers sample_rows)
    as [[| |s by_region top bottom]|e] eqn:E;
    [vm_compute in E; discriminate E|vm_compute in E; discriminate E|
     |vm_compute in E; discriminate E].
  exists s, by_region, top, bottom. split; [reflexivity|].
  destruct (pandas_report_ranks_regions whole_numbers sample_rows s by_region
              top bottom E (proj1 whole_numbers_rank))
    as (Hsorted & _ & _ & _ & Hn & _).
  vm_compute in E. injection E as <- <- <- <-.
  split; [reflexivity|]. split; [exact Hsorted|reflexivity].
Defined.

Lemma pushed_down_report_witness :
  ∃ s by_region,
    pushed_down whole_numbers (λ _ _, true) [] sample_rows
    = Ok (Report s by_region (head by_region) (last by_region)) ∧
    Sorted (agg_desc whole_numbers) by_region ∧
    column_sum count by_region = 4 ∧
    length by_region = 3%nat.
Proof.
  destruct (pushed_down_report whole_numbers (λ _ _, true) [] sample_rows)
    as (s & by_region & Hrun & Hsorted & Hnd & Hkeys & _ & Hcount & _);
    [discriminate|reflexivity|exact (proj2 whole_numbers_rank)|].
  exists s, by_region. split; [exact Hrun|]. split; [exact Hsorted|].
  split; [exact Hcount|].
  vm_compute in Hrun. injection Hrun as <- <-. reflexivity.
Defined.

(** A null region with an amount gives a report without regions; a
    frame where no document has the key [sales_amount] gives the
    missing-columns error. *)
Example pandas_columns_sample :
  analyze_with_pandas whole_numbers
    [mkRow ["region"; "sales_amount"] None (Some 5)]
  = Ok (Report (mkSummary 5 0 0) [] None None) ∧
  analyze_with_pandas whole_numbers
    [mkRow ["_id"; "region"] (Some "north") None;
     mkRow ["_id"; "region"; "price"] (Some "south") None]
  = Ok (MissingColumns missing_columns_message ["_id"; "region"; "price"]).
Proof. split; vm_compute; reflexivity. Qed.

End SalesByRegionReports.

(** ** Engine 1: building the base query, running the services *)

Lemma engine1_for_each_raised {A} (xs : list A)
    (body : A → Engine1.MongoQueryBuilder → Engine1.Outcome)
    (b : Engine1.MongoQueryBuilder) (e : Exn) :
  foldl (λ o x, Engine1.and_then o (body x)) (b, Some e) xs = (b, Some e).
Proof. induction xs as [|x xs IH]; [done|]. simpl. exact IH. Qed.

Lemma engine1_for_each_cons {A} (x : A) (xs : list A)
    (body : A → Engine1.MongoQueryBuilder → Engine1.Outcome)
    (b : Engine1.MongoQueryBuilder) :
  Engine1.for_each (x :: xs) body b
  = Engine1.and_then (body x b) (Engine1.for_each xs body).
Proof.
  unfold Engine1.for_each. simpl.
  destruct (body x b) as [b' [e|]]; simpl; [|done].
  apply engine1_for_each_raised.
Qed.

Lemma engine1_for_each_app {A} (xs ys : list A)
    (body : A → Engine1.MongoQueryBuilder → Engine1.Outcome)
    (b : Engine1.MongoQueryBuilder) :
  Engine1.for_each (xs ++ ys) body b
  = Engine1.and_then (Engine1.for_each xs body b) (Engine1.for_each ys body).
Proof.
  revert b. induction xs as [|x xs IH]; intros b; [done|].
  rewrite <- app_comm_cons, !engine1_for_each_cons.
  destruct (body x b) as [b' [e|]]; simpl; [done|]. apply IH.
Qed.

Lemma clauses_are_dicts_set (f : Dict) (field : string) (clause : Dict) :
  clauses_are_dicts f → clauses_are_dicts (dict_set field (VDict clause) f).
Proof.
  intros Hf k v. destruct (decide (k = field)) as [->|Hne].
  - rewrite dict_get_set_eq. intros [= <-]. by eexists.
  - rewrite dict_get_set_ne by done. apply Hf.
Qed.

Lemma has_operator_set (f : Dict) (field key field' key' : string) (v : Value)
    (clause : Dict) :
  default [] (match dict_get field' f with
              | Some (VDict c) => Some c | _ => None end) = clause →
  has_operator f field key →
  has_operator (dict_set field' (VDict (dict_set key' v clause)) f) field key.
Proof.
  intros Hclause (c & Hc & Hk). unfold has_operator.
  destruct (decide (field = field')) as [->|Hne].
  - rewrite dict_get_set_eq. eexists. split; [done|].
    rewrite Hc in Hclause. simpl in Hclause. subst clause.
    destruct (decide (key = key')) as [->|Hkey].
    + rewrite dict_get_set_eq. by eexists.
    + by rewrite dict_get_set_ne.
  - rewrite dict_get_set_ne by done. by exists c.
Qed.

(** A call of [add_filter] with an operator of [op_map] on a filter whose
    clauses are dictionaries. *)
Lemma engine1_add_plain (f : Engine1.FilterCriterion)
    (b : Engine1.MongoQueryBuilder) :
  plain_operator f → clauses_are_dicts (Engine1._filter b) →
  ∃ clause,
    add_criterion f b
    = (Engine1.with_filter
         (dict_set (Engine1.f_field f) (VDict clause) (Engine1._filter b)) b, None) ∧
    (∀ field key, has_operator (Engine1._filter b) field key →
       has_operator (dict_set (Engine1.f_field f) (VDict clause) (Engine1._filter b))
         field key) ∧
    (∀ native, dict_get (Engine1.f_operator f) Engine1.op_map = Some native →
       dict_get native clause = Some (Engine1.f_value f)).
Proof.
  intros [native Hop] Hdicts. unfold add_criterion, Engine1.add_filter.
  destruct (op_map_known _ _ Hop) as (_ & Hregex & _).
  apply String.eqb_neq in Hregex. rewrite Hregex, Hop.
  unfold Engine1.setdefault_setitem.
  destruct (dict_get (Engine1.f_field f) (Engine1._filter b)) as [v|] eqn:E.
  - destruct (Hdicts _ _ E) as [clause ->].
    exists (dict_set native (Engine1.f_value f) clause).
    split; [done|]. split.
    + intros field key. apply has_operator_set. by rewrite E.
    + intros ? [= <-]. apply dict_get_set_eq.
  - exists [(native, Engine1.f_value f)]. split; [done|]. split.
    + intros field key.
      apply (has_operator_set _ field key (Engine1.f_field f) native
               (Engine1.f_value f) []). by rewrite E.
    + intros ? [= <-]. simpl. by rewrite String.eqb_refl.
Qed.

Lemma engine1_filters_ok (fs : list Engine1.FilterCriterion)
    (b : Engine1.MongoQueryBuilder) :
  Forall plain_operator fs → clauses_are_dicts (Engine1._filter b) →
  ∃ filter',
    Engine1.for_each fs add_criterion b = (Engine1.with_filter filter' b, None) ∧
    clauses_are_dicts filter' ∧
    (∀ field key, has_operator (Engine1._filter b) field key →
       has_operator filter' field key) ∧
    (∀ f native, f ∈ fs →
       dict_get (Engine1.f_operator f) Engine1.op_map = Some native →
       has_operator filter' (Engine1.f_field f) native) ∧
    (∀ k, k ∉ Engine1.f_field <$> fs →
       dict_get k filter' = dict_get k (Engine1._filter b)).
Proof.
  intros Hfs. revert b. induction Hfs as [|f fs Hf Hfs IH]; intros b Hdicts.
  - exists (Engine1._filter b). split; [by destruct b|].
    split; [done|]. split; [done|]. split; [|done].
    intros f native Hin. by apply elem_of_nil in Hin.
  - destruct (engine1_add_plain f b Hf Hdicts) as (clause & Hstep & Hkeep & Hnew).
    set (b1 := Engine1.with_filter _ b) in Hstep.
    destruct (IH b1) as (filter' & Hrun & Hd' & Hkeep' & Hall & Hother).
    { apply clauses_are_dicts_set, Hdicts. }
    exists filter'. rewrite engine1_for_each_cons, Hstep. simpl.
    split; [by rewrite Hrun|]. split; [done|]. split; [|split].
    + intros field key H. apply Hkeep', Hkeep, H.
    + intros f' native [->|Hin]%elem_of_cons Hop.
      * apply Hkeep'. simpl. unfold has_operator. rewrite dict_get_set_eq.
        exists clause. split; [done|]. rewrite (Hnew _ Hop). by eexists.
      * by apply Hall.
    + intros k Hk.
      change (k ∉ Engine1.f_field f :: (Engine1.f_field <$> fs)) in Hk.
      apply not_elem_of_cons in Hk as [Hne Hk].
      rewrite (Hother k Hk). simpl. by rewrite dict_get_set_ne.
Qed.

Lemma engine1_sort_fold (ss : list Engine1.SortCriterion)
    (b : Engine1.MongoQueryBuilder) :
  let b' := foldl (λ b s, Engine1.set_sort (Engine1.s_field s)
                            (Engine1.s_direction s) b) b ss in
  Engine1.collection b' = Engine1.collection b ∧
  Engine1._filter b' = Engine1._filter b ∧
  Engine1._limit b' = Engine1._limit b ∧
  Engine1._skip b' = Engine1._skip b ∧
  Engine1._sort b'
  = match ss with
    | [] => Engine1._sort b
    | _ :: _ => Some (default [] (Engine1._sort b) ++ (sort_pair <$> ss))%list
    end.
Proof.
  revert b. induction ss as [|s ss IH]; intros b; [done|].
  cbn [foldl]. cbv zeta in *.
  destruct (IH (Engine1.set_sort (Engine1.s_field s) (Engine1.s_direction s) b))
    as (-> & -> & -> & -> & ->).
  simpl. split_and!; try done.
  destruct ss as [|s' ss]; [done|]. simpl. by rewrite <- app_assoc.
Qed.

(** X15.  Engine 1, [_build_base_query]: when the connection is up, every
    filter criterion names an operator of the table and there is no OR
    group, the query is built; every criterion has left its operator in
    the clause of its field (criteria on one field accumulate), no other
    field has a clause, and sort keys, skip and limit are those of the
    criteria. *)
Theorem build_base_query_accumulates (self : Engine1.PipelineManager)
    (database : string → Collection)
    (Hdb : Engine1.db (Engine1.dal self) = Some database)
    (Hplain : Forall plain_operator
                (default [] (Engine1.filters (Engine1.criteria self))))
    (Hor : default [] (Engine1.or_conditions (Engine1.criteria self)) = []) :
  ∃ builder,
    Engine1._build_base_query self = Ok builder ∧
    Engine1.collection builder = database (Engine1.pm_collection self) ∧
    (∀ f native,
       f ∈ default [] (Engine1.filters (Engine1.criteria self)) →
       dict_get (Engine1.f_operator f) Engine1.op_map = Some native →
       has_operator (Engine1._filter builder) (Engine1.f_field f) native) ∧
    (∀ k, k ∉ Engine1.f_field <$>
                default [] (Engine1.filters (Engine1.criteria self)) →
          dict_get k (Engine1._filter builder) = None) ∧
    Engine1._sort builder
    = match default [] (Engine1.sort (Engine1.criteria self)) with
      | [] => None
      | s :: ss => Some (sort_pair <$> s :: ss)
      end ∧
    Engine1._limit builder = Engine1.limit (Engine1.criteria self) ∧
    Engine1._skip builder = Engine1.skip (Engine1.criteria self).
Proof.
  unfold Engine1._build_base_query, Engine1.get_query_builder.
  rewrite Hdb, Hor. cbn [bind].
  set (b0 := Engine1.init _).
  change (λ f, Engine1.add_filter (Engine1.f_field f) (Engine1.f_operator f)
                 (Engine1.f_value f)) with add_criterion.
  destruct (engine1_filters_ok _ b0 Hplain) as (filter' & -> & _ & _ & Hall & Hother);
    [by intros k v [=]|].
  cbn [Engine1.and_then Engine1.for_each foldl Engine1.returns].
  set (b1 := Engine1.with_filter filter' b0).
  pose proof (engine1_sort_fold
                (default [] (Engine1.sort (Engine1.criteria self))) b1) as Hsort.
  cbv zeta in Hsort. destruct Hsort as (Hc & Hf & _ & _ & Hs).
  eexists. split; [reflexivity|]. simpl. rewrite Hc, Hf, Hs. simpl.
  split_and!; try done.
  by destruct (default [] (Engine1.sort (Engine1.criteria self))).
Qed.

Lemma engine1_or_groups (self : Engine1.PipelineManager)
    (database : string → Collection) (group : Dict) (groups : list Dict) :
  Engine1.db (Engine1.dal self) = Some database →
  Forall plain_operator (default [] (Engine1.filters (Engine1.criteria self))) →
  "$or" ∉ Engine1.f_field <$>
    default [] (Engine1.filters (Engine1.criteria self)) →
  Engine1.or_conditions (Engine1.criteria self) = Some (group :: groups) →
  match groups with
  | [] =>
      ∃ builder,
        Engine1._build_base_query self = Ok builder ∧
        dict_get "$or" (Engine1._filter builder) = Some (VDict group)
  | _ :: _ =>
      Engine1._build_base_query self
      = Raise (mkExn AttributeError "object has no attribute 'extend'")
  end.
Proof.
  intros Hdb Hplain Hfields Hgroups.
  unfold Engine1._build_base_query, Engine1.get_query_builder.
  rewrite Hdb, Hgroups. cbn [bind default from_option id].
  set (b0 := Engine1.init _).
  change (λ f, Engine1.add_filter (Engine1.f_field f) (Engine1.f_operator f)
                 (Engine1.f_value f)) with add_criterion.
  destruct (engine1_filters_ok _ b0 Hplain) as (filter' & -> & _ & _ & _ & Hother);
    [by intros k v [=]|].
  specialize (Hother "$or" Hfields). simpl in Hother.
  cbn [Engine1.and_then]. rewrite engine1_for_each_cons.
  set (b1 := Engine1.with_filter filter' b0).
  assert (Engine1.add_or_condition (VDict group) b1
          = (Engine1.with_filter (dict_set "$or" (VDict group) filter') b1, None))
    as ->.
  { unfold Engine1.add_or_condition. simpl. by rewrite Hother. }
  cbn [Engine1.and_then].
  set (b2 := Engine1.with_filter (dict_set "$or" (VDict group) filter') b1).
  destruct groups as [|group' groups].
  - cbn [Engine1.for_each foldl Engine1.returns Engine1.and_then].
    eexists. split; [reflexivity|].
    pose proof (engine1_sort_fold
                  (default [] (Engine1.sort (Engine1.criteria self))) b2) as Hsort.
    cbv zeta in Hsort. destruct Hsort as (_ & Hf & _).
    cbn [Engine1.set_limit Engine1.set_skip Engine1._filter]. rewrite Hf.
    simpl. apply dict_get_set_eq.
  - rewrite engine1_for_each_cons.
    assert (Engine1.add_or_condition (VDict group') b2
            = (b2, Some (mkExn AttributeError "object has no attribute 'extend'")))
      as ->.
    { unfold Engine1.add_or_condition. simpl. by rewrite dict_get_set_eq. }
    reflexivity.
Qed.

(** X16.  Engine 1, [_build_base_query]: the first OR group of the
    criteria is stored under [$or] as the group dictionary itself, so a
    request with one group builds a query whose [$or] is that dictionary,
    and a request with two or more groups fails on the second one with an
    AttributeError, whatever the groups hold. *)
Theorem build_base_query_or_groups (self : Engine1.PipelineManager)
    (database : string → Collection)
    (group : Dict) (groups : list Dict)
    (Hdb : Engine1.db (Engine1.dal self) = Some database)
    (Hplain : Forall plain_operator
                (default [] (Engine1.filters (Engine1.criteria self))))
    (Hfields : "$or" ∉ Engine1.f_field <$>
                 default [] (Engine1.filters (Engine1.criteria self)))
    (Hgroups : Engine1.or_conditions (Engine1.criteria self)
               = Some (group :: groups)) :
  match groups with
  | [] =>
      ∃ builder,
        Engine1._build_base_query self = Ok builder ∧
        dict_get "$or" (Engine1._filter builder) = Some (VDict group)
  | _ :: _ =>
      Engine1._build_base_query self
      = Raise (mkExn AttributeError "object has no attribute 'extend'")
  end.
Proof. by apply (engine1_or_groups self database). Qed.

(** X17.  Engine 1, [_build_base_query]: the filter criteria are applied
    in order and the first one whose operator is unknown ends the
    construction with the ValueError that names its operator; the
    criteria after it, the OR groups and the sort keys are not looked
    at. *)
Theorem build_base_query_first_unknown_operator (self : Engine1.PipelineManager)
    (database : string → Collection)
    (good rest : list Engine1.FilterCriterion) (bad : Engine1.FilterCriterion)
    (Hdb : Engine1.db (Engine1.dal self) = Some database)
    (Hfilters : Engine1.filters (Engine1.criteria self)
                = Some (good ++ bad :: rest)%list)
    (Hgood : Forall plain_operator good)
    (Hbad : Engine1.f_operator bad ∉ known_operators) :
  Engine1._build_base_query self
  = Raise (Engine1.unsupported_operator (Engine1.f_operator bad)).
Proof.
  unfold Engine1._build_base_query, Engine1.get_query_builder.
  rewrite Hdb, Hfilters. cbn [bind default from_option id].
  set (b0 := Engine1.init _).
  change (λ f, Engine1.add_filter (Engine1.f_field f) (Engine1.f_operator f)
                 (Engine1.f_value f)) with add_criterion.
  rewrite engine1_for_each_app.
  destruct (engine1_filters_ok _ b0 Hgood) as (filter' & -> & _);
    [by intros k v [=]|].
  cbn [Engine1.and_then]. rewrite engine1_for_each_cons.
  assert (add_criterion bad (Engine1.with_filter filter' b0)
          = (Engine1.with_filter filter' b0,
             Some (Engine1.unsupported_operator (Engine1.f_operator bad)))) as ->.
  { unfold add_criterion, Engine1.add_filter.
    rewrite (unknown_not_in_op_map _ Hbad).
    destruct (String.eqb_spec (Engine1.f_operator bad) "regex") as [E|_]; [|done].
    exfalso. apply Hbad. rewrite E. apply (bool_decide_unpack _). vm_compute.
    exact I. }
  reflexivity.
Qed.

Lemma engine1_resolve_names registry (requests : list Engine1.AnalysisRequest)
    services :
  Engine1.resolve registry requests = Ok services →
  resolved_names services = Engine1.name <$> requests.
Proof.
  revert services. induction requests as [|r requests IH]; intros services; simpl.
  - by intros [= <-].
  - destruct (dict_get (Engine1.name r) registry) as [service|]; [|done].
    destruct (Engine1.resolve registry requests) as [rest|]; simpl; [|done].
    intros [= <-]. unfold resolved_names in *. rewrite fmap_cons. simpl.
    f_equal. by apply IH.
Qed.

Lemma engine1_run_services_spec raw_data query_builder
    (services : list (string * Dict * Engine1.AnalysisService))
    (results : gmap string Value) :
  ∃ ran rest,
    services = (ran ++ rest)%list ∧
    dom (Engine1.run_services raw_data query_builder services results).1
    = dom results ∪ list_to_set (resolved_names ran) ∧
    (∀ k, k ∉ resolved_names ran →
       (Engine1.run_services raw_data query_builder services results).1 !! k
       = results !! k) ∧
    match (Engine1.run_services raw_data query_builder services results).2 with
    | None => rest = []
    | Some e =>
        ∃ s rest', rest = s :: rest' ∧
          Engine1.invoke raw_data query_builder s.1.2 s.2 = Raise e
    end.
Proof.
  revert results. induction services as [|[[name params] service] services IH];
    intros results.
  - exists [], []. simpl. split; [done|]. split; [|done].
    unfold resolved_names. simpl. by rewrite union_empty_r_L.
  - cbn [Engine1.run_services].
    destruct (Engine1.invoke raw_data query_builder params service) as [result|e] eqn:E.
    + destruct (IH (<[name := result]> results)) as (ran & rest & -> & Hdom & Hkeep & Herr).
      exists ((name, params, service) :: ran), rest. split; [done|].
      rewrite Hdom. split; [|split; [|exact Herr]].
      * unfold resolved_names. rewrite fmap_cons, list_to_set_cons, dom_insert_L.
        simpl. apply set_eq. intros k.
        rewrite !elem_of_union, elem_of_singleton. tauto.
      * intros k Hk. unfold resolved_names in Hk. rewrite fmap_cons in Hk.
        apply not_elem_of_cons in Hk as [Hne Hk]. simpl in Hne.
        rewrite (Hkeep k Hk). by rewrite lookup_insert_ne.
    + exists [], ((name, params, service) :: services). simpl.
      split; [done|]. split; [|split; [done|]].
      * unfold resolved_names. simpl. by rewrite union_empty_r_L.
      * eexists _, _. split; [done|]. exact E.
Qed.

Lemma engine1_run_services_entries raw_data query_builder
    (services : list (string * Dict * Engine1.AnalysisService))
    (results : gmap string Value) :
  ∃ ran answers rest,
    services = (ran ++ rest)%list ∧
    Forall2 (λ s answer,
               Engine1.invoke raw_data query_builder s.1.2 s.2 = Ok answer)
      ran answers ∧
    (Engine1.run_services raw_data query_builder services results).1
    = store_entries results (zip (resolved_names ran) answers) ∧
    match (Engine1.run_services raw_data query_builder services results).2 with
    | None => rest = []
    | Some e =>
        ∃ s rest', rest = s :: rest' ∧
          Engine1.invoke raw_data query_builder s.1.2 s.2 = Raise e
    end.
Proof.
  revert results. induction services as [|[[name params] service] services IH];
    intros results.
  - exists [], [], []. simpl. split; [done|]. split; [apply Forall2_nil_2|done].
  - cbn [Engine1.run_services].
    destruct (Engine1.invoke raw_data query_builder params service) as [result|e] eqn:E.
    + destruct (IH (<[name := result]> results))
        as (ran & answers & rest & -> & Hok & Hstore & Herr).
      exists ((name, params, service) :: ran), (result :: answers), rest.
      split; [done|]. split; [by apply Forall2_cons|].
      split; [|exact Herr]. rewrite Hstore. reflexivity.
    + exists [], [], ((name, params, service) :: services). simpl.
      split; [done|]. split; [apply Forall2_nil_2|]. split; [done|].
      eexists _, _. split; [done|]. exact E.
Qed.

Lemma store_entries_spec (results : gmap string Value)
    (entries : list (string * Value)) :
  dom (store_entries results entries) = dom results ∪ list_to_set entries.*1 ∧
  ∀ k, k ∉ entries.*1 → store_entries results entries !! k = results !! k.
Proof.
  unfold store_entries. revert results.
  induction entries as [|[name answer] entries IH]; intros results; simpl.
  - split; [by rewrite union_empty_r_L|done].
  - destruct (IH (<[name := answer]> results)) as [Hdom Hkeep]. split.
    + rewrite Hdom, dom_insert_L. apply set_eq. intros k.
      rewrite !elem_of_union, elem_of_singleton. tauto.
    + intros k Hk. apply not_elem_of_cons in Hk as [Hne Hk].
      rewrite (Hkeep k Hk). by rewrite lookup_insert_ne.
Qed.

(** X18.  Engine 1, [run_pipeline]: the services run in the order of the
    request and the first exception ends the loop; the result map then
    is the map before the loop with, stored in order under its name, the
    answer each service before the failing one returned, nothing else
    being added, changed or removed; without an exception every service
    ran. *)
Theorem run_services_stops_at_first_failure
    (raw_data : option (list Dict)) (query_builder : Engine1.MongoQueryBuilder)
    (services : list (string * Dict * Engine1.AnalysisService))
    (results : gmap string Value) :
  let outcome :=
    Engine1.run_services raw_data query_builder services results in
  ∃ ran answers rest,
    services = (ran ++ rest)%list ∧
    Forall2 (λ s answer,
               Engine1.invoke raw_data query_builder s.1.2 s.2 = Ok answer)
      ran answers ∧
    outcome.1 = store_entries results (zip (resolved_names ran) answers) ∧
    dom outcome.1 = dom results ∪ list_to_set (resolved_names ran) ∧
    (∀ k, k ∉ resolved_names ran → outcome.1 !! k = results !! k) ∧
    match outcome.2 with
    | None => rest = []
    | Some e =>
        ∃ s rest', rest = s :: rest' ∧
          Engine1.invoke raw_data query_builder s.1.2 s.2 = Raise e
    end.
Proof.
  cbv zeta.
  destruct (engine1_run_services_entries raw_data query_builder services results)
    as (ran & answers & rest & Hsplit & Hok & Hstore & Herr).
  exists ran, answers, rest.
  assert ((zip (resolved_names ran) answers).*1 = resolved_names ran) as Hnames.
  { apply fst_zip. unfold resolved_names. rewrite length_fmap.
    by rewrite (Forall2_length _ _ _ Hok). }
  destruct (store_entries_spec results (zip (resolved_names ran) answers))
    as [Hdom Hkeep].
  rewrite Hnames in Hdom, Hkeep.
  split; [done|]. split; [done|]. split; [done|].
  rewrite Hstore. split; [done|]. split; [done|]. exact Herr.
Qed.

(** X19.  Engine 1, the /api/analyze endpoint: a successful answer has an
    entry for exactly the requested analysis names; and without a
    database connection the answer is the 503 exception, whatever the
    request. *)
Theorem endpoint_answers_every_analysis (dal : Engine1.AnalyticsDAL)
    (registry : list (string * Engine1.AnalysisService))
    (request : Engine1Api.QueryRequest) (results : gmap string Value)
    (Hanswer : Engine1Api.analyze_data dal registry request
               = Engine1Api.Results results) :
  dom results = list_to_set (Engine1.name <$> Engine1Api.analyses request) ∧
  ∀ other_registry other_request,
    Engine1Api.analyze_data (Engine1.mkDAL None) other_registry other_request
    = Engine1Api.HTTPException 503
        "Service is not ready, database connection is unavailable.".
Proof.
  split; [|done]. revert Hanswer. unfold Engine1Api.analyze_data.
  destruct (Engine1.db dal) as [database|]; [|done].
  unfold Engine1.run_pipeline. simpl.
  destruct (Engine1.resolve registry _) as [services|e] eqn:Er; simpl;
    [|by destruct (exn_kind e)].
  destruct (Engine1._build_base_query _) as [qb|e]; simpl;
    [|by destruct (exn_kind e)].
  set (fetched := if existsb _ services then _ else _).
  destruct fetched as [raw_data|e]; [|by destruct (exn_kind e)].
  destruct (engine1_run_services_spec raw_data qb services ∅)
    as (ran & rest & Hsplit & Hdom & _ & Herr).
  destruct (Engine1.run_services raw_data qb services ∅) as [m [e|]];
    simpl in *; [by destruct (exn_kind e)|].
  intros [= <-]. subst rest. rewrite app_nil_r in Hsplit. subst ran.
  rewrite Hdom, dom_empty_L, union_empty_l_L.
  by rewrite (engine1_resolve_names _ _ _ Er).
Qed.

(** X20.  Engine 1, the /api/analyze endpoint: with the connection up,
    the first requested analysis name that is not registered is answered
    with a 400 whose detail names it, whatever the criteria and whatever
    is requested after it; and a request whose criteria hold two or more
    OR groups, with registered names and known operators, is answered
    with the general 500. *)
Theorem endpoint_error_statuses (dal : Engine1.AnalyticsDAL)
    (registry : list (string * Engine1.AnalysisService))
    (request : Engine1Api.QueryRequest) (database : string → Collection)
    (Hdb : Engine1.db dal = Some database) :
  (∀ good first_bad rest,
     Engine1Api.analyses request = (good ++ first_bad :: rest)%list →
     Forall (λ r, is_Some (dict_get (Engine1.name r) registry)) good →
     dict_get (Engine1.name first_bad) registry = None →
     Engine1Api.analyze_data dal registry request
     = Engine1Api.HTTPException 400
         ("שירות אנליטיקה בשם '" ++ Engine1.name first_bad ++ "' לא נמצא.")) ∧
  (∀ group group' groups,
     Forall (λ r, is_Some (dict_get (Engine1.name r) registry))
       (Engine1Api.analyses request) →
     Forall plain_operator
       (default [] (Engine1.filters (Engine1Api.criteria request))) →
     "$or" ∉ Engine1.f_field <$>
       default [] (Engine1.filters (Engine1Api.criteria request)) →
     Engine1.or_conditions (Engine1Api.criteria request)
     = Some (group :: group' :: groups) →
     Engine1Api.analyze_data dal registry request
     = Engine1Api.HTTPException 500 internal_error).
Proof.
  split.
  - intros good first_bad rest Hsplit Hgood Hbad.
    unfold Engine1Api.analyze_data, Engine1.run_pipeline. rewrite Hdb. simpl.
    by rewrite Hsplit, (engine1_resolve_first_unknown _ _ _ _ Hgood Hbad).
  - intros group group' groups Hreg Hplain Hfields Hgroups.
    unfold Engine1Api.analyze_data, Engine1.run_pipeline. rewrite Hdb. simpl.
    assert (∃ services, Engine1.resolve registry (Engine1Api.analyses request)
                        = Ok services) as [services ->].
    { induction Hreg as [|r rs [service Hs] _ [services IH]]; simpl.
      - by eexists.
      - rewrite Hs, IH. simpl. by eexists. }
    pose proof (engine1_or_groups
                  (Engine1.mkManager dal (Engine1Api.collection request)
                     (Engine1Api.criteria request) (Engine1Api.analyses request))
                  database group (group' :: groups) Hdb Hplain Hfields Hgroups)
      as Hraise.
    simpl in Hraise. rewrite Hraise.
    reflexivity.
Qed.

(** ** The search layer: filters, free text, pages *)

Lemma dict_get_None_keys {V} (k : string) (d : list (string * V)) :
  dict_get k d = None ↔ k ∉ dict_keys d.
Proof.
  unfold dict_keys. induction d as [|[k' v'] d IH]; simpl.
  - split; [intros _; apply not_elem_of_nil|done].
  - rewrite ?fmap_cons, not_elem_of_cons. simpl.
    destruct (String.eqb_spec k k') as [->|Hne]; [split; [done|tauto]|].
    rewrite IH. tauto.
Qed.

Lemma dict_keys_set_spec {V} (k : string) (v : V) (d : list (string * V)) :
  NoDup (dict_keys d) →
  NoDup (dict_keys (dict_set k v d)) ∧
  ∀ k', k' ∈ dict_keys (dict_set k v d) ↔ k' ∈ dict_keys d ∨ k' = k.
Proof.
  intros Hnd. destruct (dict_get k d) as [v0|] eqn:E.
  - rewrite dict_keys_set_present by (by rewrite E). split; [done|].
    intros k'. split; [tauto|]. intros [H| ->]; [done|].
    destruct (decide (k ∈ dict_keys d)) as [Hin|Hout]; [done|].
    apply dict_get_None_keys in Hout. congruence.
  - rewrite dict_keys_set_absent by done. split.
    + apply NoDup_app. split; [done|]. split; [|apply NoDup_singleton].
      intros x Hx ->%list_elem_of_singleton.
      by apply dict_get_None_keys in E.
    + intros k'. rewrite elem_of_app, list_elem_of_singleton. tauto.
Qed.

Lemma dict_update_in {V} (k : string) (d e : list (string * V)) :
  k ∈ dict_keys e → is_Some (dict_get k (dict_update d e)).
Proof.
  unfold dict_update, dict_keys. revert d.
  induction e as [|[k0 v0] e IH]; intros d Hk; [by apply elem_of_nil in Hk|].
  rewrite ?fmap_cons in Hk. simpl in *.
  destruct (decide (k ∈ e.*1)) as [Hin|Hout]; [by apply IH|].
  apply elem_of_cons in Hk as [->|Hk]; [|done].
  pose proof (dict_update_other k0 (dict_set k0 v0 d) e Hout) as H.
  unfold dict_update in H. rewrite H, dict_get_set_eq. by eexists.
Qed.

Lemma field_query_nonempty py_repr int_of_str (fc : Sal1.FilterCondition) fq :
  Sal1.operator fc ≠ Sal1.EQUALS →
  Sal1.field_query_of py_repr int_of_str fc = Ok fq → fq ≠ [].
Proof.
  unfold Sal1.field_query_of. intros Hop.
  destruct (Sal1.operator fc); try done;
    try (intros [= <-]; done);
    try (destruct (Sal1.case_sensitive fc); intros [= <-]; done).
  destruct (Sal1.py_int int_of_str (Sal1.value fc)); simpl; [|done].
  by intros [= <-].
Qed.

Lemma field_query_convertible py_repr int_of_str (fc : Sal1.FilterCondition) :
  convertible int_of_str fc →
  ∃ fq, Sal1.field_query_of py_repr int_of_str fc = Ok fq.
Proof.
  unfold convertible, Sal1.field_query_of. intros Hc.
  destruct (Sal1.operator fc); try (by eexists);
    try (destruct (Sal1.case_sensitive fc); by eexists).
  destruct Hc as [n ->]; [done|]. by eexists.
Qed.

(** One turn of the loop: the query gains a clause for the field of the
    condition and keeps every other clause. *)
Lemma add_condition_spec py_repr int_of_str (query : Dict)
    (fc : Sal1.FilterCondition) :
  convertible int_of_str fc → NoDup (dict_keys query) →
  ∃ clause,
    Sal1.add_condition py_repr int_of_str query fc
    = Ok (dict_set (Sal1.field fc) clause query) ∧
    (Sal1.operator fc = Sal1.EQUALS → clause = Sal1.value fc).
Proof.
  intros Hc Hnd. unfold Sal1.add_condition.
  destruct (field_query_convertible py_repr int_of_str fc Hc) as [fq Hfq].
  assert (Sal1.operator fc ≠ Sal1.EQUALS → fq ≠ []) as Hfq'
    by (intros Hne; exact (field_query_nonempty _ _ _ _ Hne Hfq)).
  rewrite Hfq. simpl.
  destruct (Sal1.operator fc) eqn:Eop;
    [by eexists|
     (destruct fq as [|kv fq]; [by destruct Hfq'|];
      destruct (dict_get (Sal1.field fc) query) as [[]|];
      eexists; (split; [reflexivity|done])) ..].
Qed.

Lemma build_from_app py_repr int_of_str (query : Dict)
    (earlier later : list Sal1.FilterCondition) :
  Sal1.build_from py_repr int_of_str query (earlier ++ later)
  = bind (Sal1.build_from py_repr int_of_str query earlier)
      (λ q, Sal1.build_from py_repr int_of_str q later).
Proof.
  revert query. induction earlier as [|fc earlier IH]; intros query; [done|].
  simpl. destruct (Sal1.add_condition py_repr int_of_str query fc); simpl; [|done].
  apply IH.
Qed.

Lemma build_from_keys py_repr int_of_str (filters : list Sal1.FilterCondition)
    (query : Dict) :
  Forall (convertible int_of_str) filters → NoDup (dict_keys query) →
  ∃ query',
    Sal1.build_from py_repr int_of_str query filters = Ok query' ∧
    NoDup (dict_keys query') ∧
    ∀ k, k ∈ dict_keys query' ↔ k ∈ dict_keys query ∨ k ∈ Sal1.field <$> filters.
Proof.
  intros Hfs. revert query.
  induction Hfs as [|fc filters Hc Hfs IH]; intros query Hnd.
  - exists query. split; [done|]. split; [done|]. intros k.
    split; [tauto|]. intros [H|H]; [done|by apply elem_of_nil in H].
  - destruct (add_condition_spec py_repr int_of_str query fc Hc Hnd)
      as (clause & Hstep & _).
    destruct (dict_keys_set_spec (Sal1.field fc) clause query Hnd) as [Hnd' Hkeys].
    destruct (IH _ Hnd') as (query' & Hrun & Hnd'' & Hkeys').
    exists query'. simpl. rewrite Hstep. simpl. split; [done|]. split; [done|].
    intros k. rewrite Hkeys', Hkeys.
    change (Sal1.field <$> fc :: filters)
      with (Sal1.field fc :: (Sal1.field <$> filters)).
    rewrite elem_of_cons. tauto.
Qed.

(** X21.  [_build_mongodb_filter]: when every [size] condition has a
    value [int] accepts, the filter is built, and it has one clause per
    distinct field of the conditions and no other key. *)
Theorem build_mongodb_filter_keys (py_repr : Value → string)
    (int_of_str : string → Result Z) (filters : list Sal1.FilterCondition)
    (Hsizes : Forall (convertible int_of_str) filters) :
  ∃ query,
    Sal1._build_mongodb_filter py_repr int_of_str filters = Ok query ∧
    NoDup (dict_keys query) ∧
    ∀ k, k ∈ dict_keys query ↔ k ∈ Sal1.field <$> filters.
Proof.
  destruct (build_from_keys py_repr int_of_str filters [] Hsizes)
    as (query & Hrun & Hnd & Hkeys); [apply NoDup_nil_2|].
  exists query. split; [done|]. split; [done|]. intros k. rewrite Hkeys.
  split; [|tauto]. intros [H|H]; [by apply elem_of_nil in H|done].
Qed.

(** X22.  [_build_mongodb_filter]: an [eq] condition replaces whatever
    the earlier conditions built for its field, so the order of the
    conditions matters: [eq] first and another operator second gives a
    clause with [$eq] and the other operator, the other way round only
    the plain value is left. *)
Theorem equals_is_order_sensitive (py_repr : Value → string)
    (int_of_str : string → Result Z) (fc other : Sal1.FilterCondition)
    (field_query : Dict)
    (Hequals : Sal1.operator fc = Sal1.EQUALS)
    (Hother : Sal1.operator other ≠ Sal1.EQUALS)
    (Hfield : Sal1.field other = Sal1.field fc)
    (Hplain : plain_value (Sal1.value fc))
    (Hquery : Sal1.field_query_of py_repr int_of_str other = Ok field_query) :
  Sal1._build_mongodb_filter py_repr int_of_str [fc; other]
  = Ok [(Sal1.field fc,
         VDict (dict_update [("$eq", Sal1.value fc)] field_query))] ∧
  dict_get "$eq" (dict_update [("$eq", Sal1.value fc)] field_query)
  = Some (Sal1.value fc) ∧
  Sal1._build_mongodb_filter py_repr int_of_str [other; fc]
  = Ok [(Sal1.field fc, Sal1.value fc)] ∧
  ∀ earlier query,
    Sal1._build_mongodb_filter py_repr int_of_str (earlier ++ [fc]) = Ok query →
    dict_get (Sal1.field fc) query = Some (Sal1.value fc).
Proof.
  pose proof (field_query_nonempty _ _ _ _ Hother Hquery) as Hne.
  split_and!.
  - unfold Sal1._build_mongodb_filter. cbn [Sal1.build_from].
    assert (Sal1.add_condition py_repr int_of_str [] fc
            = Ok [(Sal1.field fc, Sal1.value fc)]) as ->.
    { unfold Sal1.add_condition. by rewrite Hequals. }
    cbn [bind].
    assert (Sal1.add_condition py_repr int_of_str
              [(Sal1.field fc, Sal1.value fc)] other
            = Ok [(Sal1.field fc,
                   VDict (dict_update [("$eq", Sal1.value fc)] field_query))])
      as ->; [|done].
    unfold Sal1.add_condition. rewrite Hquery, Hfield. cbn [bind dict_get].
    rewrite String.eqb_refl.
    destruct field_query as [|kv fq]; [done|].
    destruct (Sal1.operator other); [done|..];
      (destruct (Sal1.value fc); try done; cbn [dict_set];
       by rewrite String.eqb_refl).
  - rewrite dict_update_other; [by simpl|].
    revert Hquery. unfold Sal1.field_query_of.
    destruct (Sal1.operator other); try done;
      try (intros [= <-]; unfold dict_keys; simpl;
           rewrite ?not_elem_of_cons; split_and?; try done; apply not_elem_of_nil);
      try (destruct (Sal1.case_sensitive other); intros [= <-]; unfold dict_keys;
           simpl; rewrite ?not_elem_of_cons; split_and?; try done;
           apply not_elem_of_nil).
    destruct (Sal1.py_int int_of_str (Sal1.value other)); simpl; [|done].
    intros [= <-]. unfold dict_keys. simpl.
    rewrite ?not_elem_of_cons; split_and?; try done; apply not_elem_of_nil.
  - unfold Sal1._build_mongodb_filter. cbn [Sal1.build_from].
    destruct field_query as [|kv fq]; [done|].
    assert (Sal1.add_condition py_repr int_of_str [] other
            = Ok [(Sal1.field other, VDict (kv :: fq))]) as ->.
    { unfold Sal1.add_condition. rewrite Hquery. simpl.
      by destruct (Sal1.operator other). }
    cbn [bind]. unfold Sal1.add_condition. rewrite Hequals, Hfield.
    cbn [dict_set bind]. by rewrite String.eqb_refl.
  - intros earlier query. unfold Sal1._build_mongodb_filter.
    rewrite build_from_app.
    destruct (Sal1.build_from py_repr int_of_str [] earlier) as [q|]; simpl; [|done].
    unfold Sal1.add_condition. rewrite Hequals. simpl. intros [= <-].
    apply dict_get_set_eq.
Qed.

(** X27.  The search service, [_build_mongodb_filter]: a [contains],
    [starts_with] or [ends_with] condition that comes last, after any
    conditions the loop accepted, leaves for its field a clause whose
    [$regex] is the escaped text ([^] before it for [starts_with], [$]
    after it for [ends_with]); the clause holds [$options] "i" when the
    condition is not case sensitive, and when it is case sensitive the
    clause holds whatever [$options] the field had before, none when the
    field had no clause or a plain value; the other fields keep what
    they had; and the escaped text, read as a pattern, is the text of the
    value taken literally. *)
Theorem text_condition_after_others (py_repr : Value → string)
    (int_of_str : string → Result Z)
    (filters : list Sal1.FilterCondition) (fc : Sal1.FilterCondition)
    (query : Dict) (pattern : string)
    (Hearlier : Sal1._build_mongodb_filter py_repr int_of_str filters = Ok query)
    (Hpattern : text_pattern py_repr fc = Some pattern) :
  ∃ query',
    Sal1._build_mongodb_filter py_repr int_of_str (filters ++ [fc]) = Ok query' ∧
    dict_get "$regex" (clause_of (Sal1.field fc) query') = Some (VStr pattern) ∧
    dict_get "$options" (clause_of (Sal1.field fc) query')
    = (if Sal1.case_sensitive fc
       then dict_get "$options" (clause_of (Sal1.field fc) query)
       else Some (VStr "i")) ∧
    (∀ k, k ≠ Sal1.field fc → dict_get k query' = dict_get k query) ∧
    literal_text (Sal1.re_escape (str py_repr (Sal1.value fc)))
    = Some (str py_repr (Sal1.value fc)).
Proof.
  unfold Sal1._build_mongodb_filter in *. rewrite build_from_app, Hearlier.
  cbn [bind Sal1.build_from]. unfold Sal1.add_condition, Sal1.field_query_of.
  unfold text_pattern in Hpattern. unfold clause_of.
  destruct (Sal1.operator fc); try done; injection Hpattern as <-;
    destruct (Sal1.case_sensitive fc); cbn [bind];
    destruct (dict_get (Sal1.field fc) query) as [[]|] eqn:Efield;
    cbn [bind]; eexists; (split; [reflexivity|]);
    rewrite dict_get_set_eq; unfold dict_update; cbn [foldl fst snd];
    (split; [by rewrite ?dict_get_set|]);
    (split; [by rewrite ?dict_get_set|]);
    (split; [|apply literal_text_re_escape]);
    intros k Hk; apply dict_get_set_ne; congruence.
Qed.

(** X23.  [search_items]: a free-text search over given fields becomes
    one case-insensitive clause per field under [$or], each with the text
    escaped so that it is matched literally; without fields the text goes
    unescaped to the text index; and the filters of the query, when none
    of them is on a field named [$or] or [$text], leave that part in
    place and add their own fields. *)
Theorem search_text_clauses (py_repr : Value → string)
    (int_of_str : string → Result Z) (search_query : Sal1Search.SearchQuery)
    (c : Ascii.ascii) (s : string)
    (Htext : Sal1Search.text search_query = Some (String c s))
    (Hsizes : Forall (convertible int_of_str)
                (default [] (Sal1Search.filters search_query)))
    (Hor : "$or" ∉ Sal1.field <$> default [] (Sal1Search.filters search_query))
    (Htxt : "$text" ∉ Sal1.field <$> default [] (Sal1Search.filters search_query)) :
  ∃ mongo_query,
    Sal1Search.mongo_query_of py_repr int_of_str search_query = inr mongo_query ∧
    match default [] (Sal1Search.fields search_query) with
    | f :: fs =>
        dict_get "$or" mongo_query
        = Some (VList (text_clause (String c s) <$> f :: fs)) ∧
        dict_get "$text" mongo_query = None
    | [] =>
        dict_get "$text" mongo_query
        = Some (VDict [("$search", VStr (String c s))]) ∧
        dict_get "$or" mongo_query = None
    end ∧
    literal_text (Sal1.re_escape (String c s)) = Some (String c s) ∧
    ∀ k, k ∈ Sal1.field <$> default [] (Sal1Search.filters search_query) →
         is_Some (dict_get k mongo_query).
Proof.
  unfold Sal1Search.mongo_query_of. rewrite Htext. cbv beta iota.
  set (text_part := match Sal1Search.fields search_query with
                    | Some (f :: fs) => _ | _ => _ end).
  assert (match default [] (Sal1Search.fields search_query) with
          | f :: fs =>
              dict_get "$or" text_part
              = Some (VList (text_clause (String c s) <$> f :: fs)) ∧
              dict_get "$text" text_part = None
          | [] =>
              dict_get "$text" text_part
              = Some (VDict [("$search", VStr (String c s))]) ∧
              dict_get "$or" text_part = None
          end) as Htp.
  { subst text_part. by destruct (Sal1Search.fields search_query) as [[|f fs]|]. }
  destruct (Sal1Search.filters search_query) as [[|x r]|] eqn:Ef;
    cbn [default from_option id] in Hsizes, Hor, Htxt |- *; cbv beta iota.
  - exists text_part. split; [done|]. split; [done|].
    split; [apply literal_text_re_escape|]. intros k H. by apply elem_of_nil in H.
  - destruct (build_from_keys py_repr int_of_str (x :: r) [] Hsizes)
      as (filter_query & Hrun & _ & Hkeys); [apply NoDup_nil_2|].
    unfold Sal1._build_mongodb_filter. rewrite Hrun.
    exists (dict_update text_part filter_query). split; [done|].
    assert (∀ k, k ∉ Sal1.field <$> x :: r →
                 dict_get k (dict_update text_part filter_query)
                 = dict_get k text_part) as Hkeep.
    { intros k Hk. apply dict_update_other. rewrite Hkeys. intros [H|H]; [|done].
      by apply elem_of_nil in H. }
    rewrite !Hkeep by done. split; [done|].
    split; [apply literal_text_re_escape|].
    intros k Hk. apply dict_update_in, Hkeys. by right.
  - exists text_part. split; [done|]. split; [done|].
    split; [apply literal_text_re_escape|]. intros k H. by apply elem_of_nil in H.
Qed.

Lemma stringify_items_length py_repr (items items' : list Dict) :
  Sal1Search.stringify_items py_repr items = inr items' →
  length items' = length items.
Proof.
  revert items'. induction items as [|item items IH]; intros items'; simpl.
  - by intros [= <-].
  - destruct (Sal1Search.stringify_item py_repr item); [done|].
    destruct (Sal1Search.stringify_items py_repr items); [done|].
    intros [= <-]. simpl. f_equal. by apply IH.
Qed.

Lemma ceil_pages (n l : Z) :
  0 ≤ n → 1 ≤ l →
  let p := (n + l - 1) / l in
  (p - 1) * l < n ∧ n ≤ p * l.
Proof.
  intros Hn Hl. cbv zeta.
  pose proof (Z.div_mod (n + l - 1) l ltac:(lia)) as Hdm.
  pose proof (Z.mod_pos_bound (n + l - 1) l ltac:(lia)) as Hm.
  nia.
Qed.

(** X24.  [search_items]: for a page number and a page size of at least
    1, over a store whose sort keeps all documents, the answer holds the
    rows of that page (the page size, or what is left of the matches
    after the earlier pages), [pages] is the number of matches divided by
    the page size, rounded up, [has_next] tells that matches remain after
    this page (and is never set when the count is not asked for), and
    [has_prev] that the page is not the first. *)
Theorem search_pagination (py_repr : Value → string)
    (int_of_str : string → Result Z) (store : Collection)
    (search_query : Sal1Search.SearchQuery)
    (response : Sal1Search.PaginatedResponse)
    (Hpage : 1 ≤ Sal1Search.page search_query)
    (Hlimit : 1 ≤ Sal1Search.limit search_query)
    (Horder : ∀ spec l, length (coll_order store spec l) = length l)
    (Hresponse : Sal1Search.search_items py_repr int_of_str (Some store)
                   search_query = Ok response) :
  let page := Sal1Search.page search_query in
  let limit := Sal1Search.limit search_query in
  ∃ mongo_query,
    Sal1Search.mongo_query_of py_repr int_of_str search_query = inr mongo_query ∧
    let matches := Sal1Search.count_documents store mongo_query in
    Z.of_nat (length (Sal1Search.data response))
    = Z.min limit (Z.max 0 (matches - (page - 1) * limit)) ∧
    Sal1Search.r_page response = page ∧
    Sal1Search.r_limit response = limit ∧
    (Sal1Search.has_prev response = true ↔ 1 < page) ∧
    if Sal1Search.include_count search_query then
      Sal1Search.total response = Some matches ∧
      (∃ p, Sal1Search.pages response = Some p ∧
            (p - 1) * limit < matches ∧ matches ≤ p * limit) ∧
      (Sal1Search.has_next response = true ↔ page * limit < matches)
    else
      Sal1Search.total response = None ∧
      Sal1Search.pages response = None ∧
      Sal1Search.has_next response = false.
Proof.
  cbv zeta. revert Hresponse.
  unfold Sal1Search.search_items, Sal1Search.search_body.
  destruct (Sal1Search.mongo_query_of py_repr int_of_str search_query)
    as [r|mongo_query]; [done|].
  exists mongo_query. split; [done|]. revert Hresponse.
  unfold cursor_skip.
  destruct (Z.ltb_spec ((Sal1Search.page search_query - 1)
                        * Sal1Search.limit search_query) 0) as [Hneg|Hskip];
    [nia|].
  destruct (Sal1Search.stringify_items py_repr _) as [r|items] eqn:Ei; [done|].
  apply stringify_items_length in Ei.
  assert (Z.of_nat (length items)
          = Z.min (Sal1Search.limit search_query)
              (Z.max 0 (Sal1Search.count_documents store mongo_query
                        - (Sal1Search.page search_query - 1)
                          * Sal1Search.limit search_query))) as Hlen.
  { rewrite Ei. unfold cursor_list, apply_limit, apply_skip, apply_sort,
      Sal1Search.count_documents. simpl.
    destruct (Z.eqb_spec (Sal1Search.limit search_query) 0) as [E|_]; [lia|].
    rewrite length_take, length_drop, Horder. lia. }
  pose proof (ceil_pages (Sal1Search.count_documents store mongo_query)
                (Sal1Search.limit search_query)) as Hceil.
  cbv zeta in Hceil.
  assert (0 ≤ Sal1Search.count_documents store mongo_query) as Hcount
    by (unfold Sal1Search.count_documents; lia).
  specialize (Hceil Hcount Hlimit).
  destruct (Sal1Search.include_count search_query).
  - destruct (Z.eqb_spec (Sal1Search.limit search_query) 0) as [E|_]; [lia|].
    intros [= <-]. simpl. split; [done|]. split; [done|]. split; [done|].
    split; [apply Z.ltb_lt|]. split; [done|]. split; [by eexists|].
    set (p := (_ + _ - 1) / _) in *.
    destruct (Z.eqb_spec p 0) as [E|Hp].
    + split; [done|]. intros H. exfalso. nia.
    + rewrite Z.ltb_lt. split; intros H; nia.
  - intros [= <-]. simpl. split; [done|]. split; [done|]. split; [done|].
    split; [apply Z.ltb_lt|]. done.
Qed.

(** X25.  [search_items] and [get_all_items]: a search without text,
    filters and sort keys, of page size [limit], is [get_all_items] with
    that limit and the rows of the earlier pages skipped: the same rows,
    or the same error. *)
Theorem plain_search_is_get_all_items (py_repr : Value → string)
    (int_of_str : string → Result Z) (collection : option Collection)
    (search_query : Sal1Search.SearchQuery)
    (Htext : Sal1Search.text search_query = None)
    (Hfilters : Sal1Search.filters search_query = None)
    (Hsort : Sal1Search.sort search_query = None)
    (Hlimit : Sal1Search.limit search_query ≠ 0) :
  let all_items :=
    Sal1Search.get_all_items py_repr collection (Sal1Search.limit search_query)
      ((Sal1Search.page search_query - 1) * Sal1Search.limit search_query) in
  match Sal1Search.search_items py_repr int_of_str collection search_query with
  | Ok response => all_items = Ok (Sal1Search.data response)
  | Raise e => all_items = Raise e
  end.
Proof.
  cbv zeta. unfold Sal1Search.search_items, Sal1Search.get_all_items,
    Sal1Search.search_body, Sal1Search.mongo_query_of,
    Sal1Search.sort_conditions_of.
  rewrite Htext, Hfilters, Hsort.
  destruct collection as [store|]; [|done].
  destruct (cursor_skip _ _) as [cursor|e]; [|done].
  destruct (Sal1Search.stringify_items py_repr _) as [r|items]; [done|].
  destruct (Sal1Search.include_count search_query); [|done].
  destruct (Z.eqb_spec (Sal1Search.limit search_query) 0); [done|]. done.
Qed.

(** ** Engine 2: what a service reads *)

(** X26.  Engine 2, [AbstractAnalysisService.process]: without the
    aggregation flag, or without a query builder, the answer is computed
    from the given rows alone; with both, it is computed from the store
    alone, whatever rows are given and whatever filter, sort, skip and
    limit the builder has accumulated. *)
Theorem process_reads_rows_or_store (py_repr : Value → string)
    (analyze_with_pandas : list Dict → Result Value)
    (build_aggregation_pipeline : Dict → list Value)
    (post_process_aggregation : list Dict → Result Value)
    (service_name : string) (data data' : list Dict) (use_aggregation : bool)
    (query_builder query_builder' : option Engine2.MongoQueryBuilder)
    (base_query base_query' : option Dict) :
  let service :=
    Engine2.concrete_service py_repr analyze_with_pandas
      build_aggregation_pipeline post_process_aggregation service_name in
  Engine2.process service data false query_builder base_query
  = Engine2.process service data use_aggregation None base_query' ∧
  (∀ b b', Engine2.collection b = Engine2.collection b' →
     Engine2.process service data true (Some b) base_query
     = Engine2.process service data' true (Some b') base_query).
Proof.
  cbv zeta. split.
  - simpl. unfold Engine2.AbstractAnalysisService_process.
    by destruct use_aggregation.
  - intros b b' Hc. simpl. unfold Engine2.AbstractAnalysisService_process,
      Engine2.execute_aggregation_pipeline. by rewrite Hc.
Qed.

(** ** The further properties on sample inputs *)

Lemma add_filter_frame_witness :
  let b := (Engine2.add_filter "region" "eq" (VStr "north") None
              (Engine2.init (sample_collection []))).1 in
  let b' := (Engine2.add_filter "age" "gte" (VInt 18) None b).1 in
  dict_get "region" (Engine2.query b') = dict_get "region" (Engine2.query b) ∧
  (dict_keys (Engine2.query b') = dict_keys (Engine2.query b) ∨
   dict_keys (Engine2.query b') = (dict_keys (Engine2.query b) ++ ["age"])%list) ∧
  Engine2.sort_params b' = Engine2.sort_params b ∧
  Engine2.limit_count b' = Engine2.limit_count b ∧
  Engine2.skip_count b' = Engine2.skip_count b.
Proof.
  apply (add_filter_frame "age" "gte" "region" (VInt 18) None). discriminate.
Defined.

Lemma pages_tile_witness :
  let b := Engine2.init (sample_collection three_docs) in
  concat ((λ i, rows_or_nil (engine2_page (λ _, "") b 2 i)) <$> seq 0 2)
  = Engine2.stringify_id (λ _, "") <$> engine2_sorted b.
Proof.
  cbv zeta.
  destruct (pages_tile (λ _, "") (Engine2.init (sample_collection three_docs)) 2 2)
    as (_ & _ & Hall); [lia|].
  apply Hall. vm_compute. lia.
Defined.

Lemma route_ignores_elem_match_witness :
  let b := Engine2.init (sample_collection []) in
  let tags :=
    Engine2Api.mkCondition "tags" Engine2Api.ELEM_MATCH
      (VDict [("name", VStr "new")]) None in
  let age := Engine2Api.mkCondition "age" Engine2Api.GTE (VInt 18) None in
  Engine2Api.add_filters
    [Engine2Api.Condition age; Engine2Api.Condition tags] b
  = Engine2Api.add_filters [Engine2Api.Condition age] b.
Proof.
  cbv zeta.
  exact (proj1 (route_ignores_elem_match
                  [Engine2Api.Condition
                     (Engine2Api.mkCondition "age" Engine2Api.GTE (VInt 18) None)]
                  []
                  (Engine2Api.mkCondition "tags" Engine2Api.ELEM_MATCH
                     (VDict [("name", VStr "new")]) None)
                  (Engine2.init (sample_collection [])) eq_refl)).
Defined.

Lemma route_respects_limit_witness :
  let request :=
    Engine2Api.mkRequest (Engine2Api.mkCriteria [] None None (Some 2) None) [] in
  let client := Engine2Api.mkClient true (Ok (sample_collection three_docs)) in
  Engine2Api.analyze_data (λ _, "") counting_registry client request
  = Engine2Api.AnalysisResponse 2 ∅ ∧
  (2 ≤ Z.to_nat 2)%nat.
Proof.
  cbv zeta. split; [reflexivity|].
  apply (route_respects_limit (λ _, "") counting_registry
           (Engine2Api.mkClient true (Ok (sample_collection three_docs)))
           (Engine2Api.mkRequest
              (Engine2Api.mkCriteria [] None None (Some 2) None) [])
           2 ∅ 2 eq_refl eq_refl).
  lia.
Defined.

Lemma build_base_query_accumulates_witness :
  let criteria :=
    Engine1.mkCriteria (Some age_between) None
      (Some [Engine1.mkSort "age" ASCENDING]) (Some 10) (Some 0) in
  ∃ builder,
    Engine1._build_base_query (sample_manager criteria) = Ok builder ∧
    has_operator (Engine1._filter builder) "age" "$gte" ∧
    has_operator (Engine1._filter builder) "age" "$lte" ∧
    Engine1._sort builder = Some [("age", ASCENDING)] ∧
    Engine1._limit builder = Some 10.
Proof.
  cbv zeta.
  destruct (build_base_query_accumulates
              (sample_manager
                 (Engine1.mkCriteria (Some age_between) None
                    (Some [Engine1.mkSort "age" ASCENDING]) (Some 10) (Some 0)))
              (λ _, sample_collection []) eq_refl)
    as (builder & Hb & _ & Hall & _ & Hsort & Hlimit & _).
  - repeat constructor; by eexists.
  - reflexivity.
  - exists builder. split; [exact Hb|]. split; [|split; [|split; [exact Hsort|exact Hlimit]]].
    + apply (Hall (Engine1.mkFilter "age" "gte" (VInt 18)) "$gte");
        [apply list_elem_of_here|reflexivity].
    + apply (Hall (Engine1.mkFilter "age" "lte" (VInt 65)) "$lte");
        [apply list_elem_of_further, list_elem_of_here|reflexivity].
Defined.

Lemma build_base_query_or_groups_witness :
  Engine1._build_base_query
    (sample_manager
       (Engine1.mkCriteria None
          (Some [[("region", VStr "north")]; [("region", VStr "south")]])
          None None None))
  = Raise (mkExn AttributeError "object has no attribute 'extend'").
Proof.
  apply (build_base_query_or_groups
           (sample_manager
              (Engine1.mkCriteria None
                 (Some [[("region", VStr "north")]; [("region", VStr "south")]])
                 None None None))
           (λ _, sample_collection []) [("region", VStr "north")]
           [[("region", VStr "south")]] eq_refl).
  - constructor.
  - apply not_elem_of_nil.
  - reflexivity.
Defined.

Lemma build_base_query_first_unknown_operator_witness :
  Engine1._build_base_query
    (sample_manager
       (Engine1.mkCriteria
          (Some (age_between ++ [Engine1.mkFilter "price" "between" (VInt 5);
                                 Engine1.mkFilter "age" "ne" (VInt 40)])%list)
          None None None None))
  = Raise (mkExn ValueError "אופרטור לא נתמך: between").
Proof.
  apply (build_base_query_first_unknown_operator
           (sample_manager
              (Engine1.mkCriteria
                 (Some (age_between ++ [Engine1.mkFilter "price" "between" (VInt 5);
                                        Engine1.mkFilter "age" "ne" (VInt 40)])%list)
                 None None None None))
           (λ _, sample_collection []) age_between
           [Engine1.mkFilter "age" "ne" (VInt 40)]
           (Engine1.mkFilter "price" "between" (VInt 5)) eq_refl eq_refl).
  - repeat constructor; by eexists.
  - apply (bool_decide_unpack _). vm_compute. exact I.
Defined.

Lemma endpoint_answers_every_analysis_witness :
  ∃ results,
    Engine1Api.analyze_data sample_dal engine1_registry
      (Engine1Api.mkRequest "sales" Engine1.default_criteria
         [Engine1.mkRequest "sales_by_region" []])
    = Engine1Api.Results results ∧
    dom results = list_to_set ["sales_by_region"].
Proof.
  destruct (Engine1Api.analyze_data sample_dal engine1_registry
              (Engine1Api.mkRequest "sales" Engine1.default_criteria
                 [Engine1.mkRequest "sales_by_region" []]))
    as [results|status_code detail] eqn:E.
  - exists results. split; [reflexivity|].
    exact (proj1 (endpoint_answers_every_analysis _ _ _ _ E)).
  - vm_compute in E. discriminate E.
Defined.

Lemma endpoint_error_statuses_witness :
  Engine1Api.analyze_data sample_dal engine1_registry
    (Engine1Api.mkRequest "sales" Engine1.default_criteria
       [Engine1.mkRequest "sales_by_region" [];
        Engine1.mkRequest "no_such_analysis" [];
        Engine1.mkRequest "also_missing" []])
  = Engine1Api.HTTPException 400 "שירות אנליטיקה בשם 'no_such_analysis' לא נמצא.".
Proof.
  destruct (endpoint_error_statuses sample_dal engine1_registry
              (Engine1Api.mkRequest "sales" Engine1.default_criteria
                 [Engine1.mkRequest "sales_by_region" [];
                  Engine1.mkRequest "no_such_analysis" [];
                  Engine1.mkRequest "also_missing" []])
              (λ _, sample_collection []) eq_refl) as [Hbad _].
  apply (Hbad [Engine1.mkRequest "sales_by_region" []]
           (Engine1.mkRequest "no_such_analysis" [])
           [Engine1.mkRequest "also_missing" []]).
  - reflexivity.
  - repeat constructor. by eexists.
  - reflexivity.
Defined.

Lemma build_mongodb_filter_keys_witness :
  ∃ query,
    Sal1._build_mongodb_filter (λ _, "") (λ _, Ok 0)
      [age_over_18; Sal1.mkCondition "tags" Sal1.SIZE (VInt 2) false; age_is_30]
    = Ok query ∧
    NoDup (dict_keys query) ∧
    ∀ k, k ∈ dict_keys query ↔ k ∈ ["age"; "tags"; "age"].
Proof.
  apply (build_mongodb_filter_keys (λ _, "") (λ _, Ok 0)
           [age_over_18; Sal1.mkCondition "tags" Sal1.SIZE (VInt 2) false;
            age_is_30]).
  repeat constructor; intros H; try discriminate H. by exists 2.
Defined.

Lemma equals_is_order_sensitive_witness :
  Sal1._build_mongodb_filter (λ _, "") (λ _, Ok 0) [age_is_30; age_over_18]
  = Ok [("age", VDict [("$eq", VInt 30); ("$gt", VInt 18)])] ∧
  Sal1._build_mongodb_filter (λ _, "") (λ _, Ok 0) [age_over_18; age_is_30]
  = Ok [("age", VInt 30)].
Proof.
  destruct (equals_is_order_sensitive (λ _, "") (λ _, Ok 0) age_is_30 age_over_18
              [("$gt", VInt 18)] eq_refl) as (H1 & _ & H2 & _).
  - discriminate.
  - reflexivity.
  - exact I.
  - reflexivity.
  - split; [exact H1|exact H2].
Defined.

Lemma text_condition_after_others_witness :
  ∃ query',
    Sal1._build_mongodb_filter (λ _, "") (λ _, Ok 0)
      [Sal1.mkCondition "name" Sal1.CONTAINS (VStr "a") false;
       Sal1.mkCondition "city" Sal1.EQUALS (VStr "Haifa") true;
       Sal1.mkCondition "name" Sal1.STARTS_WITH (VStr "B.") true] = Ok query' ∧
    dict_get "$regex" (clause_of "name" query') = Some (VStr "^B\.") ∧
    dict_get "$options" (clause_of "name" query') = Some (VStr "i") ∧
    (∀ k, k ≠ "name" →
       dict_get k query'
       = dict_get k [("name", VDict [("$regex", VStr "a"); ("$options", VStr "i")]);
                     ("city", VStr "Haifa")]) ∧
    literal_text "B\." = Some "B.".
Proof.
  exact (text_condition_after_others (λ _, "") (λ _, Ok 0)
           [Sal1.mkCondition "name" Sal1.CONTAINS (VStr "a") false;
            Sal1.mkCondition "city" Sal1.EQUALS (VStr "Haifa") true]
           (Sal1.mkCondition "name" Sal1.STARTS_WITH (VStr "B.") true)
           [("name", VDict [("$regex", VStr "a"); ("$options", VStr "i")]);
            ("city", VStr "Haifa")]
           "^B\." eq_refl eq_refl).
Defined.

Lemma search_text_clauses_witness :
  ∃ mongo_query,
    Sal1Search.mongo_query_of (λ _, "") (λ _, Ok 0) text_search = inr mongo_query ∧
    dict_get "$or" mongo_query
    = Some (VList [text_clause "a.b" "name"; text_clause "a.b" "city"]) ∧
    is_Some (dict_get "age" mongo_query).
Proof.
  destruct (search_text_clauses (λ _, "") (λ _, Ok 0) text_search (Ascii.ascii_of_nat 97) ".b" eq_refl)
    as (mongo_query & Hq & [Hor _] & _ & Hfilters).
  - repeat constructor. intros H. discriminate H.
  - apply (bool_decide_unpack _). vm_compute. exact I.
  - apply (bool_decide_unpack _). vm_compute. exact I.
  - exists mongo_query. split; [exact Hq|]. split; [exact Hor|].
    apply Hfilters. apply (bool_decide_unpack _). vm_compute. exact I.
Defined.

Lemma search_pagination_witness :
  ∃ response,
    Sal1Search.search_items (λ _, "") (λ _, Ok 0)
      (Some (sample_collection three_docs)) (sample_search 2 2) = Ok response ∧
    Z.of_nat (length (Sal1Search.data response)) = 1 ∧
    Sal1Search.pages response = Some 2 ∧
    Sal1Search.has_next response = false ∧
    Sal1Search.has_prev response = true.
Proof.
  destruct (Sal1Search.search_items (λ _, "") (λ _, Ok 0)
              (Some (sample_collection three_docs)) (sample_search 2 2))
    as [response|e] eqn:E; [|vm_compute in E; discriminate E].
  exists response. split; [reflexivity|].
  destruct (search_pagination (λ _, "") (λ _, Ok 0) (sample_collection three_docs)
              (sample_search 2 2) response) as (q & Hq & Hlen & _ & _ & Hprev & Hcount);
    [unfold sample_search; simpl; lia|unfold sample_search; simpl; lia
    |reflexivity|exact E|].
  injection Hq as <-. simpl in Hcount. destruct Hcount as (_ & (p & Hp & Hlo & Hhi) & Hnext).
  split; [exact Hlen|]. split; [|split].
  - rewrite Hp. f_equal.
    change ((p - 1) * 2 < 3) in Hlo. change (3 ≤ p * 2) in Hhi. lia.
  - destruct (Sal1Search.has_next response); [|reflexivity].
    exfalso. destruct Hnext as [Hnext _]. specialize (Hnext eq_refl).
    change (2 * 2 < 3) in Hnext. lia.
  - apply Hprev. unfold sample_search. simpl. lia.
Defined.

Lemma plain_search_is_get_all_items_witness :
  ∃ response,
    Sal1Search.search_items (λ _, "") (λ _, Ok 0)
      (Some (sample_collection three_docs)) (sample_search 2 2) = Ok response ∧
    Sal1Search.get_all_items (λ _, "") (Some (sample_collection three_docs)) 2 2
    = Ok (Sal1Search.data response).
Proof.
  pose proof (plain_search_is_get_all_items (λ _, "") (λ _, Ok 0)
                (Some (sample_collection three_docs)) (sample_search 2 2)
                eq_refl eq_refl eq_refl) as H.
  cbv zeta in H.
  destruct (Sal1Search.search_items (λ _, "") (λ _, Ok 0)
              (Some (sample_collection three_docs)) (sample_search 2 2))
    as [response|e] eqn:E; [|vm_compute in E; discriminate E].
  exists response. split; [reflexivity|]. apply H. discriminate.
Defined.
